(** * respy.units.quantity: a shallow embedding of the [Quantity] class

    [Quantity] is a numpy array subclass that carries a physical unit, a
    cached dimension, a display name and a few construction flags.  This
    development embeds the class of [src/respy/units/quantity.py] method
    by method.

    The class talks to three collaborators that are not part of the
    module: numpy (arrays and ufuncs), sympy / [respy.unit_base.auxil]
    (unit objects, [get_unit], the scale-factor table [util.Units]) and
    [respy.unit_base.operations] ([compute_operation] and friends).  The
    first two appear as interfaces ([Numeric], [UnitBase]); the third as
    the interface [Operations].  Each interface has a concrete instance
    at the end of the definitions, used to run the methods on examples. *)

From Stdlib Require Import ZArith List String DecimalString Bool Lia Floats.
From Stdlib Require QArith Qabs Lqa.
Import ListNotations.
Local Open Scope string_scope.
Local Open Scope list_scope.

Set Implicit Arguments.
Set Warnings "-register-all".

(* ================================================================== *)
(** * Exceptions and fallible results *)
(* ================================================================== *)

(** The Python exceptions that can cross the methods of the class.
    [UnitError] and [DimensionError] are the two the docstring of
    [Quantity] lists under "Raises"; the others are builtin. *)
Inductive exception : Type :=
| UnitError
| DimensionError
| ValueError
| KeyError
| TypeError
| AttributeError
| NotImplementedError.

Inductive result (A : Type) : Type :=
| Ok (a : A)
| Raise (e : exception).

Arguments Ok {A} a.
Arguments Raise {A} e.

Definition bind {A B : Type} (r : result A) (k : A -> result B) : result B :=
  match r with
  | Ok a => k a
  | Raise e => Raise e
  end.

Declare Scope py_scope.
Delimit Scope py_scope with py.
Notation "x <- c ;; k" := (bind c (fun x => k))
  (at level 61, c at next level, right associativity) : py_scope.
Notation "' pat <- c ;; k" := (bind c (fun x => match x with pat => k end))
  (at level 61, pat pattern, c at next level, right associativity) : py_scope.
Local Open Scope py_scope.

(** [mapM f l]: apply a fallible function left to right, stop at the
    first exception. *)
Fixpoint mapM {A B : Type} (f : A -> result B) (l : list A) : result (list B) :=
  match l with
  | [] => Ok []
  | x :: xs => y <- f x ;; ys <- mapM f xs ;; Ok (y :: ys)
  end.

(** The numpy ufuncs the class reaches through [__UFUNC_NAME__]. *)
Inductive ufunc : Type :=
| np_add | np_subtract | np_multiply | np_true_divide | np_floor_divide
| np_remainder | np_power
| np_left_shift | np_right_shift | np_bitwise_and | np_bitwise_or
| np_bitwise_xor.

(** Modelled from the spec: the table [__UFUNC_NAME__] of
    [respy.units.auxil] is missing from the sources.  It is indexed by
    the name of the running method ([inspect.currentframe().f_code.co_name])
    and gives the operator that method stands for; an unknown key is a
    [KeyError], as for any dict. *)
Definition __UFUNC_NAME__ (co_name : string) : result ufunc :=
  if co_name =? "__add__" then Ok np_add
  else if co_name =? "__sub__" then Ok np_subtract
  else if co_name =? "__rsub__" then Ok np_subtract
  else if co_name =? "__mul__" then Ok np_multiply
  else if co_name =? "__truediv__" then Ok np_true_divide
  else if co_name =? "__rtruediv__" then Ok np_true_divide
  else if co_name =? "__floordiv__" then Ok np_floor_divide
  else if co_name =? "__rfloordiv__" then Ok np_floor_divide
  else if co_name =? "__mod__" then Ok np_remainder
  else if co_name =? "__rmod__" then Ok np_remainder
  else if co_name =? "__pow__" then Ok np_power
  else if co_name =? "__rpow__" then Ok np_power
  else if co_name =? "__lshift__" then Ok np_left_shift
  else if co_name =? "__rlshift__" then Ok np_left_shift
  else if co_name =? "__rshift__" then Ok np_right_shift
  else if co_name =? "__rrshift__" then Ok np_right_shift
  else if co_name =? "__and__" then Ok np_bitwise_and
  else if co_name =? "__rand__" then Ok np_bitwise_and
  else if co_name =? "__or__" then Ok np_bitwise_or
  else if co_name =? "__ror__" then Ok np_bitwise_or
  else if co_name =? "__xor__" then Ok np_bitwise_xor
  else if co_name =? "__rxor__" then Ok np_bitwise_xor
  else Raise KeyError.

(* ================================================================== *)
(** * The numpy layer *)
(* ================================================================== *)

(** An n-dimensional array is a nested sequence: a 0-d array is a
    [Leaf], an array of higher rank is the [Node] of its items along the
    first axis. *)
Inductive tree (A : Type) : Type :=
| Leaf (x : A)
| Node (items : list (tree A)).

Arguments Leaf {A} x.
Arguments Node {A} items.

Fixpoint tree_map {A B : Type} (f : A -> B) (t : tree A) : tree B :=
  match t with
  | Leaf x => Leaf (f x)
  | Node l => Node (map (tree_map f) l)
  end.

Fixpoint leaves {A : Type} (t : tree A) : list A :=
  match t with
  | Leaf x => [x]
  | Node l => flat_map leaves l
  end.

(** [arr.shape], read along the first item of every axis. *)
Fixpoint shape {A : Type} (t : tree A) : list nat :=
  match t with
  | Leaf _ => []
  | Node l => List.length l :: match l with [] => [] | x :: _ => shape x end
  end.

Definition shape_eqb (s1 s2 : list nat) : bool :=
  if list_eq_dec Nat.eq_dec s1 s2 then true else false.

(** A nested sequence is an array when the items of every axis have one
    shape; numpy refuses ragged input. *)
Fixpoint rectangular {A : Type} (t : tree A) : bool :=
  match t with
  | Leaf _ => true
  | Node l =>
      forallb rectangular l &&
      match l with
      | [] => true
      | x :: xs => forallb (fun y => shape_eqb (shape y) (shape x)) xs
      end
  end.

(** The elements and dtypes of numpy, and the element-wise primitives. *)
Class Numeric : Type := {
  (** a Python or numpy number *)
  scalar : Type;
  (** [numpy.dtype] *)
  np_dtype : Type;
  dtype_eqb : np_dtype -> np_dtype -> bool;
  (** the dtype [int] stands for in [x.dtype == int] *)
  np_int : np_dtype;
  np_double : np_dtype;
  (** the dtype numpy gives one number *)
  scalar_dtype : scalar -> np_dtype;
  (** [numpy.promote_types] *)
  promote_types : np_dtype -> np_dtype -> np_dtype;
  (** conversion of one element to a dtype *)
  cast : np_dtype -> scalar -> scalar;
  (** the element of [numpy.zeros] *)
  zero_of : np_dtype -> scalar;
  (** a binary ufunc on two elements; a ufunc with no loop for the
      operand types raises [TypeError] *)
  apply_ufunc : ufunc -> scalar -> scalar -> result scalar
}.

Section Numpy.
Context {N : Numeric}.

Record ndarray : Type := mk_ndarray {
  nd_dtype : np_dtype;
  nd_tree : tree scalar
}.

(** What the class is handed as a value: a number, a nested sequence,
    or an array. *)
Inductive pyobj : Type :=
| PNum (x : scalar)
| PSeq (l : list pyobj)
| PArr (a : ndarray).

Fixpoint to_tree (v : pyobj) : tree scalar :=
  match v with
  | PNum x => Leaf x
  | PSeq l => Node (map to_tree l)
  | PArr a => nd_tree a
  end.

Definition promote_opt (a b : option np_dtype) : option np_dtype :=
  match a, b with
  | Some x, Some y => Some (promote_types x y)
  | Some x, None => Some x
  | None, b => b
  end.

(** The dtype numpy infers for an input; [None] when the input holds
    no number and is not an array. *)
Fixpoint infer_dtype (v : pyobj) : option np_dtype :=
  match v with
  | PNum x => Some (scalar_dtype x)
  | PSeq l => fold_left (fun acc x => promote_opt acc (infer_dtype x)) l None
  | PArr a => Some (nd_dtype a)
  end.

Definition dtype_or_default (d : option np_dtype) : np_dtype :=
  match d with Some d => d | None => np_double end.

(** [ndmin]: ones are prepended to the shape. *)
Fixpoint prepend_axes (n : nat) (t : tree scalar) : tree scalar :=
  match n with
  | O => t
  | S n' => Node [prepend_axes n' t]
  end.

(** [np.array(value, dtype=dtype, copy=copy, order=order, subok=subok,
    ndmin=ndmin)].  [copy], [order] and [subok] decide where the
    result is stored, not what it holds. *)
Definition np_array (value : pyobj) (dtype : option np_dtype)
           (copy : option bool) (order : option string)
           (subok : option bool) (ndmin : nat) : result ndarray :=
  let t := to_tree value in
  if rectangular t then
    let d := match dtype with
             | Some d => d
             | None => dtype_or_default (infer_dtype value)
             end in
    Ok (mk_ndarray d
          (prepend_axes (ndmin - List.length (shape t)) (tree_map (cast d) t)))
  else Raise ValueError.

(** [np.asarray(value)] *)
Definition np_asarray (value : pyobj) : result ndarray :=
  np_array value None (Some false) None (Some false) 0.

(** [np.atleast_1d(x)] *)
Definition np_atleast_1d (x : ndarray) : ndarray :=
  match nd_tree x with
  | Leaf v => mk_ndarray (nd_dtype x) (Node [Leaf v])
  | Node _ => x
  end.

(** [x.astype(dtype)]; [dtype=None] is numpy's default, double. *)
Definition astype (x : ndarray) (dtype : option np_dtype) : ndarray :=
  let d := dtype_or_default dtype in
  mk_ndarray d (tree_map (cast d) (nd_tree x)).

(** [len(x)] *)
Definition np_len (x : ndarray) : result nat :=
  match nd_tree x with
  | Leaf _ => Raise TypeError
  | Node l => Ok (List.length l)
  end.

(** [x.size] *)
Definition np_size (x : ndarray) : nat := List.length (leaves (nd_tree x)).

(** The items [for item in x] walks through: numpy scalars for a
    one-dimensional array, sub-arrays otherwise. *)
Definition item_of (d : np_dtype) (t : tree scalar) : pyobj :=
  match t with
  | Leaf v => PNum v
  | Node l => PArr (mk_ndarray d (Node l))
  end.

Definition np_iter (x : ndarray) : result (list pyobj) :=
  match nd_tree x with
  | Leaf _ => Raise TypeError
  | Node l => Ok (map (item_of (nd_dtype x)) l)
  end.

(** [np.zeros_like(x, dtype=dtype)] *)
Definition np_zeros_like (x : ndarray) (dtype : option np_dtype) : ndarray :=
  let d := match dtype with Some d => d | None => nd_dtype x end in
  mk_ndarray d (tree_map (fun _ => zero_of d) (nd_tree x)).

(** [x.flatten()] *)
Definition flatten (x : ndarray) : ndarray :=
  mk_ndarray (nd_dtype x) (Node (map Leaf (leaves (nd_tree x)))).

(** [x.reshape(shape)] *)
Fixpoint build (dims : list nat) (xs : list scalar) (d : scalar) : tree scalar :=
  match dims with
  | [] => Leaf (hd d xs)
  | n :: ds =>
      let size := fold_right Nat.mul 1 ds in
      Node (map (fun i => build ds (firstn size (skipn (i * size) xs)) d)
                (seq 0 n))
  end.

Definition reshape (x : ndarray) (dims : list nat) : result ndarray :=
  let xs := leaves (nd_tree x) in
  if Nat.eqb (fold_right Nat.mul 1 dims) (List.length xs) then
    Ok (mk_ndarray (nd_dtype x) (build dims xs (zero_of (nd_dtype x))))
  else Raise ValueError.

(** The dtype of an array computed element by element: the promotion
    of its elements' dtypes, [d] when it has none. *)
Definition elements_dtype (t : tree scalar) (d : np_dtype) : np_dtype :=
  match fold_left (fun acc x => promote_opt acc (Some (scalar_dtype x)))
                  (leaves t) None with
  | Some d' => d'
  | None => d
  end.

Definition array_map (f : scalar -> scalar) (x : ndarray) : ndarray :=
  let t := tree_map f (nd_tree x) in
  mk_ndarray (elements_dtype t (nd_dtype x)) t.

(** ** Broadcasting of a binary ufunc *)

(** [np.broadcast_shapes]: shapes are aligned on their last axis; two
    lengths agree when they are equal or one of them is 1. *)
Fixpoint broadcast_rev (r1 r2 : list nat) : option (list nat) :=
  match r1, r2 with
  | [], r => Some r
  | r, [] => Some r
  | n :: r1', m :: r2' =>
      match broadcast_rev r1' r2' with
      | None => None
      | Some r =>
          if Nat.eqb n m then Some (n :: r)
          else if Nat.eqb n 1 then Some (m :: r)
          else if Nat.eqb m 1 then Some (n :: r)
          else None
      end
  end.

Definition broadcast_shapes (s1 s2 : list nat) : option (list nat) :=
  option_map (@rev nat) (broadcast_rev (rev s1) (rev s2)).

(** [np.broadcast_to(t, dims)] for a [dims] that [t]'s shape
    broadcasts to. *)
Fixpoint broadcast_to (dims : list nat) (t : tree scalar) : tree scalar :=
  match dims with
  | [] => t
  | n :: ds =>
      if Nat.ltb (List.length (shape t)) (List.length dims) then
        Node (repeat (broadcast_to ds t) n)
      else
        match t with
        | Leaf _ => t
        | Node l =>
            match l with
            | [x] => if Nat.eqb n 1 then Node [broadcast_to ds x]
                     else Node (repeat (broadcast_to ds x) n)
            | _ => Node (map (broadcast_to ds) l)
            end
        end
  end.

Fixpoint zip_tree (f : scalar -> scalar -> result scalar)
         (a b : tree scalar) {struct a} : result (tree scalar) :=
  match a, b with
  | Leaf x, Leaf y => z <- f x y ;; Ok (Leaf z)
  | Node la, Node lb =>
      l <- (fix go (la : list (tree scalar)) (lb : list (tree scalar))
              : result (list (tree scalar)) :=
              match la, lb with
              | [], [] => Ok []
              | x :: xs, y :: ys =>
                  z <- zip_tree f x y ;; zs <- go xs ys ;; Ok (z :: zs)
              | _, _ => Raise ValueError
              end) la lb ;;
      Ok (Node l)
  | _, _ => Raise ValueError
  end.

(** [ufunc(a, b)] on two arrays: [ValueError] when the shapes do not
    broadcast. *)
Definition np_ufunc (op : ufunc) (a b : ndarray) : result ndarray :=
  match broadcast_shapes (shape (nd_tree a)) (shape (nd_tree b)) with
  | None => Raise ValueError
  | Some dims =>
      t <- zip_tree (apply_ufunc op)
             (broadcast_to dims (nd_tree a))
             (broadcast_to dims (nd_tree b)) ;;
      Ok (mk_ndarray
            (elements_dtype t (promote_types (nd_dtype a) (nd_dtype b))) t)
  end.

(** [value[0] = item]: the first item along the first axis is
    overwritten, the assigned value cast to the array's dtype and
    broadcast to the item's shape. *)
Definition setitem0 (x : ndarray) (item : ndarray) : result ndarray :=
  match nd_tree x with
  | Leaf _ => Raise TypeError
  | Node [] => Raise ValueError
  | Node (first :: rest) =>
      match broadcast_shapes (shape first) (shape (nd_tree item)) with
      | None => Raise ValueError
      | Some dims =>
          if shape_eqb dims (shape first) then
            Ok (mk_ndarray (nd_dtype x)
                  (Node (broadcast_to dims
                           (tree_map (cast (nd_dtype x)) (nd_tree item))
                         :: rest)))
          else Raise ValueError
      end
  end.

End Numpy.


(* ================================================================== *)
(** * The unit layer *)
(* ================================================================== *)

(** What the class is handed as a unit: [None], a Python integer, a
    string for [get_unit] to parse, or a sympy object. *)
Inductive unit_arg (sym : Type) : Type :=
| ANone
| AInt (z : Z)
| AStr (s : string)
| ASym (u : sym).

Arguments ANone {sym}.
Arguments AInt {sym} z.
Arguments AStr {sym} s.
Arguments ASym {sym} u.

(** The names [quantity.py] imports from [respy.units.util],
    [respy.unit_base.auxil], [respy.unit_base.convert] and [util]. *)
Class UnitBase {N : Numeric} : Type := {
  (** sympy objects standing for units: unit symbols, their products
      and powers, and the numbers *)
  sym : Type;
  (** the names of dimensions, [unit.dimension.name] *)
  dim : Type;
  dim_eqb : dim -> dim -> bool;
  dim_eqb_eq : forall a b : dim, dim_eqb a b = true <-> a = b;
  (** the two singletons of [respy.units.util] *)
  Zero : sym;
  One : sym;
  (** [isinstance(u, type(One))] *)
  isinstance_One : sym -> bool;
  (** [u.dimension.name]; [None] stands for the [AttributeError] of an
      object that has no dimension *)
  dimension_name : sym -> option dim;
  (** [get_unit(unit)]: raises when the identifier is unknown *)
  get_unit : unit_arg sym -> result sym;
  (** [str(unit)] and [str(dimension)] *)
  str_unit : option sym -> string;
  str_dim : dim -> string;
  (** [util.Units[dimension][unit].scale_factor] *)
  factor : Type;
  Units : string -> string -> result factor;
  (** one element times, and over, a scale factor *)
  times_factor : scalar -> factor -> scalar;
  over_factor : scalar -> factor -> scalar;
  (** [convert_to_unit(expr, unit).base] for the expression
      [values * unit] *)
  convert_to_unit : ndarray * sym -> sym -> result ndarray
}.

(* ================================================================== *)
(** * The class Quantity *)
(* ================================================================== *)

Section QuantityClass.
Context {N : Numeric} {U : UnitBase}.

(** What the attribute [dimension] holds: [None], the singleton
    [Zero], or the name of a dimension. *)
Inductive pydim : Type :=
| DimNone
| DimZero
| DimName (d : dim).

(** [a == b] on two values of the attribute. *)
Definition pydim_eqb (a b : pydim) : bool :=
  match a, b with
  | DimNone, DimNone => true
  | DimZero, DimZero => true
  | DimName x, DimName y => dim_eqb x y
  | _, _ => false
  end.

(** An instance: the array it is a view of, and the attributes
    [__array_finalize__] lists.  Every attribute can hold [None]. *)
Record Quantity : Type := mk_Quantity {
  data : ndarray;
  unit : option sym;
  value : option ndarray;
  name : option string;
  constant : option bool;
  _dtype : option np_dtype;
  copy : option bool;
  order : option string;
  subok : option bool;
  ndmin : option nat;
  dimension : pydim;
  quantity : option bool
}.

(** ** Attribute assignment *)

Definition with_unit (v : option sym) (q : Quantity) : Quantity :=
  mk_Quantity (data q) v (value q) (name q) (constant q) (_dtype q) (copy q)
              (order q) (subok q) (ndmin q) (dimension q) (quantity q).
Definition with_value (v : option ndarray) (q : Quantity) : Quantity :=
  mk_Quantity (data q) (unit q) v (name q) (constant q) (_dtype q) (copy q)
              (order q) (subok q) (ndmin q) (dimension q) (quantity q).
Definition with_name (v : option string) (q : Quantity) : Quantity :=
  mk_Quantity (data q) (unit q) (value q) v (constant q) (_dtype q) (copy q)
              (order q) (subok q) (ndmin q) (dimension q) (quantity q).
Definition with_constant (v : option bool) (q : Quantity) : Quantity :=
  mk_Quantity (data q) (unit q) (value q) (name q) v (_dtype q) (copy q)
              (order q) (subok q) (ndmin q) (dimension q) (quantity q).
Definition with_dtype (v : option np_dtype) (q : Quantity) : Quantity :=
  mk_Quantity (data q) (unit q) (value q) (name q) (constant q) v (copy q)
              (order q) (subok q) (ndmin q) (dimension q) (quantity q).
Definition with_copy (v : option bool) (q : Quantity) : Quantity :=
  mk_Quantity (data q) (unit q) (value q) (name q) (constant q) (_dtype q) v
              (order q) (subok q) (ndmin q) (dimension q) (quantity q).
Definition with_order (v : option string) (q : Quantity) : Quantity :=
  mk_Quantity (data q) (unit q) (value q) (name q) (constant q) (_dtype q)
              (copy q) v (subok q) (ndmin q) (dimension q) (quantity q).
Definition with_subok (v : option bool) (q : Quantity) : Quantity :=
  mk_Quantity (data q) (unit q) (value q) (name q) (constant q) (_dtype q)
              (copy q) (order q) v (ndmin q) (dimension q) (quantity q).
Definition with_ndmin (v : option nat) (q : Quantity) : Quantity :=
  mk_Quantity (data q) (unit q) (value q) (name q) (constant q) (_dtype q)
              (copy q) (order q) (subok q) v (dimension q) (quantity q).
Definition with_dimension (v : pydim) (q : Quantity) : Quantity :=
  mk_Quantity (data q) (unit q) (value q) (name q) (constant q) (_dtype q)
              (copy q) (order q) (subok q) (ndmin q) v (quantity q).
Definition with_quantity (v : option bool) (q : Quantity) : Quantity :=
  mk_Quantity (data q) (unit q) (value q) (name q) (constant q) (_dtype q)
              (copy q) (order q) (subok q) (ndmin q) (dimension q) v.

(** ** Methods that write to [self]

    A method that assigns attributes is a function from the instance
    before the call to the instance after it and the outcome of the
    call.  An exception leaves the assignments made before it in place,
    as in Python. *)
Definition method (A : Type) : Type := Quantity -> Quantity * result A.

Definition mret {A : Type} (a : A) : method A := fun self => (self, Ok a).

Definition mbind {A B : Type} (m : method A) (k : A -> method B) : method B :=
  fun self =>
    match m self with
    | (self', Ok a) => k a self'
    | (self', Raise e) => (self', Raise e)
    end.

(** A call that cannot touch [self]. *)
Definition call {A : Type} (r : result A) : method A := fun self => (self, r).

(** [self.<attr>], read. *)
Definition getattr {A : Type} (attr : Quantity -> A) : method A :=
  fun self => (self, Ok (attr self)).

(** [self.<attr> = v] *)
Definition setattr (assign : Quantity -> Quantity) : method Datatypes.unit :=
  fun self => (assign self, Ok tt).

Notation "x <~ c ;; k" := (mbind c (fun x => k))
  (at level 61, c at next level, right associativity) : py_scope.
Notation "c >> k" := (mbind c (fun _ => k))
  (at level 61, right associativity) : py_scope.

(** [self.value], as an array: a [None] there has none of the array
    methods and cannot be iterated. *)
Definition the_value (self : Quantity) : result ndarray :=
  match value self with
  | Some a => Ok a
  | None => Raise TypeError
  end.

Definition as_arg (u : option sym) : unit_arg sym :=
  match u with
  | Some s => ASym s
  | None => ANone
  end.

(** [value.view(cls)] on a plain array: the new instance is a view of
    the array's buffer, and [__array_finalize__] copies the eleven
    attributes from [obj] with [getattr(obj, attr, None)]; a plain array
    has none of them. *)
Definition __array_finalize__ (self : Quantity) (obj : option Quantity) : Quantity :=
  match obj with
  | None =>
      mk_Quantity (data self) None None None None None None None None None
                  DimNone None
  | Some o =>
      mk_Quantity (data self) (unit o) (value o) (name o) (constant o)
                  (_dtype o) (copy o) (order o) (subok o) (ndmin o)
                  (dimension o) (quantity o)
  end.

Definition view (x : ndarray) : Quantity :=
  __array_finalize__
    (mk_Quantity x None None None None None None None None None DimNone None)
    None.

(** [set_name] *)
Definition set_name (name' : option string) : method Datatypes.unit :=
  setattr (with_name name').

(** [__set_attributes] *)
Definition __set_attributes (unit' : unit_arg sym) (value' : ndarray)
           (dtype : option np_dtype) (copy' : option bool)
           (order' : option string) (subok' : option bool)
           (constant' : option bool) (ndmin' : option nat)
  : method Datatypes.unit :=
  match unit' with
  | ANone => setattr (with_unit None)
  | ASym u =>
      if isinstance_One u then setattr (with_unit None)
      else (r <~ call (get_unit unit') ;; setattr (with_unit (Some r)))
  | _ => (r <~ call (get_unit unit') ;; setattr (with_unit (Some r)))
  end >>
  setattr (with_value (Some value')) >>
  setattr (with_dtype dtype) >>
  setattr (with_copy copy') >>
  setattr (with_order order') >>
  setattr (with_subok subok') >>
  setattr (with_constant constant') >>
  setattr (with_ndmin ndmin') >>
  (u <~ getattr unit ;;
   match u with
   | Some s =>
       match dimension_name s with
       | Some d => setattr (with_dimension (DimName d))
       | None => setattr (with_dimension DimNone)
       end
   | None => setattr (with_dimension DimNone)
   end).

(** [__create_new_instance] *)
Definition __create_new_instance (self : Quantity) (value' : pyobj)
           (unit' : unit_arg sym) (name' : option string)
           (dtype : option np_dtype) : result Quantity :=
  let unit' :=
    match unit' with
    | ANone => ANone
    | AInt 1 => ANone
    | ASym u => if isinstance_One u then ANone else unit'
    | _ => unit'
    end in
  let dtype :=
    match dtype with
    | None => _dtype self
    | Some _ => dtype
    end in
  value' <- np_array value' dtype (Some false) (order self) (subok self) 0 ;;
  let value' := np_atleast_1d value' in
  let v := view value' in
  match (__set_attributes unit' value' dtype (copy self) (order self)
           (subok self) (constant self) (ndmin self) >>
         set_name name') v with
  | (v', Ok _) => Ok v'
  | (_, Raise e) => Raise e
  end.

(** [__new__] *)
Definition __new__ (value' : pyobj) (unit' : unit_arg sym)
           (dtype : option np_dtype) (copy' : bool) (order' : option string)
           (subok' : bool) (ndmin' : nat) (name' : option string)
           (constant' : bool) : result Quantity :=
  x <- np_array value' dtype (Some copy') order' (Some subok') ndmin' ;;
  let x := np_atleast_1d x in
  let x := if dtype_eqb (nd_dtype x) np_int
           then astype x (Some np_double)
           else x in
  let obj := view x in
  obj <- match unit' with
         | ANone => Ok (with_dimension DimZero (with_unit (Some Zero) obj))
         | _ =>
             u <- get_unit unit' ;;
             let obj := with_unit (Some u) obj in
             Ok (match dimension_name u with
                 | Some d => with_dimension (DimName d) obj
                 | None => with_dimension DimZero obj
                 end)
         end ;;
  let obj := with_value (Some x) obj in
  let obj := with_dtype (Some (nd_dtype x)) obj in
  let obj := match name' with
             | None => with_name (Some "") obj
             | Some _ => with_name name' obj
             end in
  let obj := with_constant (Some constant') obj in
  let obj := with_copy (Some copy') obj in
  let obj := with_order order' obj in
  let obj := with_subok (Some subok') obj in
  let obj := with_ndmin (Some ndmin') obj in
  let obj := with_quantity (Some true) obj in
  Ok obj.

(** The call [Quantity(value, unit)] with every other argument at its
    default. *)
Definition Quantity_ (value' : pyobj) (unit' : unit_arg sym) : result Quantity :=
  __new__ value' unit' None true None false 0 None false.

(** ** Operands *)

(** What stands on the other side of an operator: an object that has
    the attribute [quantity], or anything numpy can make an array of. *)
Inductive other_arg : Type :=
| OtherQuantity (q : Quantity)
| OtherRaw (v : pyobj).

Inductive operand : Type :=
| OpQuantity (q : Quantity)
| OpArray (a : ndarray).

(** [__check_other] *)
Definition __check_other (self : Quantity) (other : other_arg) : result operand :=
  match other with
  | OtherQuantity q => Ok (OpQuantity q)
  | OtherRaw v => a <- np_asarray v ;; Ok (OpArray (np_atleast_1d a))
  end.

(** The functions [quantity.py] imports from
    [respy.unit_base.operations].  [compute_operation] returns the
    tuple [(value, unit, dtype, name)]; [compute_bitwise_operation]
    returns its result as it is. *)
Class Operations : Type := {
  compute_operation :
    Quantity -> operand -> ufunc -> bool ->
    result (pyobj * unit_arg sym * option np_dtype * option string);
  compute_bitwise_operation :
    Quantity -> operand -> ufunc -> bool -> result pyobj
}.

End QuantityClass.

Section QuantityMethods.
Context {N : Numeric} {U : UnitBase} {Ops : Operations}.

Notation "x <~ c ;; k" := (mbind c (fun x => k))
  (at level 61, c at next level, right associativity) : py_scope.
Notation "c >> k" := (mbind c (fun _ => k))
  (at level 61, right associativity) : py_scope.

(** ** Mathematical operations, left *)

(** [__mul__] *)
Definition __mul__ (self : Quantity) (other : other_arg) : result Quantity :=
  other <- __check_other self other ;;
  operator <- __UFUNC_NAME__ "__mul__" ;;
  '(value', unit', dtype, name') <-
    compute_operation self other operator false ;;
  let unit' := match unit' with ANone => ASym Zero | _ => unit' end in
  __create_new_instance self value' unit' name' dtype.

(** [__truediv__]; [__div__] is the same function. *)
Definition __truediv__ (self : Quantity) (other : other_arg) : result Quantity :=
  other <- __check_other self other ;;
  operator <- __UFUNC_NAME__ "__truediv__" ;;
  '(value', unit', dtype, name') <-
    compute_operation self other operator false ;;
  let unit' := match unit' with ANone => ASym Zero | _ => unit' end in
  __create_new_instance self value' unit' name' dtype.

(** [__floordiv__] *)
Definition __floordiv__ (self : Quantity) (other : other_arg) : result Quantity :=
  other <- __check_other self other ;;
  operator <- __UFUNC_NAME__ "__floordiv__" ;;
  '(value', unit', dtype, name') <-
    compute_operation self other operator false ;;
  let unit' := match unit' with ANone => ASym Zero | _ => unit' end in
  __create_new_instance self value' unit' name' dtype.

(** [__mod__] *)
Definition __mod__ (self : Quantity) (other : other_arg) : result Quantity :=
  other <- __check_other self other ;;
  operator <- __UFUNC_NAME__ "__mod__" ;;
  '(value', unit', dtype, name') <-
    compute_operation self other operator false ;;
  let unit' := match unit' with ANone => ASym Zero | _ => unit' end in
  __create_new_instance self value' unit' name' dtype.

(** [__add__]; [__radd__] is the same function. *)
Definition __add__ (self : Quantity) (other : other_arg) : result Quantity :=
  other <- __check_other self other ;;
  operator <- __UFUNC_NAME__ "__add__" ;;
  '(value', unit', dtype, name') <-
    compute_operation self other operator false ;;
  let unit' := match unit' with ANone => ASym Zero | _ => unit' end in
  __create_new_instance self value' unit' name' dtype.

(** [__sub__] *)
Definition __sub__ (self : Quantity) (other : other_arg) : result Quantity :=
  other <- __check_other self other ;;
  operator <- __UFUNC_NAME__ "__sub__" ;;
  '(value', unit', dtype, name') <-
    compute_operation self other operator false ;;
  let unit' := match unit' with ANone => ASym Zero | _ => unit' end in
  __create_new_instance self value' unit' name' dtype.

(** [__pow__] *)
Definition __pow__ (self : Quantity) (other : other_arg) : result Quantity :=
  other <- __check_other self other ;;
  operator <- __UFUNC_NAME__ "__pow__" ;;
  '(value', unit', dtype, name') <-
    compute_operation self other operator false ;;
  let unit' := match unit' with ANone => ASym Zero | _ => unit' end in
  __create_new_instance self value' unit' name' dtype.

(** ** Mathematical operations, right *)

(** [__rtruediv__]; [__rdiv__] is the same function. *)
Definition __rtruediv__ (self : Quantity) (other : other_arg) : result Quantity :=
  other <- __check_other self other ;;
  operator <- __UFUNC_NAME__ "__rtruediv__" ;;
  '(value', unit', dtype, name') <-
    compute_operation self other operator true ;;
  let unit' := match unit' with ANone => ASym Zero | _ => unit' end in
  __create_new_instance self value' unit' name' dtype.

(** [__rsub__] *)
Definition __rsub__ (self : Quantity) (other : other_arg) : result Quantity :=
  other <- __check_other self other ;;
  operator <- __UFUNC_NAME__ "__rsub__" ;;
  '(value', unit', dtype, name') <-
    compute_operation self other operator true ;;
  let unit' := match unit' with ANone => ASym Zero | _ => unit' end in
  __create_new_instance self value' unit' name' dtype.

(** [__rfloordiv__]: the one wrapper that hands the unit on as
    [compute_operation] returned it. *)
Definition __rfloordiv__ (self : Quantity) (other : other_arg) : result Quantity :=
  other <- __check_other self other ;;
  operator <- __UFUNC_NAME__ "__rfloordiv__" ;;
  '(value', unit', dtype, name') <-
    compute_operation self other operator true ;;
  __create_new_instance self value' unit' name' dtype.

(** [__rmod__]: returns what [compute_bitwise_operation] returns. *)
Definition __rmod__ (self : Quantity) (other : other_arg) : result pyobj :=
  other <- __check_other self other ;;
  operator <- __UFUNC_NAME__ "__rmod__" ;;
  compute_bitwise_operation self other operator true.

(** [__rpow__]: returns what [compute_bitwise_operation] returns. *)
Definition __rpow__ (self : Quantity) (other : other_arg) : result pyobj :=
  other <- __check_other self other ;;
  operator <- __UFUNC_NAME__ "__rpow__" ;;
  compute_bitwise_operation self other operator true.

(** [__and__], one of the bitwise operators, for comparison. *)
Definition __and__ (self : Quantity) (other : other_arg) : result pyobj :=
  other <- __check_other self other ;;
  operator <- __UFUNC_NAME__ "__and__" ;;
  compute_bitwise_operation self other operator false.

(** What a binary operator method hands back: an instance of the
    class, or the bare result of a ufunc. *)
Inductive returned : Type :=
| RQuantity (q : Quantity)
| RRaw (v : pyobj).

Definition returns_quantity (r : result Quantity) : result returned :=
  q <- r ;; Ok (RQuantity q).
Definition returns_raw (r : result pyobj) : result returned :=
  v <- r ;; Ok (RRaw v).

(** The reflected arithmetic methods of the class, by name, as Python
    finds them when the left operand of [-], [/], [//], [%] or [**] is
    not a [Quantity]. *)
Definition reflected (method_name : string)
  : option (Quantity -> other_arg -> result returned) :=
  if method_name =? "__rsub__" then
    Some (fun self other => returns_quantity (__rsub__ self other))
  else if method_name =? "__rtruediv__" then
    Some (fun self other => returns_quantity (__rtruediv__ self other))
  else if method_name =? "__rfloordiv__" then
    Some (fun self other => returns_quantity (__rfloordiv__ self other))
  else if method_name =? "__rmod__" then
    Some (fun self other => returns_raw (__rmod__ self other))
  else if method_name =? "__rpow__" then
    Some (fun self other => returns_raw (__rpow__ self other))
  else None.

(** ** Iteration *)

(** The generator [iter_over_value(unit, name)].  Calling it runs
    nothing: the arguments are bound and the body waits.  The first
    [next] evaluates [self.value] and starts the loop over its items;
    every [next] after that resumes at the [yield]. *)
Inductive generator : Type :=
| Created (unit' : option sym) (name' : option string)
| Suspended (pending : list pyobj) (unit' : option sym) (name' : option string)
| Finished.

(** [__iter__] *)
Definition __iter__ (self : Quantity) : generator :=
  Created (unit self) (name self).

(** The loop of [iter_over_value] from its head: the next item is
    wrapped and yielded, or the loop is over ([StopIteration], here
    [Ok None]).  An exception in the body ends the generator. *)
Definition resume (self : Quantity) (pending : list pyobj)
           (unit' : option sym) (name' : option string)
  : generator * result (option Quantity) :=
  match pending with
  | [] => (Finished, Ok None)
  | item :: rest =>
      match __create_new_instance self item (as_arg unit') name' None with
      | Ok q => (Suspended rest unit' name', Ok (Some q))
      | Raise e => (Finished, Raise e)
      end
  end.

(** [next(g)] for a generator made by [self.__iter__()]. *)
Definition next (self : Quantity) (g : generator)
  : generator * result (option Quantity) :=
  match g with
  | Created unit' name' =>
      match v <- the_value self ;; np_iter v with
      | Ok items => resume self items unit' name'
      | Raise e => (Finished, Raise e)
      end
  | Suspended pending unit' name' => resume self pending unit' name'
  | Finished => (Finished, Ok None)
  end.

(** At most [k] calls of [next], the yielded instances in order; the
    flag says whether the generator reported its end. *)
Fixpoint take (self : Quantity) (k : nat) (g : generator)
  : generator * result (list Quantity * bool) :=
  match k with
  | O => (g, Ok ([], false))
  | S k' =>
      match next self g with
      | (g', Raise e) => (g', Raise e)
      | (g', Ok None) => (g', Ok ([], true))
      | (g', Ok (Some q)) =>
          match take self k' g' with
          | (g'', Ok (qs, stop)) => (g'', Ok (q :: qs, stop))
          | (g'', Raise e) => (g'', Raise e)
          end
      end
  end.

(** ** Conversion *)

(** [self.expr], the values times the unit. *)
Definition expr (self : Quantity) : result (ndarray * sym) :=
  v <- the_value self ;;
  match unit self with
  | Some u => Ok (v, u)
  | None => Raise TypeError
  end.

(** The branch of [convert_to] that goes through [convert_to_unit]; it
    is written twice in the method, once in the [try] and once in the
    [except]. *)
Definition convert_by_expression (self : Quantity) (unit' : sym) : result ndarray :=
  v <- the_value self ;;
  let value' := np_zeros_like v (_dtype self) in
  n <- np_len v ;;
  if Nat.eqb n 1 then
    e <- expr self ;;
    arg <- convert_to_unit e unit' ;;
    value' <- setitem0 value' arg ;;
    Ok (flatten value')
  else
    let shape' := shape (nd_tree v) in
    e <- expr self ;;
    let e := (flatten (fst e), snd e) in
    value' <- convert_to_unit e unit' ;;
    reshape value' shape'.

(** [dimension == self.dimension] for the name of a dimension. *)
Definition same_dimension (d : dim) (self : Quantity) : bool :=
  pydim_eqb (DimName d) (dimension self).

(** The [try] block of [convert_to]. *)
Definition convert_try (self : Quantity) (unit' : sym) : result ndarray :=
  match dimension_name unit' with
  | None => Raise AttributeError
  | Some dimension' =>
      if same_dimension dimension' self then
        v <- the_value self ;;
        f <- Units (str_dim dimension') (str_unit (unit self)) ;;
        let scaled_value :=
          array_map (fun x => times_factor x f) (astype v (_dtype self)) in
        g <- Units (str_dim dimension') (str_unit (Some unit')) ;;
        Ok (array_map (fun x => over_factor x g) scaled_value)
      else convert_by_expression self unit'
  end.

(** [try: ... except AttributeError: ...] *)
Definition converted_value (self : Quantity) (unit' : sym) : result ndarray :=
  match convert_try self unit' with
  | Raise AttributeError => convert_by_expression self unit'
  | r => r
  end.

(** [convert_to] *)
Definition convert_to (unit' : unit_arg sym) (inplace : bool)
  : method (option Quantity) :=
  unit' <~ call (get_unit unit') ;;
  self <~ getattr (fun self => self) ;;
  value' <~ call (converted_value self unit') ;;
  if inplace then
    __set_attributes (ASym unit') value' (_dtype self) (copy self)
                     (order self) (subok self) (Some false) (ndmin self) >>
    mret None
  else
    q <~ call (__create_new_instance self (PArr value') (ASym unit')
                 (name self) None) ;;
    mret (Some q).

End QuantityMethods.

(* ================================================================== *)
(** * respy.unit_base.operations, after the specification *)
(* ================================================================== *)

(** sympy's arithmetic on unit objects.  [combine_units op u v] is the
    symbolic combination of two units under a binary operator (the
    product for [*], the quotient for [/], ...), [power_unit u e] the
    unit raised to an exponent. *)
Class UnitAlgebra {N : Numeric} {U : UnitBase} : Type := {
  combine_units : ufunc -> option sym -> option sym -> option sym;
  power_unit : option sym -> ndarray -> option sym
}.

Section SpecOperations.
Context {N : Numeric} {U : UnitBase} {A : UnitAlgebra}.

(** The three unit rules of section 4.2 of the specification. *)
Inductive unit_rule : Type :=
| Additive
| Multiplicative
| Power.

Definition rule_of (operator : ufunc) : option unit_rule :=
  match operator with
  | np_add | np_subtract => Some Additive
  | np_multiply | np_true_divide | np_floor_divide | np_remainder =>
      Some Multiplicative
  | np_power => Some Power
  | _ => None
  end.

(** Step 1: an operand that carries unit metadata is used as it is;
    any other is a dimensionless array, that is, it has the unit and
    the dimension of a [Quantity] built without a unit. *)
Definition operand_unit (x : operand) : option sym :=
  match x with
  | OpQuantity q => unit q
  | OpArray _ => Some Zero
  end.

Definition operand_dimension (x : operand) : pydim :=
  match x with
  | OpQuantity q => dimension q
  | OpArray _ => DimZero
  end.

Definition operand_values (x : operand) : result ndarray :=
  match x with
  | OpQuantity q => the_value q
  | OpArray a => Ok a
  end.

(** Step 4: the left operand's name, or empty if none. *)
Definition operand_name (x : operand) : string :=
  match x with
  | OpQuantity q => match name q with Some n => n | None => "" end
  | OpArray _ => ""
  end.

(** "If the combined unit reduces to the dimensionless sentinel, it is
    normalized to that sentinel": a combined unit that is no unit at
    all, or the number one, is reported as [None]. *)
Definition reduce_dimensionless (u : option sym) : option sym :=
  match u with
  | Some s => if isinstance_One s then None else Some s
  | None => None
  end.

(** Step 2, the unit of the result for the pair [(lhs, rhs)]. *)
Definition resolve_unit (operator : ufunc) (lhs rhs : operand)
  : result (option sym) :=
  match rule_of operator with
  | Some Additive =>
      if pydim_eqb (operand_dimension lhs) (operand_dimension rhs)
      then Ok (operand_unit lhs)
      else Raise DimensionError
  | Some Multiplicative =>
      Ok (reduce_dimensionless
            (combine_units operator (operand_unit lhs) (operand_unit rhs)))
  | Some Power =>
      e <- operand_values rhs ;;
      Ok (power_unit (operand_unit lhs) e)
  | None => Raise TypeError
  end.

(** Modelled from the spec: [compute_operation] of
    [respy.unit_base.operations] is missing from the sources.  Section
    4.2: the unit rule of the operator is resolved (additive operators
    require equal dimensions and keep the left unit, a mismatch is the
    Dimension Mismatch error; multiplicative operators combine the two
    units symbolically; power raises the left unit to the exponent),
    then the primitive operation runs element-wise with broadcasting,
    and the values, the resolved unit, the dtype and the inherited name
    are returned.  With [right_handed] the operands are swapped and the
    rule is applied to the swapped pair. *)
Definition spec_compute_operation (self : Quantity) (other : operand)
           (operator : ufunc) (right_handed : bool)
  : result (pyobj * unit_arg sym * option np_dtype * option string) :=
  let (lhs, rhs) := if right_handed
                    then (other, OpQuantity self)
                    else (OpQuantity self, other) in
  unit' <- resolve_unit operator lhs rhs ;;
  a <- operand_values lhs ;;
  b <- operand_values rhs ;;
  value' <- np_ufunc operator a b ;;
  Ok (PArr value', as_arg unit', Some (nd_dtype value'),
      Some (operand_name lhs)).

(** Modelled from the spec: [compute_bitwise_operation] of
    [respy.unit_base.operations] is missing from the sources.  Section
    4.2: the primitive operation is executed on the values and the raw
    result is returned, without reconstructing a Quantity. *)
Definition spec_compute_bitwise_operation (self : Quantity) (other : operand)
           (operator : ufunc) (right_handed : bool) : result pyobj :=
  let (lhs, rhs) := if right_handed
                    then (other, OpQuantity self)
                    else (OpQuantity self, other) in
  a <- operand_values lhs ;;
  b <- operand_values rhs ;;
  value' <- np_ufunc operator a b ;;
  Ok (PArr value').

Definition spec_operations : Operations :=
  Build_Operations spec_compute_operation spec_compute_bitwise_operation.

End SpecOperations.

(* ================================================================== *)
(** * A reference instance of the numpy layer: int64 and float64 *)
(* ================================================================== *)

Module Reference.

Local Open Scope Z_scope.

(** A Python number: an [int] or a [float] (IEEE binary64). *)
Inductive pynum : Type :=
| PyInt (z : Z)
| PyFloat (f : float).

Inductive dtype : Type :=
| int64
| float64.

Definition dtype_eqb (a b : dtype) : bool :=
  match a, b with
  | int64, int64 | float64, float64 => true
  | _, _ => false
  end.

Definition promote_types (a b : dtype) : dtype :=
  match a, b with
  | int64, int64 => int64
  | _, _ => float64
  end.

(** The integer [z], rounded to the nearest double. *)
Definition float_of_Z (z : Z) : float :=
  SF2Prim (binary_normalize prec emax z 0 false).

Definition int64_min : Z := - 2 ^ 63.

(** A double truncated toward zero; what does not fit 64 bits becomes
    the smallest integer, as on x86-64. *)
Definition Z_of_float (f : float) : Z :=
  match Prim2SF f with
  | S754_zero _ => 0
  | S754_finite s m e =>
      let v := if 0 <=? e then Zpos m * 2 ^ e else Zpos m / 2 ^ (- e) in
      let v := if s then - v else v in
      if (int64_min <=? v) && (v <? 2 ^ 63) then v else int64_min
  | _ => int64_min
  end.

Definition to_float (x : pynum) : float :=
  match x with
  | PyInt z => float_of_Z z
  | PyFloat f => f
  end.

Definition cast (d : dtype) (x : pynum) : pynum :=
  match d, x with
  | float64, _ => PyFloat (to_float x)
  | int64, PyInt z => PyInt z
  | int64, PyFloat f => PyInt (Z_of_float f)
  end.

Definition scalar_dtype (x : pynum) : dtype :=
  match x with
  | PyInt _ => int64
  | PyFloat _ => float64
  end.

Definition zero_of (d : dtype) : pynum :=
  match d with
  | int64 => PyInt 0
  | float64 => PyFloat 0%float
  end.

(** ** Floor division and remainder on doubles, as numpy's [npy_divmod] *)

(** C's [fmod]: the remainder of the truncated quotient, exact. *)
Definition fmod (a b : float) : float :=
  match Prim2SF a, Prim2SF b with
  | S754_nan, _ | _, S754_nan => nan
  | S754_infinity _, _ => nan
  | _, S754_zero _ => nan
  | S754_zero _, _ => a
  | S754_finite _ _ _, S754_infinity _ => a
  | S754_finite sa ma ea, S754_finite _ mb eb =>
      let e := Z.min ea eb in
      let r := Z.rem (Zpos ma * 2 ^ (ea - e)) (Zpos mb * 2 ^ (eb - e)) in
      if r =? 0 then (if sa then neg_zero else zero)
      else
        let f := SF2Prim (binary_normalize prec emax r e false) in
        if sa then (- f)%float else f
  end.

(** C's [floor]. *)
Definition floor (x : float) : float :=
  match Prim2SF x with
  | S754_finite s m e =>
      if 0 <=? e then x
      else
        let q := Zpos m / 2 ^ (- e) in
        let exact := Zpos m mod 2 ^ (- e) =? 0 in
        if exact then x
        else if s then float_of_Z (- (q + 1))
        else float_of_Z q
  | _ => x
  end.

(** C's [copysign(0, x)]. *)
Definition zero_with_sign_of (x : float) : float :=
  if get_sign x then neg_zero else zero.

Definition nonzero (x : float) : bool := negb (x =? 0)%float.

(** [npy_divmod(a, b)]: the floored quotient and the modulus with the
    sign of [b]. *)
Definition npy_divmod (a b : float) : float * float :=
  let mod_ := fmod a b in
  if negb (nonzero b) && negb (is_nan b) then ((a / b)%float, mod_)
  else
    let div := ((a - mod_) / b)%float in
    let '(mod_, div) :=
      if nonzero mod_ then
        if negb (Bool.eqb (b <? 0)%float (mod_ <? 0)%float)
        then ((mod_ + b)%float, (div - 1)%float)
        else (mod_, div)
      else (zero_with_sign_of b, div) in
    let floordiv :=
      if nonzero div then
        let fl := floor div in
        if (0.5 <? div - fl)%float then (fl + 1)%float else fl
      else zero_with_sign_of (a / b)%float in
    (floordiv, mod_).

(** ** The ufuncs *)

(** Two's complement wrap-around of 64-bit arithmetic. *)
Definition wrap64 (z : Z) : Z := (z - int64_min) mod 2 ^ 64 + int64_min.

(** The loops for two int64 elements.  Division by zero gives 0 (numpy
    warns, and the class silences the warning).  An integer raised to a
    negative integer, and a negative shift count, are left out of the
    reference instance. *)
Definition int_ufunc (op : ufunc) (x y : Z) : result pynum :=
  match op with
  | np_add => Ok (PyInt (wrap64 (x + y)))
  | np_subtract => Ok (PyInt (wrap64 (x - y)))
  | np_multiply => Ok (PyInt (wrap64 (x * y)))
  | np_true_divide => Ok (PyFloat (float_of_Z x / float_of_Z y)%float)
  | np_floor_divide => Ok (PyInt (if y =? 0 then 0 else wrap64 (x / y)))
  | np_remainder => Ok (PyInt (if y =? 0 then 0 else x mod y))
  | np_power =>
      if y <? 0 then Raise NotImplementedError
      else Ok (PyInt (wrap64 (x ^ y)))
  | np_left_shift =>
      if y <? 0 then Raise NotImplementedError
      else Ok (PyInt (if 64 <=? y then 0 else wrap64 (Z.shiftl x y)))
  | np_right_shift =>
      if y <? 0 then Raise NotImplementedError
      else Ok (PyInt (Z.shiftr x y))
  | np_bitwise_and => Ok (PyInt (Z.land x y))
  | np_bitwise_or => Ok (PyInt (Z.lor x y))
  | np_bitwise_xor => Ok (PyInt (Z.lxor x y))
  end.

(** The loops for two doubles.  The bitwise ufuncs have none
    ([TypeError]); [power] needs the C library's [pow], which the
    reference instance does not model. *)
Definition float_ufunc (op : ufunc) (x y : float) : result pynum :=
  match op with
  | np_add => Ok (PyFloat (x + y)%float)
  | np_subtract => Ok (PyFloat (x - y)%float)
  | np_multiply => Ok (PyFloat (x * y)%float)
  | np_true_divide => Ok (PyFloat (x / y)%float)
  | np_floor_divide => Ok (PyFloat (fst (npy_divmod x y)))
  | np_remainder => Ok (PyFloat (snd (npy_divmod x y)))
  | np_power => Raise NotImplementedError
  | _ => Raise TypeError
  end.

(** Two integers use the integer loop; any other pair is promoted to
    double. *)
Definition apply_ufunc (op : ufunc) (x y : pynum) : result pynum :=
  match x, y with
  | PyInt a, PyInt b => int_ufunc op a b
  | _, _ => float_ufunc op (to_float x) (to_float y)
  end.

Definition numeric : Numeric :=
  Build_Numeric dtype_eqb int64 float64 scalar_dtype promote_types cast
                zero_of apply_ufunc.

End Reference.

(* ================================================================== *)
(** * A reference instance of the unit layer: a small unit system *)
(* ================================================================== *)

Module ReferenceUnits.

Import Reference.
Local Open Scope Z_scope.

#[local] Existing Instance Reference.numeric.

(** A product of powers of unit symbols, sorted by name, no exponent
    zero: [meter*second**-1] is [[("meter", 1); ("second", -1)]]. *)
Definition monomial : Type := list (string * Z).

(** The sympy objects of the instance: an integer, a product of
    powers of unit symbols (never the empty product, which is the
    number one), and the expressions sympy leaves unevaluated. *)
Inductive unit_expr : Type :=
| Number (z : Z)
| Product (m : monomial)
| FloorOf (m : monomial)
| ModOf (a b : monomial)
| PowOf (m : monomial) (e : pynum).

(** The unit symbols the instance knows, each with the name of its
    dimension and its scale factor to the base unit of the dimension. *)
Definition unit_table : list (string * (string * float)) :=
  [ ("meter", ("length", 1%float));
    ("kilometer", ("length", 1000%float));
    ("second", ("time", 1%float));
    ("minute", ("time", 60%float));
    ("hour", ("time", 3600%float));
    ("kilogram", ("mass", 1%float));
    ("tonne", ("mass", 1000%float)) ].

Fixpoint lookup {A : Type} (key : string) (table : list (string * A)) : option A :=
  match table with
  | [] => None
  | (k, v) :: rest => if String.eqb k key then Some v else lookup key rest
  end.

(** [m] times [name ** k]. *)
Fixpoint times_power (name' : string) (k : Z) (m : monomial) : monomial :=
  match m with
  | [] => if k =? 0 then [] else [(name', k)]
  | (n, j) :: rest =>
      match String.compare name' n with
      | Lt => if k =? 0 then m else (name', k) :: m
      | Eq => if j + k =? 0 then rest else (n, j + k) :: rest
      | Gt => (n, j) :: times_power name' k rest
      end
  end.

Definition monomial_mul (a b : monomial) : monomial :=
  fold_left (fun acc p => times_power (fst p) (snd p) acc) b a.

Definition monomial_pow (a : monomial) (k : Z) : monomial :=
  if k =? 0 then [] else map (fun p => (fst p, snd p * k)) a.

Fixpoint monomial_eqb (a b : monomial) : bool :=
  match a, b with
  | [], [] => true
  | (n, j) :: a', (m, k) :: b' =>
      String.eqb n m && (j =? k) && monomial_eqb a' b'
  | _, _ => false
  end.

Definition of_monomial (m : monomial) : unit_expr :=
  match m with
  | [] => Number 1
  | _ => Product m
  end.

(** The unit symbols of a unit.  A quantity without a unit, and a
    number used as a unit, contribute none. *)
Definition symbols_of (u : option unit_expr) : option monomial :=
  match u with
  | None => Some []
  | Some (Number _) => Some []
  | Some (Product m) => Some m
  | Some _ => None
  end.

Definition isinstance_One (u : unit_expr) : bool :=
  match u with
  | Number 1 => true
  | _ => false
  end.

(** Only a unit symbol has the attribute [dimension]. *)
Definition dimension_name (u : unit_expr) : option string :=
  match u with
  | Product [(n, 1)] => option_map fst (lookup n unit_table)
  | _ => None
  end.

Definition get_unit (u : unit_arg unit_expr) : result unit_expr :=
  match u with
  | ANone => Raise UnitError
  | AInt z => Ok (Number z)
  | AStr s =>
      match lookup s unit_table with
      | Some _ => Ok (Product [(s, 1)])
      | None => Raise UnitError
      end
  | ASym e => Ok e
  end.

Definition str_Z (z : Z) : string :=
  DecimalString.NilZero.string_of_int (Z.to_int z).

Definition str_power (p : string * Z) : string :=
  if snd p =? 1 then fst p else (fst p ++ "**" ++ str_Z (snd p))%string.

Definition str_monomial (m : monomial) : string :=
  String.concat "*" (map str_power m).

Definition str_unit (u : option unit_expr) : string :=
  match u with
  | None => "None"
  | Some (Number z) => str_Z z
  | Some (Product m) => str_monomial m
  | Some (FloorOf m) => ("floor(" ++ str_monomial m ++ ")")%string
  | Some (ModOf a b) =>
      ("Mod(" ++ str_monomial a ++ ", " ++ str_monomial b ++ ")")%string
  | Some (PowOf m _) => ("(" ++ str_monomial m ++ ")**x")%string
  end.

(** [util.Units[dimension][unit].scale_factor] *)
Definition Units (dimension' unit' : string) : result float :=
  match lookup unit' unit_table with
  | Some (d, f) => if String.eqb d dimension' then Ok f else Raise KeyError
  | None => Raise KeyError
  end.

Definition times_factor (x : pynum) (f : float) : pynum :=
  PyFloat (to_float x * f)%float.

Definition over_factor (x : pynum) (f : float) : pynum :=
  PyFloat (to_float x / f)%float.

(** sympy's [convert_to] is not part of the reference instance. *)
Definition convert_to_unit (e : ndarray * unit_expr) (u : unit_expr)
  : result ndarray :=
  Raise NotImplementedError.

Definition units : UnitBase :=
  @Build_UnitBase Reference.numeric unit_expr string String.eqb String.eqb_eq
    (Number 0) (Number 1) isinstance_One dimension_name get_unit
    str_unit (fun d => d) float Units times_factor over_factor
    convert_to_unit.

#[local] Existing Instance units.

(** The symbolic combination of two units under an operator: products
    and quotients of unit symbols are simplified, [//] and [%] are left
    as [floor] and [Mod] of what does not simplify. *)
Definition combine_units (op : ufunc) (u v : option unit_expr)
  : option unit_expr :=
  match symbols_of u, symbols_of v with
  | Some a, Some b =>
      match op with
      | np_multiply => Some (of_monomial (monomial_mul a b))
      | np_true_divide =>
          Some (of_monomial (monomial_mul a (monomial_pow b (-1))))
      | np_floor_divide =>
          match monomial_mul a (monomial_pow b (-1)) with
          | [] => Some (Number 1)
          | q => Some (FloorOf q)
          end
      | np_remainder =>
          if monomial_eqb a b then Some (Number 0) else Some (ModOf a b)
      | _ => u
      end
  | _, _ => u
  end.

(** A unit raised to the one exponent an array holds. *)
Definition power_unit (u : option unit_expr) (e : ndarray) : option unit_expr :=
  match symbols_of u, leaves (nd_tree e) with
  | Some [], _ => u
  | Some m, [PyInt k] => Some (of_monomial (monomial_pow m k))
  | Some m, [x] =>
      if (to_float x =? float_of_Z (Z_of_float (to_float x)))%float
      then Some (of_monomial (monomial_pow m (Z_of_float (to_float x))))
      else Some (PowOf m x)
  | _, _ => u
  end.

Definition algebra : UnitAlgebra :=
  @Build_UnitAlgebra numeric units combine_units power_unit.

(** [respy.unit_base.operations] after the specification, over the
    reference instances. *)
Definition operations : Operations := @spec_operations numeric units algebra.

End ReferenceUnits.

(* ================================================================== *)
(** * Vocabulary of the statements *)
(* ================================================================== *)

Section Vocabulary.
Context {N : Numeric} {U : UnitBase} {Ops : Operations}.

(** The unit [__set_attributes] stores for the argument it is given:
    [None] for [None] and for an instance of [type(One)], what
    [get_unit] resolves otherwise. *)
Definition stored_unit (unit' : unit_arg sym) : result (option sym) :=
  match unit' with
  | ANone => Ok None
  | ASym u =>
      if isinstance_One u then Ok None
      else r <- get_unit unit' ;; Ok (Some r)
  | _ => r <- get_unit unit' ;; Ok (Some r)
  end.

(** The unit [__create_new_instance] hands to [__set_attributes]: the
    integer 1 is replaced by [None] on the way. *)
Definition wrapped_unit (unit' : unit_arg sym) : unit_arg sym :=
  match unit' with
  | AInt 1 => ANone
  | _ => unit'
  end.

(** The dimension [__set_attributes] derives from the unit it stored. *)
Definition derived_dimension (u : option sym) : pydim :=
  match u with
  | Some s =>
      match dimension_name s with
      | Some d => DimName d
      | None => DimNone
      end
  | None => DimNone
  end.

(** A unit the wrappers hand on unchanged: a unit object that is not
    the number one and that [get_unit] resolves to itself. *)
Definition resolved (u : sym) : Prop :=
  isinstance_One u = false /\ get_unit (ASym u) = Ok u.

(** A unit that passes through [__create_new_instance] unchanged. *)
Definition kept_by_wrapping (u : option sym) : Prop :=
  u = None \/ exists s, u = Some s /\ resolved s.

(** The body of the loop of [iter_over_value]. *)
Definition wrap_item (self : Quantity) (unit' : option sym)
           (name' : option string) (item : pyobj) : result Quantity :=
  __create_new_instance self item (as_arg unit') name' None.

(** What one element goes through when a Quantity of dtype [dt] in a
    unit of scale factor [fa] is converted to a unit of scale factor
    [ft] and back: it is scaled up and down twice, and made an element
    of the dtype whenever an array is made. *)
Definition there_and_back (dt : np_dtype) (fa ft : factor) (x : scalar) : scalar :=
  let there := cast dt (over_factor (times_factor (cast dt x) fa) ft) in
  cast dt (over_factor (times_factor (cast dt there) ft) fa).

(** The Quantity holds exactly one element. *)
Definition single_element (q : Quantity) : Prop :=
  exists a, value q = Some a /\ np_size a = 1%nat.

(** What a wrapper does with the unit [compute_operation] resolved,
    before it wraps: [__rfloordiv__] hands it on, every other wrapper
    replaces [None] by [Zero]. *)
Definition unit_before_wrapping (method_name : string) (u : unit_arg sym)
  : unit_arg sym :=
  if method_name =? "__rfloordiv__" then u
  else match u with
       | ANone => ASym Zero
       | _ => u
       end.

(** The methods of the class that wrap the result of
    [compute_operation] in a new instance, each with its name, its
    operator and the [right_handed] flag it passes. *)
Definition unit_wrapping_methods
  : list (string * ufunc * bool * (Quantity -> other_arg -> result Quantity)) :=
  [ ("__mul__", np_multiply, false, __mul__);
    ("__truediv__", np_true_divide, false, __truediv__);
    ("__floordiv__", np_floor_divide, false, __floordiv__);
    ("__mod__", np_remainder, false, __mod__);
    ("__add__", np_add, false, __add__);
    ("__sub__", np_subtract, false, __sub__);
    ("__pow__", np_power, false, __pow__);
    ("__rtruediv__", np_true_divide, true, __rtruediv__);
    ("__rsub__", np_subtract, true, __rsub__);
    ("__rfloordiv__", np_floor_divide, true, __rfloordiv__) ].

End Vocabulary.

(** ** Concrete quantities over the reference instances *)

Module Examples.

Import Reference ReferenceUnits.
#[local] Existing Instance Reference.numeric.
#[local] Existing Instance ReferenceUnits.units.
#[local] Existing Instance ReferenceUnits.operations.

(** The class over the reference instances. *)
Definition Qty : Type := @Quantity Reference.numeric ReferenceUnits.units.

Definition int (z : Z) : pyobj := PNum (PyInt z).

Definition vector (l : list float) : ndarray :=
  mk_ndarray float64 (Node (map (fun f => Leaf (PyFloat f)) l)).

Definition built (r : result Quantity) : Quantity :=
  match r with
  | Ok q => q
  | Raise _ => view (vector [])
  end.

(** The value of [dimension] for a length. *)
Definition a_length : pydim := DimName "length".

Definition meter : unit_expr := Product [("meter", 1%Z)].
Definition second : unit_expr := Product [("second", 1%Z)].
Definition kilometer : unit_expr := Product [("kilometer", 1%Z)].

(** [Quantity(1, "meter")], [Quantity(2, "meter")], ... *)
Definition one_meter : Quantity :=
  Eval vm_compute in built (Quantity_ (int 1) (AStr "meter")).
Definition two_meters : Quantity :=
  Eval vm_compute in built (Quantity_ (int 2) (AStr "meter")).
Definition five_meters : Quantity :=
  Eval vm_compute in built (Quantity_ (int 5) (AStr "meter")).
Definition one_second : Quantity :=
  Eval vm_compute in built (Quantity_ (int 1) (AStr "second")).
Definition three_seconds : Quantity :=
  Eval vm_compute in built (Quantity_ (int 3) (AStr "second")).

(** [Quantity(2)], [Quantity(3)], [Quantity(7)] *)
Definition plain_two : Quantity :=
  Eval vm_compute in built (Quantity_ (int 2) ANone).
Definition plain_three : Quantity :=
  Eval vm_compute in built (Quantity_ (int 3) ANone).
Definition plain_seven : Quantity :=
  Eval vm_compute in built (Quantity_ (int 7) ANone).

(** [Quantity(10, "kilometer", constant=True)] *)
Definition ten_kilometers : Quantity :=
  Eval vm_compute in
    built (__new__ (int 10) (AStr "kilometer") None true None false 0 None true).

(** [Quantity([1, 2, 3], "meter", name="d")] *)
Definition three_lengths : Quantity :=
  Eval vm_compute in
    built (__new__ (PSeq [int 1; int 2; int 3]) (AStr "meter") None true None
             false 0 (Some "d") false).

(** [Quantity([[1, 2], [3, 4]])] *)
Definition square : Quantity :=
  Eval vm_compute in
    built (Quantity_ (PSeq [PSeq [int 1; int 2]; PSeq [int 3; int 4]]) ANone).

(** The array numpy makes of the integer 7. *)
Definition seven : ndarray := mk_ndarray int64 (Node [Leaf (PyInt 7)]).

(** [7 // Quantity(2)] and [Quantity(7) // Quantity(2)] *)
Definition seven_rfloordiv_two : Quantity :=
  Eval vm_compute in built (__rfloordiv__ plain_two (OtherRaw (int 7))).
Definition seven_floordiv_two : Quantity :=
  Eval vm_compute in built (__floordiv__ plain_seven (OtherQuantity plain_two)).

(** [ten_kilometers] after [convert_to("meter", inplace=True)], and
    what [convert_to("meter")] returns. *)
Definition ten_kilometers_in_meters : Quantity :=
  Eval vm_compute in fst (convert_to (AStr "meter") true ten_kilometers).
Definition ten_thousand_meters : Quantity :=
  Eval vm_compute in
    built (match snd (convert_to (AStr "meter") false ten_kilometers) with
           | Ok (Some q) => Ok q
           | _ => Raise ValueError
           end).

(** [Quantity(2, "meter") + Quantity(5, "meter")],
    [Quantity(2, "meter") * Quantity(3, "second")],
    [Quantity(1, "meter") / Quantity(1, "meter")] and
    [Quantity(7) + Quantity(3)] *)
Definition seven_meters : Quantity :=
  Eval vm_compute in built (__add__ two_meters (OtherQuantity five_meters)).
Definition six_meter_seconds : Quantity :=
  Eval vm_compute in built (__mul__ two_meters (OtherQuantity three_seconds)).
Definition meter_per_meter : Quantity :=
  Eval vm_compute in built (__truediv__ one_meter (OtherQuantity one_meter)).
Definition plain_ten : Quantity :=
  Eval vm_compute in built (__add__ plain_seven (OtherQuantity plain_three)).

(** What [list(three_lengths)] and [list(square)] hold. *)
Definition yielded (q : Quantity) (calls : nat) : list Quantity :=
  match snd (take q calls (__iter__ q)) with
  | Ok (qs, _) => qs
  | Raise _ => []
  end.
Definition three_lengths_items : list Quantity :=
  Eval vm_compute in yielded three_lengths 4.
Definition square_rows : list Quantity :=
  Eval vm_compute in yielded square 3.

End Examples.

(* ================================================================== *)
(** * Indexing, unary operators and display *)
(* ================================================================== *)

(** What a Quantity is indexed with: an integer, or a slice
    [start:stop] of step one with either bound possibly left out. *)
Inductive index : Type :=
| AtInt (i : Z)
| AtSlice (start stop : option Z).

(** The outcome of an indexing: a result, numpy's [IndexError], or one
    of the exceptions of the class's own calls. *)
Inductive indexed (A : Type) : Type :=
| Indexed (a : A)
| IndexError
| Failed (e : exception).

Arguments Indexed {A} a.
Arguments IndexError {A}.
Arguments Failed {A} e.

(** The names [quantity.py] imports from [respy.units.auxil] that the
    unary methods and the display properties read.  The dict
    [__UFUNC_NAME__] is read here under the names of the unary methods;
    [__OPERATORS__] is read with [dict.get], which gives [None] for a
    missing key; [__NONE_UNITS__] is read with [in]. *)
Class Auxil {N : Numeric} {U : UnitBase} : Type := {
  (** the values [__UFUNC_NAME__] holds for the unary methods *)
  operator_key : Type;
  (** [__UFUNC_NAME__[co_name]]: [KeyError] for a missing key *)
  UFUNC_NAME_unary : string -> result operator_key;
  (** [__OPERATORS__.get(name)] *)
  OPERATORS_get : operator_key -> option (ndarray -> result ndarray);
  (** [unit in __NONE_UNITS__] *)
  in_NONE_UNITS : option sym -> bool
}.

Section Indexing.
Context {N : Numeric} {U : UnitBase}.

(** A bound of a slice of step one on an axis of length [n], as
    [slice.indices] adjusts it: a negative bound counts from the end,
    and what lies outside the axis is clipped. *)
Definition slice_bound (n : Z) (bound : option Z) (default : Z) : Z :=
  match bound with
  | None => default
  | Some i => if (i <? 0)%Z then Z.max (i + n) 0 else Z.min i n
  end.

(** [x[item]], along the first axis.  An integer selects one item, a
    number for a one-dimensional array and a sub-array otherwise; an
    integer outside [-n, n) is an [IndexError], and so is any index on
    an array without axes.  A slice never fails. *)
Definition np_getitem (x : ndarray) (item : index) : indexed pyobj :=
  match nd_tree x with
  | Leaf _ => IndexError
  | Node l =>
      let n := Z.of_nat (List.length l) in
      match item with
      | AtInt i =>
          let j := if (i <? 0)%Z then (i + n)%Z else i in
          if (0 <=? j)%Z && (j <? n)%Z then
            match nth_error l (Z.to_nat j) with
            | Some t => Indexed (item_of (nd_dtype x) t)
            | None => IndexError
            end
          else IndexError
      | AtSlice start stop =>
          let lo := slice_bound n start 0 in
          let hi := slice_bound n stop n in
          Indexed (PArr (mk_ndarray (nd_dtype x)
                           (Node (firstn (Z.to_nat (hi - lo))
                                         (skipn (Z.to_nat lo) l)))))
      end
  end.

(** [__getitem__] *)
Definition __getitem__ (self : Quantity) (item : index) : indexed Quantity :=
  match the_value self with
  | Raise e => Failed e
  | Ok v =>
      match np_getitem v item with
      | Indexed value' =>
          match __create_new_instance self value' (as_arg (unit self))
                  (name self) None with
          | Ok q => Indexed q
          | Raise e => Failed e
          end
      | IndexError => IndexError
      | Failed e => Failed e
      end
  end.

End Indexing.

Section UnaryMethods.
Context {N : Numeric} {U : UnitBase} {Aux : Auxil}.

(** [OPERATOR(self.value)] for the [OPERATOR] that [__OPERATORS__.get]
    returned: calling [None] is a [TypeError]. *)
Definition call_OPERATOR (OPERATOR : option (ndarray -> result ndarray))
           (self : Quantity) : result ndarray :=
  match OPERATOR with
  | None => Raise TypeError
  | Some f => v <- the_value self ;; f v
  end.

(** [__pos__] *)
Definition __pos__ (self : Quantity) : result Quantity :=
  name' <- UFUNC_NAME_unary "__pos__" ;;
  let OPERATOR := OPERATORS_get name' in
  value' <- call_OPERATOR OPERATOR self ;;
  __create_new_instance self (PArr value') (as_arg (unit self)) (name self) None.

(** [__neg__] *)
Definition __neg__ (self : Quantity) : result Quantity :=
  name' <- UFUNC_NAME_unary "__neg__" ;;
  let OPERATOR := OPERATORS_get name' in
  value' <- call_OPERATOR OPERATOR self ;;
  __create_new_instance self (PArr value') (as_arg (unit self)) (name self) None.

(** [__abs__] *)
Definition __abs__ (self : Quantity) : result Quantity :=
  name' <- UFUNC_NAME_unary "__abs__" ;;
  let OPERATOR := OPERATORS_get name' in
  value' <- call_OPERATOR OPERATOR self ;;
  __create_new_instance self (PArr value') (as_arg (unit self)) (name self) None.

(** [__invert__] *)
Definition __invert__ (self : Quantity) : result Quantity :=
  name' <- UFUNC_NAME_unary "__invert__" ;;
  let OPERATOR := OPERATORS_get name' in
  value' <- call_OPERATOR OPERATOR self ;;
  __create_new_instance self (PArr value') (as_arg (unit self)) (name self) None.

(** The four unary methods, each with its name. *)
Definition unary_methods : list (string * (Quantity -> result Quantity)) :=
  [ ("__pos__", __pos__); ("__neg__", __neg__); ("__abs__", __abs__);
    ("__invert__", __invert__) ].

(** ** Display *)

(** [s.replace(old, new)] for a pattern that is not empty: the
    occurrences of [old] are replaced from left to right, none of them
    overlapping; [skip] counts the characters of a replaced occurrence
    that are still to be passed over. *)
Fixpoint replace_from (old new : string) (skip : nat) (s : string) : string :=
  match s with
  | EmptyString => EmptyString
  | String c rest =>
      match skip with
      | S k => replace_from old new k rest
      | O =>
          if String.prefix old s
          then new ++ replace_from old new (String.length old - 1) rest
          else String c (replace_from old new 0 rest)
      end
  end.

(** [new] before every character and at the end: what [replace] does
    with the empty pattern. *)
Fixpoint interleave (new s : string) : string :=
  match s with
  | EmptyString => new
  | String c rest => new ++ String c (interleave new rest)
  end.

(** [s.replace(old, new)] *)
Definition str_replace (s old new : string) : string :=
  match old with
  | EmptyString => interleave new s
  | _ => replace_from old new 0 s
  end.

(** [old in s] *)
Fixpoint occurs (old s : string) : bool :=
  match s with
  | EmptyString => String.prefix old s
  | String _ rest => String.prefix old s || occurs old rest
  end.

(** [unitstr] *)
Definition unitstr (self : Quantity) : string :=
  if in_NONE_UNITS (unit self) then "-"
  else str_unit (unit self).

(** [unit_mathstr] *)
Definition unit_mathstr (self : Quantity) : string :=
  if in_NONE_UNITS (unit self) then "-"
  else "$" ++ str_replace (unitstr self) "**" "^" ++ "$".

End UnaryMethods.

(** ** The tables of [respy.units.auxil] over the reference instances *)

Module ReferenceAuxil.

Import Reference ReferenceUnits.

#[local] Existing Instance Reference.numeric.
#[local] Existing Instance ReferenceUnits.units.

Definition UFUNC_NAME_unary (co_name : string) : result string :=
  if co_name =? "__pos__" then Ok "positive"
  else if co_name =? "__neg__" then Ok "negative"
  else if co_name =? "__abs__" then Ok "absolute"
  else if co_name =? "__invert__" then Ok "invert"
  else Raise KeyError.

(** The loops of the four unary ufuncs; [invert] has none for
    doubles. *)
Definition positive (x : pynum) : result pynum := Ok x.

Definition negative (x : pynum) : result pynum :=
  match x with
  | PyInt z => Ok (PyInt (wrap64 (- z)%Z))
  | PyFloat f => Ok (PyFloat (- f)%float)
  end.

Definition absolute (x : pynum) : result pynum :=
  match x with
  | PyInt z => Ok (PyInt (wrap64 (Z.abs z)))
  | PyFloat f => Ok (PyFloat (abs f))
  end.

Definition invert (x : pynum) : result pynum :=
  match x with
  | PyInt z => Ok (PyInt (Z.lnot z))
  | PyFloat _ => Raise TypeError
  end.

Fixpoint tree_mapM (f : pynum -> result pynum) (t : tree pynum)
  : result (tree pynum) :=
  match t with
  | Leaf x => y <- f x ;; Ok (Leaf y)
  | Node l => l' <- mapM (tree_mapM f) l ;; Ok (Node l')
  end.

(** A unary ufunc on an array: element by element, the dtype kept. *)
Definition elementwise (f : pynum -> result pynum) (x : ndarray)
  : result ndarray :=
  t <- tree_mapM f (nd_tree x) ;; Ok (mk_ndarray (nd_dtype x) t).

Definition OPERATORS_get (key : string) : option (ndarray -> result ndarray) :=
  if key =? "positive" then Some (elementwise positive)
  else if key =? "negative" then Some (elementwise negative)
  else if key =? "absolute" then Some (elementwise absolute)
  else if key =? "invert" then Some (elementwise invert)
  else None.

(** The units shown as "-": no unit, and the numbers. *)
Definition in_NONE_UNITS (u : option unit_expr) : bool :=
  match u with
  | None => true
  | Some (Number _) => true
  | Some _ => false
  end.

Definition auxil : Auxil :=
  @Build_Auxil Reference.numeric ReferenceUnits.units string
    UFUNC_NAME_unary OPERATORS_get in_NONE_UNITS.

End ReferenceAuxil.

(** ** More concrete quantities over the reference instances *)

Module MoreExamples.

Import Reference ReferenceUnits Examples.
#[local] Existing Instance Reference.numeric.
#[local] Existing Instance ReferenceUnits.units.
#[local] Existing Instance ReferenceUnits.operations.
#[local] Existing Instance ReferenceAuxil.auxil.

(** What an indexing returned, for the ones that return. *)
Definition got (r : indexed Quantity) : Quantity :=
  match r with
  | Indexed q => q
  | _ => view (vector [])
  end.

(** [three_lengths[1]], [three_lengths[-2]] and [three_lengths[1:]] *)
Definition second_length : Quantity :=
  Eval vm_compute in got (__getitem__ three_lengths (AtInt 1)).
Definition last_two_lengths : Quantity :=
  Eval vm_compute in got (__getitem__ three_lengths (AtSlice (Some 1%Z) None)).

(** [-two_meters] *)
Definition minus_two_meters : Quantity :=
  Eval vm_compute in built (__neg__ two_meters).

(** [Quantity(2, "meter") * Quantity(5, "meter")] *)
Definition ten_square_meters : Quantity :=
  Eval vm_compute in built (__mul__ two_meters (OtherQuantity five_meters)).

(** What [__create_new_instance] makes for [Quantity(1, "meter")] of
    the value 1.0 and the number one for a unit. *)
Definition one_without_unit : Quantity :=
  Eval vm_compute in
    built (__create_new_instance one_meter (PArr (vector [1%float]))
             (ASym (Number 1)) (Some "") None).

(** What a generator made for [ten_kilometers] yields when the
    Quantity is converted to meters in place before the first [next]. *)
Definition yielded_after_conversion : list Quantity :=
  Eval vm_compute in
    match snd (take ten_kilometers_in_meters 2 (__iter__ ten_kilometers)) with
    | Ok (qs, _) => qs
    | Raise _ => []
    end.

End MoreExamples.

(** ** The unit of a product, as the specification normalizes it *)

Section Normalization.
Context {N : Numeric} {U : UnitBase}.

(** The unit of a result under the multiplicative rule of section 4.2
    with the normalization that is part of the rule ("if the combined
    unit reduces to the dimensionless sentinel, it is normalized to
    that sentinel", and step 5): a combined unit that is no unit at all,
    or the number one, is the sentinel [Zero], the unit a Quantity
    built without a unit has. *)
Definition normalized_unit (u : option sym) : option sym :=
  match reduce_dimensionless u with
  | Some s => Some s
  | None => Some Zero
  end.

End Normalization.

(** ** Doubles as rationals, and relative tolerance *)

Module Tolerance.

Import QArith Qabs.
Import Reference.
Local Open Scope Q_scope.

(** The rational a double stands for; an infinity and a NaN stand for
    none. *)
Definition exact (f : float) : option Q :=
  match Prim2SF f with
  | S754_zero _ => Some 0
  | S754_finite s m e =>
      Some ((if s then - inject_Z (Zpos m) else inject_Z (Zpos m))
            * Qpower 2 e)
  | _ => None
  end.







End Tolerance.

(** ** Quantities at the edges: the number one for a unit, the largest
    and the smallest doubles *)

Module EdgeExamples.

Import Reference ReferenceUnits Examples.
#[local] Existing Instance Reference.numeric.
#[local] Existing Instance ReferenceUnits.units.
#[local] Existing Instance ReferenceUnits.operations.


(** [Quantity(5, 1)], whose unit is the number one, and its sum with
    itself. *)
Definition five_ones : Quantity :=
  Eval vm_compute in built (Quantity_ (int 5) (AInt 1)).
Definition ten_ones : Quantity :=
  Eval vm_compute in built (__add__ five_ones (OtherQuantity five_ones)).

(** The sum of [7 // Quantity(2)], whose unit is [None], with
    itself. *)
Definition six_without_unit : Quantity :=
  Eval vm_compute in
    built (__add__ seven_rfloordiv_two (OtherQuantity seven_rfloordiv_two)).

(** [Quantity(2, "meter") * Quantity(3, "second")] plus itself. *)
Definition twelve_meter_seconds : Quantity :=
  Eval vm_compute in
    built (__add__ six_meter_seconds (OtherQuantity six_meter_seconds)).





End EdgeExamples.

(* ================================================================== *)
(** * Properties of the wrapping machinery *)
(* ================================================================== *)

Unset Implicit Arguments.

Section Wrapping.
Context {N : Numeric} {U : UnitBase}.

Lemma pydim_eqb_eq (a b : pydim) : pydim_eqb a b = true <-> a = b.
Proof.
  destruct a as [| |x], b as [| |y]; simpl; split; intro H;
    try reflexivity; try discriminate.
  - apply dim_eqb_eq in H. now subst.
  - apply dim_eqb_eq. now injection H.
Qed.

Lemma pydim_eqb_neq (a b : pydim) : a <> b -> pydim_eqb a b = false.
Proof.
  intro H. destruct (pydim_eqb a b) eqn:E; [|reflexivity].
  apply pydim_eqb_eq in E. contradiction.
Qed.

(** [__set_attributes] either raises at its first statement, before
    any attribute is written, or writes all nine attributes. *)
Lemma set_attributes_run (unit' : unit_arg sym) (v : ndarray)
      (dt : option np_dtype) (c : option bool) (o : option string)
      (s k : option bool) (n : option nat) (self : Quantity) :
  __set_attributes unit' v dt c o s k n self =
  match stored_unit unit' with
  | Ok u =>
      (mk_Quantity (data self) u (Some v) (name self) k dt c o s n
                   (derived_dimension u) (quantity self), Ok tt)
  | Raise e => (self, Raise e)
  end.
Proof.
  unfold __set_attributes, stored_unit, mbind, setattr, getattr, call.
  destruct unit' as [|z|str|u]; simpl.
  - reflexivity.
  - destruct (get_unit (AInt z)) as [r|e]; simpl; [|reflexivity].
    destruct (dimension_name r); reflexivity.
  - destruct (get_unit (AStr str)) as [r|e]; simpl; [|reflexivity].
    destruct (dimension_name r); reflexivity.
  - destruct (isinstance_One u); simpl; [reflexivity|].
    destruct (get_unit (ASym u)) as [r|e]; simpl; [|reflexivity].
    destruct (dimension_name r); reflexivity.
Qed.

(** [__create_new_instance] in one step: the array is made, the unit
    resolved, and the new instance has every attribute set. *)
Lemma create_new_instance_run (self : Quantity) (v : pyobj)
      (unit' : unit_arg sym) (n : option string) (dt : option np_dtype) :
  __create_new_instance self v unit' n dt =
  let dt' := match dt with None => _dtype self | Some _ => dt end in
  match np_array v dt' (Some false) (order self) (subok self) 0 with
  | Raise e => Raise e
  | Ok a =>
      match stored_unit (wrapped_unit unit') with
      | Raise e => Raise e
      | Ok u =>
          Ok (mk_Quantity (np_atleast_1d a) u (Some (np_atleast_1d a)) n
                (constant self) dt' (copy self) (order self) (subok self)
                (ndmin self) (derived_dimension u) None)
      end
  end.
Proof.
  unfold __create_new_instance. cbv zeta.
  destruct (np_array v _ (Some false) (order self) (subok self) 0)
    as [a|e]; simpl; [|reflexivity].
  unfold mbind. rewrite set_attributes_run.
  assert (E : stored_unit
                match unit' with
                | ANone => ANone
                | AInt 1 => ANone
                | ASym u => if isinstance_One u then ANone else unit'
                | _ => unit'
                end = stored_unit (wrapped_unit unit')).
  { destruct unit' as [|z|str|u]; try reflexivity.
    simpl. destruct (isinstance_One u) eqn:E1; simpl; [reflexivity|].
    now rewrite E1. }
  rewrite E.
  destruct (stored_unit (wrapped_unit unit')) as [u|e]; reflexivity.
Qed.

(** A wrapped instance never has the dimension [Zero]: that value is
    written by [__new__] alone. *)
Lemma derived_dimension_not_Zero (u : option sym) : derived_dimension u <> DimZero.
Proof.
  unfold derived_dimension. destruct u as [s|]; [|discriminate].
  destruct (dimension_name s); discriminate.
Qed.

Lemma stored_unit_resolved (u : sym) :
  resolved u -> stored_unit (ASym u) = Ok (Some u).
Proof.
  intros [H1 H2]. unfold stored_unit. now rewrite H1, H2.
Qed.

Lemma create_new_instance_unit (self r : Quantity) (v : pyobj)
      (unit' : unit_arg sym) (n : option string) (dt : option np_dtype) :
  __create_new_instance self v unit' n dt = Ok r ->
  stored_unit (wrapped_unit unit') = Ok (unit r) /\
  dimension r = derived_dimension (unit r) /\
  name r = n /\
  constant r = constant self /\ copy r = copy self /\
  order r = order self /\ subok r = subok self /\ ndmin r = ndmin self.
Proof.
  rewrite create_new_instance_run. cbv zeta.
  destruct (np_array v _ (Some false) (order self) (subok self) 0)
    as [a|e]; [|discriminate].
  destruct (stored_unit (wrapped_unit unit')) as [u|e]; [|discriminate].
  intro H. injection H as <-. simpl. repeat split; reflexivity.
Qed.

Lemma wrapped_dimension_not_Zero (self r : Quantity) (v : pyobj)
      (unit' : unit_arg sym) (n : option string) (dt : option np_dtype) :
  __create_new_instance self v unit' n dt = Ok r -> dimension r <> DimZero.
Proof.
  intro H. apply create_new_instance_unit in H as (_ & -> & _).
  apply derived_dimension_not_Zero.
Qed.

End Wrapping.

(** The concrete quantities are what the calls in their descriptions
    return. *)
Lemma examples_as_constructed :
  Quantity_ (Examples.int 1) (AStr "meter") = Ok Examples.one_meter /\
  Quantity_ (Examples.int 2) (AStr "meter") = Ok Examples.two_meters /\
  Quantity_ (Examples.int 5) (AStr "meter") = Ok Examples.five_meters /\
  Quantity_ (Examples.int 1) (AStr "second") = Ok Examples.one_second /\
  Quantity_ (Examples.int 3) (AStr "second") = Ok Examples.three_seconds /\
  Quantity_ (Examples.int 2) ANone = Ok Examples.plain_two /\
  Quantity_ (Examples.int 3) ANone = Ok Examples.plain_three /\
  Quantity_ (Examples.int 7) ANone = Ok Examples.plain_seven /\
  __new__ (Examples.int 10) (AStr "kilometer") None true None false 0 None true
  = Ok Examples.ten_kilometers /\
  __new__ (PSeq [Examples.int 1; Examples.int 2; Examples.int 3])
    (AStr "meter") None true None false 0 (Some "d") false
  = Ok Examples.three_lengths /\
  Quantity_ (PSeq [PSeq [Examples.int 1; Examples.int 2];
                   PSeq [Examples.int 3; Examples.int 4]]) ANone
  = Ok Examples.square.
Proof.
  repeat split; reflexivity.
Qed.

(* ================================================================== *)
(** * Construction *)
(* ================================================================== *)

Section Construction.
Context {N : Numeric} {U : UnitBase}.

(** numpy makes an array of every input that is not ragged. *)
Lemma np_array_accepts (v : pyobj) (dt : option np_dtype) (c : option bool)
      (o : option string) (s : option bool) (n : nat) :
  rectangular (to_tree v) = true ->
  exists x, np_array v dt c o s n = Ok x.
Proof.
  intro H. unfold np_array. rewrite H. eexists. reflexivity.
Qed.

End Construction.

(** C7.  Construction never fails on a missing or dimensionless unit.
    For every value and every choice of [dtype], [copy], [order],
    [subok] and [ndmin] of which numpy makes an array (the conversion
    [np.array] of the first statement returns): with the unit omitted
    the call returns a Quantity whose [unit] and [dimension] are both
    the singleton [Zero]; and with a unit identifier that [get_unit]
    resolves to an object without a dimension, the call returns a
    Quantity that keeps the resolved unit and has [Zero] for its
    dimension.  No exception is raised in either case: an exception of
    the constructor is an exception of the array conversion or of
    [get_unit]. *)
Theorem new_falls_back_to_Zero :
  forall (N : Numeric) (U : UnitBase) (v : pyobj) (dt : option np_dtype)
         (c : bool) (o : option string) (s : bool) (n : nat)
         (nm : option string) (k : bool) (u : unit_arg sym) (r : sym)
         (x : ndarray),
    np_array v dt (Some c) o (Some s) n = Ok x ->
    (exists q, __new__ v ANone dt c o s n nm k = Ok q /\
               unit q = Some Zero /\ dimension q = DimZero) /\
    (u <> ANone -> get_unit u = Ok r -> dimension_name r = None ->
     exists q, __new__ v u dt c o s n nm k = Ok q /\
               unit q = Some r /\ dimension q = DimZero).
Proof.
  intros N U v dt c o s n nm k u r x Hx.
  split.
  - unfold __new__. rewrite Hx. simpl.
    eexists. split; [reflexivity|].
    destruct nm; split; reflexivity.
  - intros Hu Hget Hdim. unfold __new__. rewrite Hx. simpl.
    destruct u as [|z|str|e]; [contradiction| | |];
      rewrite Hget; simpl; rewrite Hdim;
      (eexists; split; [reflexivity|]; destruct nm; split; reflexivity).
Qed.

(** The call [Quantity(7)], and [Quantity(7, 3)] with the bare number 3
    for a unit, in the reference instance: numpy makes the array
    [[7]] of the integer 7. *)
Lemma new_falls_back_to_Zero_witness :
  np_array (Examples.int 7) None (Some true) None (Some false) 0
  = Ok (@mk_ndarray Reference.numeric Reference.int64
          (Leaf (Reference.PyInt 7))) /\
  (exists q : Examples.Qty, Quantity_ (Examples.int 7) ANone = Ok q /\
             unit q = Some (ReferenceUnits.Number 0) /\
             dimension q = DimZero) /\
  (exists q : Examples.Qty, Quantity_ (Examples.int 7) (AInt 3) = Ok q /\
             unit q = Some (ReferenceUnits.Number 3) /\
             dimension q = DimZero).
Proof.
  split; [reflexivity|].
  pose proof (new_falls_back_to_Zero Reference.numeric ReferenceUnits.units
                (Examples.int 7) None true None false 0 None false (AInt 3)
                (ReferenceUnits.Number 3) _ eq_refl) as [H1 H2].
  split; [exact H1|].
  apply H2; [discriminate|reflexivity|reflexivity].
Defined.

(* ================================================================== *)
(** * The arithmetic wrappers *)
(* ================================================================== *)

Section Wrappers.
Context {N : Numeric} {U : UnitBase} {Ops : Operations}.

(** Every unit-wrapping method is the same three calls: the other
    operand is checked, [compute_operation] runs with the method's
    operator and flag, and the result is wrapped. *)
Lemma unit_wrapping_methods_run (method_name : string) (op : ufunc)
      (rh : bool) (f : Quantity -> other_arg -> result Quantity)
      (self : Quantity) (other : other_arg) :
  In (method_name, op, rh, f) unit_wrapping_methods ->
  f self other =
  (o <- __check_other self other ;;
   r <- compute_operation self o op rh ;;
   __create_new_instance self (fst (fst (fst r)))
     (unit_before_wrapping method_name (snd (fst (fst r))))
     (snd r) (snd (fst r)))%py.
Proof.
  intro H. simpl in H.
  repeat (destruct H as [H|H];
    [ injection H as <- <- <- <-;
      unfold __mul__, __truediv__, __floordiv__, __mod__, __add__, __sub__,
        __pow__, __rtruediv__, __rsub__, __rfloordiv__;
      destruct (__check_other self other) as [o|e]; simpl; [|reflexivity];
      destruct (compute_operation self o _ _) as [[[[v u] dt] nm]|e];
      reflexivity
    | ]).
  contradiction.
Qed.

End Wrappers.

(** C10.  Reflected floor division leaves out the replacement of a
    [None] unit that every other unit-wrapping method performs.  When
    [compute_operation] resolves the unit [None], [__rfloordiv__] wraps
    with [None], and the Quantity it returns has [unit] [None] and
    [dimension] [None]; every other method of the table
    ([__floordiv__] among them) wraps with the singleton [Zero]
    instead.  This holds for whatever [compute_operation] computes. *)
Theorem rfloordiv_omits_the_Zero_replacement :
  forall (N : Numeric) (U : UnitBase) (Ops : Operations),
    (forall (self : Quantity) (other : other_arg) (o : operand) (v : pyobj)
            (dt : option np_dtype) (nm : option string),
        __check_other self other = Ok o ->
        compute_operation self o np_floor_divide true = Ok (v, ANone, dt, nm) ->
        __rfloordiv__ self other = __create_new_instance self v ANone nm dt /\
        forall r, __rfloordiv__ self other = Ok r ->
                  unit r = None /\ dimension r = DimNone) /\
    (forall (method_name : string) (op : ufunc) (rh : bool)
            (f : Quantity -> other_arg -> result Quantity)
            (self : Quantity) (other : other_arg) (o : operand) (v : pyobj)
            (dt : option np_dtype) (nm : option string),
        In (method_name, op, rh, f) unit_wrapping_methods ->
        method_name <> "__rfloordiv__" ->
        __check_other self other = Ok o ->
        compute_operation self o op rh = Ok (v, ANone, dt, nm) ->
        f self other = __create_new_instance self v (ASym Zero) nm dt).
Proof.
  intros N U Ops. split.
  - intros self other o v dt nm Hc Hop.
    assert (E : __rfloordiv__ self other =
                __create_new_instance self v ANone nm dt).
    { rewrite (unit_wrapping_methods_run "__rfloordiv__" np_floor_divide true
                 __rfloordiv__ self other).
      - rewrite Hc. simpl. rewrite Hop. reflexivity.
      - simpl. do 9 right. left. reflexivity. }
    split; [exact E|].
    intros r Hr. rewrite E in Hr.
    apply create_new_instance_unit in Hr as (Hu & Hd & _).
    simpl in Hu. injection Hu as Hu. rewrite Hd, <- Hu. split; reflexivity.
  - intros method_name op rh f self other o v dt nm Hin Hname Hc Hop.
    rewrite (unit_wrapping_methods_run method_name op rh f self other Hin).
    rewrite Hc. simpl. rewrite Hop. simpl.
    unfold unit_before_wrapping.
    destruct (String.eqb_spec method_name "__rfloordiv__") as [->|_];
      [contradiction|reflexivity].
Qed.

(** [7 // Quantity(2)] and [Quantity(7) // Quantity(2)] in the
    reference instance: both resolve the unit [None]; the reflected
    call returns a Quantity without a unit, the direct call one with
    the unit [Zero]. *)
Lemma rfloordiv_omits_the_Zero_replacement_witness :
  __check_other Examples.plain_two (OtherRaw (Examples.int 7))
  = Ok (OpArray Examples.seven) /\
  compute_operation (Operations := ReferenceUnits.operations)
    Examples.plain_two (OpArray Examples.seven) np_floor_divide true
  = Ok (PArr (Examples.vector [3%float]), ANone, Some Reference.float64,
        Some "") /\
  __rfloordiv__ (Ops := ReferenceUnits.operations)
    Examples.plain_two (OtherRaw (Examples.int 7))
  = Ok Examples.seven_rfloordiv_two /\
  unit Examples.seven_rfloordiv_two = None /\
  dimension Examples.seven_rfloordiv_two = DimNone /\
  __floordiv__ (Ops := ReferenceUnits.operations)
    Examples.plain_seven (OtherQuantity Examples.plain_two)
  = Ok Examples.seven_floordiv_two /\
  unit Examples.seven_floordiv_two = Some (ReferenceUnits.Number 0).
Proof.
  destruct (rfloordiv_omits_the_Zero_replacement
              Reference.numeric ReferenceUnits.units ReferenceUnits.operations)
    as [Hr Hf].
  assert (Hc : __check_other Examples.plain_two (OtherRaw (Examples.int 7))
               = Ok (OpArray Examples.seven))
    by reflexivity.
  assert (Hop : compute_operation (Operations := ReferenceUnits.operations)
                  Examples.plain_two (OpArray Examples.seven)
                  np_floor_divide true
                = Ok (PArr (Examples.vector [3%float]), ANone,
                      Some Reference.float64, Some ""))
    by reflexivity.
  assert (Hw : __create_new_instance Examples.plain_two
                 (PArr (Examples.vector [3%float])) ANone (Some "")
                 (Some Reference.float64)
               = Ok Examples.seven_rfloordiv_two)
    by reflexivity.
  destruct (Hr Examples.plain_two (OtherRaw (Examples.int 7)) _ _ _ _ Hc Hop)
    as [E Hnone].
  rewrite Hw in E.
  split; [exact Hc|]. split; [exact Hop|]. split; [exact E|].
  split; [exact (proj1 (Hnone _ E))|]. split; [exact (proj2 (Hnone _ E))|].
  assert (Hc' : __check_other Examples.plain_seven
                  (OtherQuantity Examples.plain_two)
                = Ok (OpQuantity Examples.plain_two))
    by reflexivity.
  assert (Hop' : compute_operation (Operations := ReferenceUnits.operations)
                   Examples.plain_seven (OpQuantity Examples.plain_two)
                   np_floor_divide false
                 = Ok (PArr (Examples.vector [3%float]), ANone,
                       Some Reference.float64, Some ""))
    by reflexivity.
  rewrite (Hf "__floordiv__" np_floor_divide false __floordiv__
              Examples.plain_seven (OtherQuantity Examples.plain_two)
              _ _ _ _ (or_intror (or_intror (or_introl eq_refl)))
              ltac:(discriminate) Hc' Hop').
  split; reflexivity.
Defined.

(* ================================================================== *)
(** * Conversion *)
(* ================================================================== *)

Section Conversion.
Context {N : Numeric} {U : UnitBase}.

(** [convert_to] in one step.  The target is resolved and the values
    are converted before anything is written; the in-place branch then
    is one call of [__set_attributes], with [False] for [constant]. *)
Lemma convert_to_run (u : unit_arg sym) (inplace : bool) (self : Quantity) :
  convert_to u inplace self =
  match get_unit u with
  | Raise e => (self, Raise e)
  | Ok r =>
      match converted_value self r with
      | Raise e => (self, Raise e)
      | Ok v =>
          if inplace then
            match stored_unit (ASym r) with
            | Raise e => (self, Raise e)
            | Ok su =>
                (mk_Quantity (data self) su (Some v) (name self) (Some false)
                   (_dtype self) (copy self) (order self) (subok self)
                   (ndmin self) (derived_dimension su) (quantity self),
                 Ok None)
            end
          else
            (self,
             match __create_new_instance self (PArr v) (ASym r) (name self)
                     None with
             | Ok q => Ok (Some q)
             | Raise e => Raise e
             end)
      end
  end.
Proof.
  unfold convert_to, mbind, call, getattr, mret.
  destruct (get_unit u) as [r|e]; [|reflexivity].
  destruct (converted_value self r) as [v|e]; [|reflexivity].
  destruct inplace.
  - rewrite set_attributes_run.
    destruct (stored_unit (ASym r)) as [su|e]; reflexivity.
  - destruct (__create_new_instance self (PArr v) (ASym r) (name self) None);
      reflexivity.
Qed.

(** The call [convert_to(u)] that returns a new Quantity. *)
Lemma convert_to_returns_new (q : Quantity) (u : unit_arg sym)
      (r : sym) (v x : ndarray) :
  get_unit u = Ok r -> resolved r -> converted_value q r = Ok v ->
  np_array (PArr v) (_dtype q) (Some false) (order q) (subok q) 0 = Ok x ->
  exists q',
    convert_to u false q = (q, Ok (Some q')) /\
    unit q' = Some r /\ value q' = Some (np_atleast_1d x) /\
    dimension q' = derived_dimension (Some r) /\
    name q' = name q /\ _dtype q' = _dtype q.
Proof.
  intros Hget Hres Hv Hx.
  rewrite convert_to_run, Hget, Hv, create_new_instance_run. cbv zeta.
  rewrite Hx. simpl wrapped_unit. rewrite (stored_unit_resolved r Hres).
  eexists. split; [reflexivity|]. simpl. repeat split.
Qed.

End Conversion.

(** C5, as the code has it.  In place, [convert_to] is one update: a
    call that raises leaves the Quantity as it was, and a call that
    returns has written [unit], [value] and [dimension], rewritten
    [_dtype] with the value it had, and set [constant] to [False];
    [name], [copy], [order], [subok] and [ndmin] (and the array the
    instance is a view of) are as before, and the call returns [None].
    Not in place, the Quantity is unchanged and the call returns a new
    Quantity with the resolved unit, the converted values (made an
    array of the Quantity's dtype) and the Quantity's name. *)
Theorem convert_to_is_one_update :
  forall (N : Numeric) (U : UnitBase) (q : Quantity) (u : unit_arg sym),
    (forall q' e, convert_to u true q = (q', Raise e) -> q' = q) /\
    (forall q' out, convert_to u false q = (q', out) -> q' = q) /\
    (forall (r : sym) (v : ndarray),
        get_unit u = Ok r -> resolved r -> converted_value q r = Ok v ->
        convert_to u true q =
        (mk_Quantity (data q) (Some r) (Some v) (name q) (Some false)
           (_dtype q) (copy q) (order q) (subok q) (ndmin q)
           (derived_dimension (Some r)) (quantity q),
         Ok None) /\
        forall a,
          np_array (PArr v) (_dtype q) (Some false) (order q) (subok q) 0
          = Ok a ->
          convert_to u false q =
          (q,
           Ok (Some
                 (mk_Quantity (np_atleast_1d a) (Some r)
                    (Some (np_atleast_1d a)) (name q) (constant q) (_dtype q)
                    (copy q) (order q) (subok q) (ndmin q)
                    (derived_dimension (Some r)) None)))).
Proof.
  intros N U q u. split; [|split].
  - intros q' e. rewrite convert_to_run.
    destruct (get_unit u) as [r|e1]; [|now intros [= <- _]].
    destruct (converted_value q r) as [v|e1]; [|now intros [= <- _]].
    destruct (stored_unit (ASym r)) as [su|e1]; [discriminate|].
    now intros [= <- _].
  - intros q' out. rewrite convert_to_run.
    destruct (get_unit u) as [r|e1]; [|now intros [= <- _]].
    destruct (converted_value q r) as [v|e1]; now intros [= <- _].
  - intros r v Hget Hres Hv. split.
    + rewrite convert_to_run, Hget, Hv, (stored_unit_resolved r Hres).
      reflexivity.
    + intros a Ha. rewrite convert_to_run, Hget, Hv.
      rewrite create_new_instance_run. cbv zeta. rewrite Ha.
      simpl wrapped_unit. rewrite (stored_unit_resolved r Hres).
      reflexivity.
Qed.

(** [Quantity(10, "kilometer", constant=True)] converted to meters, in
    place and not, in the reference instance. *)
Lemma convert_to_is_one_update_witness :
  get_unit (UnitBase := ReferenceUnits.units) (AStr "meter")
  = Ok Examples.meter /\
  resolved (U := ReferenceUnits.units) Examples.meter /\
  converted_value Examples.ten_kilometers Examples.meter
  = Ok (Examples.vector [10000%float]) /\
  convert_to (AStr "meter") true Examples.ten_kilometers
  = (Examples.ten_kilometers_in_meters, Ok None) /\
  unit Examples.ten_kilometers_in_meters = Some Examples.meter /\
  value Examples.ten_kilometers_in_meters
  = Some (Examples.vector [10000%float]) /\
  dimension Examples.ten_kilometers_in_meters = Examples.a_length /\
  name Examples.ten_kilometers_in_meters = name Examples.ten_kilometers /\
  convert_to (AStr "meter") false Examples.ten_kilometers
  = (Examples.ten_kilometers, Ok (Some Examples.ten_thousand_meters)) /\
  unit Examples.ten_thousand_meters = Some Examples.meter /\
  value Examples.ten_thousand_meters = Some (Examples.vector [10000%float]) /\
  name Examples.ten_thousand_meters = name Examples.ten_kilometers.
Proof.
  assert (Hget : get_unit (UnitBase := ReferenceUnits.units) (AStr "meter")
                 = Ok Examples.meter) by reflexivity.
  assert (Hres : resolved (U := ReferenceUnits.units) Examples.meter)
    by (split; reflexivity).
  assert (Hval : converted_value Examples.ten_kilometers Examples.meter
                 = Ok (Examples.vector [10000%float]))
    by reflexivity.
  assert (Harr : np_array (PArr (Examples.vector [10000%float]))
                   (_dtype Examples.ten_kilometers) (Some false)
                   (order Examples.ten_kilometers)
                   (subok Examples.ten_kilometers) 0
                 = Ok (Examples.vector [10000%float]))
    by reflexivity.
  destruct (convert_to_is_one_update Reference.numeric ReferenceUnits.units
              Examples.ten_kilometers (AStr "meter")) as (_ & _ & H).
  destruct (H Examples.meter (Examples.vector [10000%float]) Hget Hres Hval)
    as [Hin Hout].
  split; [exact Hget|]. split; [exact Hres|]. split; [exact Hval|].
  split; [exact Hin|].
  do 4 (split; [reflexivity|]).
  split; [exact (Hout _ Harr)|].
  repeat split.
Defined.

(** The in-place conversion does not leave [constant] unchanged:
    [Quantity(10, "kilometer", constant=True)] is no constant after
    [convert_to("meter", inplace=True)]. *)
Lemma convert_to_in_place_resets_constant :
  convert_to (AStr "meter") true Examples.ten_kilometers
  = (Examples.ten_kilometers_in_meters, Ok None) /\
  constant Examples.ten_kilometers = Some true /\
  constant Examples.ten_kilometers_in_meters = Some false /\
  constant Examples.ten_kilometers_in_meters
  <> constant Examples.ten_kilometers.
Proof.
  split; [reflexivity|]. split; [reflexivity|]. split; [reflexivity|].
  discriminate.
Qed.

(* ================================================================== *)
(** * Iteration *)
(* ================================================================== *)

Section Iteration.
Context {N : Numeric} {U : UnitBase}.

Lemma mapM_nth {A B : Type} (f : A -> result B) (l : list A) (ys : list B) :
  mapM f l = Ok ys ->
  List.length ys = List.length l /\
  forall i x, nth_error l i = Some x ->
              exists y, nth_error ys i = Some y /\ f x = Ok y.
Proof.
  revert ys. induction l as [|a l IH]; intros ys H; simpl in H.
  - injection H as <-. split; [reflexivity|].
    intros [|i] x Hx; discriminate.
  - destruct (f a) as [b|e] eqn:Ea; simpl in H; [|discriminate].
    destruct (mapM f l) as [bs|e] eqn:El; simpl in H; [|discriminate].
    injection H as <-. destruct (IH bs eq_refl) as [Hlen Hnth].
    split; [simpl; now rewrite Hlen|].
    intros [|i] x Hx; simpl in Hx.
    + injection Hx as <-. exists b. split; [reflexivity|exact Ea].
    + apply Hnth. exact Hx.
Qed.

Lemma mapM_total {A B : Type} (f : A -> result B) (l : list A) :
  (forall x, In x l -> exists y, f x = Ok y) ->
  exists ys, mapM f l = Ok ys.
Proof.
  induction l as [|a l IH]; intro H; simpl.
  - eexists. reflexivity.
  - destruct (H a (or_introl eq_refl)) as [b Hb]. rewrite Hb. simpl.
    destruct IH as [bs Hbs]; [intros x Hx; apply H; now right|].
    rewrite Hbs. simpl. eexists. reflexivity.
Qed.

Lemma take_step (self : Quantity) (k : nat) (g : generator) :
  take self (S k) g =
  match next self g with
  | (g', Raise e) => (g', Raise e)
  | (g', Ok None) => (g', Ok ([], true))
  | (g', Ok (Some q)) =>
      match take self k g' with
      | (g'', Ok (qs, stop)) => (g'', Ok (q :: qs, stop))
      | (g'', Raise e) => (g'', Raise e)
      end
  end.
Proof. reflexivity. Qed.

(** A suspended generator whose remaining items all wrap: [k] calls of
    [next] yield the first [k] of them and leave the rest pending; one
    call more than there are items ends the generator. *)
Lemma take_suspended (self : Quantity) (u : option sym) (n : option string)
      (pending : list pyobj) (qs : list Quantity) :
  mapM (wrap_item self u n) pending = Ok qs ->
  (forall k, k <= List.length pending ->
     take self k (Suspended pending u n)
     = (Suspended (skipn k pending) u n, Ok (firstn k qs, false))) /\
  take self (S (List.length pending)) (Suspended pending u n)
  = (Finished, Ok (qs, true)).
Proof.
  revert qs. induction pending as [|item rest IH]; intros qs H; simpl in H.
  - injection H as <-. split; [|reflexivity].
    intros k Hk. simpl in Hk. assert (k = 0) as -> by lia. reflexivity.
  - unfold wrap_item at 1 in H.
    destruct (__create_new_instance self item (as_arg u) n None)
      as [q|e] eqn:Eq; simpl in H; [|discriminate].
    destruct (mapM (wrap_item self u n) rest) as [qs'|e] eqn:Er;
      simpl in H; [|discriminate].
    injection H as <-. destruct (IH qs' eq_refl) as [IHk IHend].
    split.
    + intros [|k] Hk; [reflexivity|]. simpl in Hk.
      rewrite take_step. cbn [next resume]. rewrite Eq.
      rewrite (IHk k) by lia. reflexivity.
    + cbn [List.length]. rewrite take_step. cbn [next resume]. rewrite Eq.
      rewrite IHend. reflexivity.
Qed.

(** The first [next] on a fresh generator reads [self.value] and goes
    on as a generator suspended before the first item. *)
Lemma next_created (self : Quantity) (a : ndarray) (items : list pyobj) :
  value self = Some a -> np_iter a = Ok items ->
  next self (__iter__ self)
  = next self (Suspended items (unit self) (name self)).
Proof.
  intros Hv Hi. unfold __iter__, next, the_value. rewrite Hv. simpl.
  rewrite Hi. reflexivity.
Qed.

Lemma take_created (self : Quantity) (a : ndarray) (items : list pyobj)
      (k : nat) :
  value self = Some a -> np_iter a = Ok items ->
  take self (S k) (__iter__ self)
  = take self (S k) (Suspended items (unit self) (name self)).
Proof.
  intros Hv Hi. rewrite !take_step.
  rewrite (next_created self a items Hv Hi). reflexivity.
Qed.

Lemma rectangular_items {A : Type} (l : list (tree A)) (t : tree A) :
  rectangular (Node l) = true -> In t l -> rectangular t = true.
Proof.
  simpl. intros H Ht. apply andb_true_iff in H as [H _].
  rewrite forallb_forall in H. now apply H.
Qed.

Lemma to_tree_item_of (d : np_dtype) (t : tree scalar) :
  to_tree (item_of d t) = t.
Proof. destruct t; reflexivity. Qed.

Lemma stored_unit_kept (u : option sym) :
  kept_by_wrapping u -> stored_unit (wrapped_unit (as_arg u)) = Ok u.
Proof.
  intros [->|(s & -> & Hs)]; [reflexivity|].
  simpl. now apply stored_unit_resolved.
Qed.

(** Wrapping an item of an array never fails when the unit is kept, and
    gives the item the parent's unit and name. *)
Lemma wrap_item_ok (self : Quantity) (d : np_dtype) (t : tree scalar) :
  rectangular t = true -> kept_by_wrapping (unit self) ->
  exists qi x,
    wrap_item self (unit self) (name self) (item_of d t) = Ok qi /\
    np_array (item_of d t) (_dtype self) (Some false) (order self)
             (subok self) 0 = Ok x /\
    value qi = Some (np_atleast_1d x) /\
    unit qi = unit self /\ name qi = name self /\
    (forall s, t = Leaf s -> single_element qi).
Proof.
  intros Hr Hu. unfold wrap_item. rewrite create_new_instance_run. cbv zeta.
  destruct (np_array_accepts (item_of d t) (_dtype self) (Some false)
              (order self) (subok self) 0) as [x Hx];
    [now rewrite to_tree_item_of|].
  rewrite Hx, (stored_unit_kept _ Hu).
  eexists. exists x. split; [reflexivity|]. split; [reflexivity|].
  simpl. repeat split.
  intros s ->. unfold single_element. simpl.
  eexists. split; [reflexivity|].
  unfold np_array in Hx. simpl in Hx. injection Hx as <-. reflexivity.
Qed.

End Iteration.

(** C9, as the code has it.  Iterating a Quantity whose values have
    [N] items along the first axis yields exactly [N] Quantities, in
    index order; the [i]-th wraps the [i]-th item (an array made of it
    with the Quantity's dtype), so it holds a single element when the
    item is a number, that is, when the Quantity is one-dimensional.
    Each carries the parent's name, and the parent's unit when that
    unit is [None] or a unit [get_unit] resolves to itself.  The
    sequence is lazy ([k] calls of [next] wrap [k] items and leave the
    others pending), finite (call [N + 1] reports the end, and so does
    every call after it) and starts anew with every [__iter__]. *)
Theorem iteration_yields_the_items :
  forall (N : Numeric) (U : UnitBase) (q : Quantity) (a : ndarray)
         (items : list (tree scalar)),
    value q = Some a ->
    nd_tree a = Node items ->
    rectangular (nd_tree a) = true ->
    kept_by_wrapping (unit q) ->
    exists qs : list Quantity,
      take q (S (List.length items)) (__iter__ q) = (Finished, Ok (qs, true)) /\
      List.length qs = List.length items /\
      (forall i t,
          nth_error items i = Some t ->
          exists qi x,
            nth_error qs i = Some qi /\
            np_array (item_of (nd_dtype a) t) (_dtype q) (Some false)
                     (order q) (subok q) 0 = Ok x /\
            value qi = Some (np_atleast_1d x) /\
            unit qi = unit q /\ name qi = name q /\
            (forall s, t = Leaf s -> single_element qi)) /\
      (forall k,
          0 < k <= List.length items ->
          take q k (__iter__ q)
          = (Suspended (skipn k (map (item_of (nd_dtype a)) items))
                       (unit q) (name q),
             Ok (firstn k qs, false))) /\
      next q Finished = (Finished, Ok None).
Proof.
  intros N U q a items Hv Ht Hr Hu.
  set (d := nd_dtype a).
  set (pending := map (item_of d) items).
  assert (Hi : np_iter a = Ok pending).
  { unfold np_iter. rewrite Ht. reflexivity. }
  rewrite Ht in Hr.
  destruct (mapM_total (wrap_item q (unit q) (name q)) pending) as [qs Hqs].
  { intros x Hx. unfold pending in Hx. apply in_map_iff in Hx as (t & <- & Hin).
    destruct (wrap_item_ok q d t (rectangular_items items t Hr Hin) Hu)
      as (qi & _ & H & _).
    now exists qi. }
  destruct (take_suspended q (unit q) (name q) pending qs Hqs) as [Hk Hend].
  destruct (mapM_nth _ _ _ Hqs) as [Hlen Hnth].
  assert (Hpl : List.length pending = List.length items)
    by (unfold pending; apply length_map).
  exists qs. split; [|split; [|split; [|split]]].
  - rewrite (take_created q a pending _ Hv Hi), <- Hpl. exact Hend.
  - now rewrite Hlen.
  - intros i t Hi'.
    destruct (Hnth i (item_of d t)) as (y & Hy & Hw).
    { unfold pending. now apply map_nth_error. }
    destruct (wrap_item_ok q d t) as (qi & x & Hw' & Hx & Hrest); [|exact Hu|].
    { apply (rectangular_items items t Hr). eapply nth_error_In. exact Hi'. }
    rewrite Hw in Hw'. injection Hw' as <-.
    exists y, x. split; [exact Hy|]. split; [exact Hx|]. exact Hrest.
  - intros [|k] [Hk0 Hk1]; [lia|].
    rewrite (take_created q a pending _ Hv Hi).
    apply Hk. lia.
  - reflexivity.
Qed.

(** [Quantity([1, 2, 3], "meter", name="d")] in the reference
    instance: four calls of [next] yield three single-element
    Quantities in meters, named "d", and the end. *)
Lemma iteration_yields_the_items_witness :
  value Examples.three_lengths
  = Some (Examples.vector [1%float; 2%float; 3%float]) /\
  rectangular (nd_tree (Examples.vector [1%float; 2%float; 3%float])) = true /\
  kept_by_wrapping (unit Examples.three_lengths) /\
  take Examples.three_lengths 4 (__iter__ Examples.three_lengths)
  = (Finished, Ok (Examples.three_lengths_items, true)) /\
  map value Examples.three_lengths_items
  = [Some (Examples.vector [1%float]); Some (Examples.vector [2%float]);
     Some (Examples.vector [3%float])] /\
  map unit Examples.three_lengths_items
  = [Some Examples.meter; Some Examples.meter; Some Examples.meter] /\
  map name Examples.three_lengths_items = [Some "d"; Some "d"; Some "d"].
Proof.
  assert (Hu : kept_by_wrapping (unit Examples.three_lengths)).
  { right. exists Examples.meter. split; [reflexivity|]. split; reflexivity. }
  destruct (iteration_yields_the_items Reference.numeric ReferenceUnits.units
              Examples.three_lengths
              (Examples.vector [1%float; 2%float; 3%float]) _
              eq_refl eq_refl eq_refl Hu) as (qs & Htake & _).
  assert (E : take Examples.three_lengths 4 (__iter__ Examples.three_lengths)
              = (Finished, Ok (Examples.three_lengths_items, true)))
    by reflexivity.
  assert (Hq : qs = Examples.three_lengths_items).
  { pose proof (eq_trans (eq_sym Htake) E) as Hq. now injection Hq. }
  rewrite Hq in Htake.
  split; [reflexivity|]. split; [reflexivity|]. split; [exact Hu|].
  split; [exact Htake|].
  split; [reflexivity|]. split; reflexivity.
Defined.

(** On a Quantity of more than one dimension the yielded Quantities
    are not single-element: [Quantity([[1, 2], [3, 4]])] yields its two
    rows, each of two elements. *)
Lemma iteration_yields_rows :
  take Examples.square 3 (__iter__ Examples.square)
  = (Finished, Ok (Examples.square_rows, true)) /\
  map value Examples.square_rows
  = [Some (Examples.vector [1%float; 2%float]);
     Some (Examples.vector [3%float; 4%float])] /\
  Forall (fun row => ~ single_element row) Examples.square_rows.
Proof.
  split; [reflexivity|]. split; [reflexivity|].
  repeat constructor; intros (a & Ha & Hsize); injection Ha as <-;
    discriminate Hsize.
Qed.

(* ================================================================== *)
(** * Arithmetic over the operations of the specification *)
(* ================================================================== *)

Section SpecArithmetic.
Context {N : Numeric} {U : UnitBase} {A : UnitAlgebra}.

(** The additive wrappers over [spec_compute_operation], in one step. *)
Lemma add_run (a b : Quantity) :
  __add__ (Ops := spec_operations) a (OtherQuantity b) =
  (r <- spec_compute_operation a (OpQuantity b) np_add false ;;
   __create_new_instance a (fst (fst (fst r)))
     (unit_before_wrapping "__add__" (snd (fst (fst r))))
     (snd r) (snd (fst r)))%py.
Proof.
  rewrite (unit_wrapping_methods_run (Ops := spec_operations)
             "__add__" np_add false __add__ a (OtherQuantity b)).
  - reflexivity.
  - simpl. do 4 right. left. reflexivity.
Qed.

Lemma sub_run (a b : Quantity) :
  __sub__ (Ops := spec_operations) a (OtherQuantity b) =
  (r <- spec_compute_operation a (OpQuantity b) np_subtract false ;;
   __create_new_instance a (fst (fst (fst r)))
     (unit_before_wrapping "__sub__" (snd (fst (fst r))))
     (snd r) (snd (fst r)))%py.
Proof.
  rewrite (unit_wrapping_methods_run (Ops := spec_operations)
             "__sub__" np_subtract false __sub__ a (OtherQuantity b)).
  - reflexivity.
  - simpl. do 5 right. left. reflexivity.
Qed.

(** What [spec_compute_operation] returns, when it returns: the unit
    is the one its rule resolved. *)
Lemma spec_compute_operation_unit (self : Quantity) (other : operand)
      (op : ufunc) (v : pyobj) (u : unit_arg sym) (dt : option np_dtype)
      (nm : option string) :
  spec_compute_operation self other op false = Ok (v, u, dt, nm) ->
  exists su, resolve_unit op (OpQuantity self) other = Ok su /\ u = as_arg su.
Proof.
  unfold spec_compute_operation.
  destruct (resolve_unit op (OpQuantity self) other) as [su|e];
    simpl; [|discriminate].
  destruct (the_value self) as [x|e]; simpl; [|discriminate].
  destruct (operand_values other) as [y|e]; simpl; [|discriminate].
  destruct (np_ufunc op x y) as [z|e]; simpl; [|discriminate].
  intros [= _ <- _ _]. now exists su.
Qed.

End SpecArithmetic.

(** C1 (over the operations of the specification).  For every pair of
    Quantities whose dimensions differ, [a + b] and [a - b] raise the
    Dimension Mismatch error. *)
Theorem additive_dimension_mismatch :
  forall (N : Numeric) (U : UnitBase) (A : UnitAlgebra) (a b : Quantity),
    dimension a <> dimension b ->
    __add__ (Ops := spec_operations) a (OtherQuantity b)
    = Raise DimensionError /\
    __sub__ (Ops := spec_operations) a (OtherQuantity b)
    = Raise DimensionError.
Proof.
  intros N U A a b H. apply pydim_eqb_neq in H.
  rewrite add_run, sub_run. unfold spec_compute_operation, resolve_unit.
  simpl. rewrite H. split; reflexivity.
Qed.

(** [Quantity(1, "meter") + Quantity(1, "second")] raises. *)
Lemma additive_dimension_mismatch_witness :
  dimension Examples.one_meter <> dimension Examples.one_second /\
  __add__ (Ops := ReferenceUnits.operations)
    Examples.one_meter (OtherQuantity Examples.one_second)
  = Raise DimensionError /\
  __sub__ (Ops := ReferenceUnits.operations)
    Examples.one_meter (OtherQuantity Examples.one_second)
  = Raise DimensionError.
Proof.
  assert (H : dimension Examples.one_meter <> dimension Examples.one_second)
    by discriminate.
  split; [exact H|].
  exact (additive_dimension_mismatch Reference.numeric ReferenceUnits.units
           ReferenceUnits.algebra Examples.one_meter Examples.one_second H).
Defined.

(** C2, as the code has it (over the operations of the
    specification).  When the left operand carries a unit that is not
    the number one and that [get_unit] resolves to itself, every sum
    [a + b] that is computed has the dimension of [b] equal to that of
    [a] and keeps the unit of [a]; and it keeps the dimension of [a]
    whenever that dimension is the one derived from the unit of [a]:
    the name of the unit's dimension, or [None] for a unit without
    one. *)
Theorem add_keeps_unit_and_dimension :
  forall (N : Numeric) (U : UnitBase) (A : UnitAlgebra) (a b r : Quantity)
         (u : sym),
    unit a = Some u -> resolved u ->
    __add__ (Ops := spec_operations) a (OtherQuantity b) = Ok r ->
    dimension b = dimension a /\
    unit r = unit a /\
    (dimension a = derived_dimension (unit a) -> dimension r = dimension a).
Proof.
  intros N U A a b r u Hu Hres. rewrite add_run.
  destruct (spec_compute_operation a (OpQuantity b) np_add false)
    as [[[[v su] dt] nm]|e] eqn:E; simpl; [|discriminate].
  destruct (spec_compute_operation_unit _ _ _ _ _ _ _ E) as (x & Hx & ->).
  unfold resolve_unit in Hx. simpl in Hx.
  destruct (pydim_eqb (dimension a) (dimension b)) eqn:Hdim; [|discriminate].
  injection Hx as <-. rewrite Hu. simpl.
  intro Hw. apply create_new_instance_unit in Hw as (Hsu & Hdr & _).
  change (stored_unit (ASym u) = Ok (unit r)) in Hsu.
  rewrite (stored_unit_resolved u Hres) in Hsu.
  injection Hsu as Hsu.
  apply pydim_eqb_eq in Hdim. split; [now symmetry|].
  split; [now symmetry|].
  intros Hda. now rewrite Hdr, <- Hsu, Hda.
Qed.

(** In the reference instance: [Quantity(2, "meter") +
    Quantity(5, "meter")] is 7 meters, a length; and the sum of
    [Quantity(2, "meter") * Quantity(3, "second")] with itself keeps
    the unit meter*second and the dimension [None]. *)
Lemma add_keeps_unit_and_dimension_witness :
  unit Examples.two_meters = Some Examples.meter /\
  resolved (U := ReferenceUnits.units) Examples.meter /\
  __add__ (Ops := ReferenceUnits.operations)
    Examples.two_meters (OtherQuantity Examples.five_meters)
  = Ok Examples.seven_meters /\
  value Examples.seven_meters = Some (Examples.vector [7%float]) /\
  unit Examples.seven_meters = unit Examples.two_meters /\
  dimension Examples.seven_meters = dimension Examples.two_meters /\
  dimension Examples.six_meter_seconds = DimNone /\
  __add__ (Ops := ReferenceUnits.operations)
    Examples.six_meter_seconds (OtherQuantity Examples.six_meter_seconds)
  = Ok EdgeExamples.twelve_meter_seconds /\
  unit EdgeExamples.twelve_meter_seconds = unit Examples.six_meter_seconds /\
  dimension EdgeExamples.twelve_meter_seconds
  = dimension Examples.six_meter_seconds.
Proof.
  assert (Hres : resolved (U := ReferenceUnits.units) Examples.meter)
    by (split; reflexivity).
  assert (E : __add__ (Ops := ReferenceUnits.operations)
                Examples.two_meters (OtherQuantity Examples.five_meters)
              = Ok Examples.seven_meters) by reflexivity.
  destruct (add_keeps_unit_and_dimension Reference.numeric
              ReferenceUnits.units ReferenceUnits.algebra
              Examples.two_meters Examples.five_meters Examples.seven_meters
              Examples.meter eq_refl Hres E)
    as (_ & Hunit & Hdim).
  assert (Hres' : resolved (U := ReferenceUnits.units)
                    (ReferenceUnits.Product [("meter", 1%Z); ("second", 1%Z)]))
    by (split; reflexivity).
  assert (E' : __add__ (Ops := ReferenceUnits.operations)
                 Examples.six_meter_seconds
                 (OtherQuantity Examples.six_meter_seconds)
               = Ok EdgeExamples.twelve_meter_seconds) by reflexivity.
  destruct (add_keeps_unit_and_dimension Reference.numeric
              ReferenceUnits.units ReferenceUnits.algebra
              Examples.six_meter_seconds Examples.six_meter_seconds
              EdgeExamples.twelve_meter_seconds _ eq_refl Hres' E')
    as (_ & Hunit' & Hdim').
  split; [reflexivity|]. split; [exact Hres|]. split; [exact E|].
  split; [reflexivity|]. split; [exact Hunit|].
  split; [exact (Hdim eq_refl)|]. split; [reflexivity|].
  split; [exact E'|]. split; [exact Hunit'|exact (Hdim' eq_refl)].
Defined.

(** A sum does not always keep the unit and the dimension of its left
    operand.  [Quantity(5, 1)] has the number one for a unit, and its
    sum with itself has no unit; [7 // Quantity(2)] has no unit, and
    its sum with itself has the unit [Zero].  And
    [Quantity(7) + Quantity(3)] has the unit [Zero] of its operands but
    the dimension [None] where they have [Zero], so that adding
    [Quantity(7)] to it raises the Dimension Mismatch error. *)
Lemma add_loses_unit_or_dimension :
  (Quantity_ (Examples.int 5) (AInt 1) = Ok EdgeExamples.five_ones /\
   unit EdgeExamples.five_ones = Some (One (UnitBase := ReferenceUnits.units)) /\
   __add__ (Ops := ReferenceUnits.operations)
     EdgeExamples.five_ones (OtherQuantity EdgeExamples.five_ones)
   = Ok EdgeExamples.ten_ones /\
   unit EdgeExamples.ten_ones = None /\
   unit EdgeExamples.ten_ones <> unit EdgeExamples.five_ones) /\
  (__rfloordiv__ (Ops := ReferenceUnits.operations)
     Examples.plain_two (OtherRaw (Examples.int 7))
   = Ok Examples.seven_rfloordiv_two /\
   unit Examples.seven_rfloordiv_two = None /\
   __add__ (Ops := ReferenceUnits.operations)
     Examples.seven_rfloordiv_two
     (OtherQuantity Examples.seven_rfloordiv_two)
   = Ok EdgeExamples.six_without_unit /\
   unit EdgeExamples.six_without_unit
   = Some (Zero (UnitBase := ReferenceUnits.units)) /\
   unit EdgeExamples.six_without_unit <> unit Examples.seven_rfloordiv_two) /\
  (dimension Examples.plain_seven = DimZero /\
   dimension Examples.plain_three = DimZero /\
   __add__ (Ops := ReferenceUnits.operations)
     Examples.plain_seven (OtherQuantity Examples.plain_three)
   = Ok Examples.plain_ten /\
   unit Examples.plain_ten = unit Examples.plain_seven /\
   dimension Examples.plain_ten = DimNone /\
   dimension Examples.plain_ten <> dimension Examples.plain_seven /\
   __add__ (Ops := ReferenceUnits.operations)
     Examples.plain_ten (OtherQuantity Examples.plain_seven)
   = Raise DimensionError).
Proof.
  split; [|split].
  - repeat (split; [reflexivity|]). discriminate.
  - repeat (split; [reflexivity|]). discriminate.
  - do 5 (split; [reflexivity|]). split; [discriminate|reflexivity].
Qed.

Section SpecMultiplication.
Context {N : Numeric} {U : UnitBase} {A : UnitAlgebra}.

(** A direct wrapper of the table over [spec_compute_operation]: the
    unit of what it returns is the unit its rule resolved, as the
    wrapper and [__create_new_instance] pass it on. *)
Lemma direct_wrapper_unit (method_name : string) (op : ufunc)
      (f : Quantity -> other_arg -> result Quantity) (a b r : Quantity) :
  In (method_name, op, false, f) (unit_wrapping_methods (Ops := spec_operations)) ->
  f a (OtherQuantity b) = Ok r ->
  exists su,
    resolve_unit op (OpQuantity a) (OpQuantity b) = Ok su /\
    stored_unit (wrapped_unit (unit_before_wrapping method_name (as_arg su)))
    = Ok (unit r).
Proof.
  intros Hin.
  rewrite (unit_wrapping_methods_run (Ops := spec_operations)
             method_name op false f a (OtherQuantity b) Hin).
  simpl.
  destruct (spec_compute_operation a (OpQuantity b) op false)
    as [[[[v su] dt] nm]|e] eqn:E; simpl; [|discriminate].
  destruct (spec_compute_operation_unit _ _ _ _ _ _ _ E) as (x & Hx & ->).
  intro Hw. apply create_new_instance_unit in Hw as (Hsu & _).
  now exists x.
Qed.

(** What a multiplicative wrapper stores: the combined unit as the
    specification normalizes it, when [get_unit] resolves that unit to
    itself. *)
Lemma multiplicative_wrapper_unit (method_name : string) (op : ufunc)
      (f : Quantity -> other_arg -> result Quantity) (a b r : Quantity)
      (s : sym) :
  In (method_name, op, false, f) (unit_wrapping_methods (Ops := spec_operations)) ->
  rule_of op = Some Multiplicative ->
  normalized_unit (combine_units op (unit a) (unit b)) = Some s ->
  resolved s ->
  f a (OtherQuantity b) = Ok r ->
  unit r = Some s.
Proof.
  intros Hin Hrule Hn Hres Hf.
  assert (Hname : (method_name =? "__rfloordiv__") = false).
  { simpl in Hin.
    repeat (destruct Hin as [Hin|Hin];
            [first [discriminate Hin
                   |injection Hin as <- _ _; reflexivity]|]).
    contradiction. }
  destruct (direct_wrapper_unit method_name op f a b r Hin Hf)
    as (su & Hsu & Hst).
  unfold resolve_unit in Hsu. rewrite Hrule in Hsu. simpl in Hsu.
  injection Hsu as <-. unfold normalized_unit in Hn.
  unfold unit_before_wrapping in Hst. rewrite Hname in Hst.
  destruct (reduce_dimensionless (combine_units op (unit a) (unit b)))
    as [s'|]; injection Hn as <-; cbn [as_arg wrapped_unit] in Hst;
    rewrite (stored_unit_resolved _ Hres) in Hst; now injection Hst.
Qed.

(** In the reference instance [get_unit] hands a unit object back as
    it is, so that every unit but the number one is resolved; the
    normalized unit never is the number one. *)
Lemma reference_normalized_resolved (u : option ReferenceUnits.unit_expr) :
  exists s, normalized_unit (U := ReferenceUnits.units) u = Some s /\
            resolved (U := ReferenceUnits.units) s.
Proof.
  unfold normalized_unit, reduce_dimensionless.
  destruct u as [s|].
  - destruct (isinstance_One (UnitBase := ReferenceUnits.units) s) eqn:E.
    + eexists. split; [reflexivity|]. split; reflexivity.
    + exists s. split; [reflexivity|]. split; [exact E|reflexivity].
  - eexists. split; [reflexivity|]. split; reflexivity.
Qed.

End SpecMultiplication.

(** C3 (over the operations of the specification).  The unit of a
    product is the symbolic product of the units of its factors, as the
    multiplicative rule of section 4.2 gives it: the combined unit,
    with a combination that reduces to the dimensionless sentinel
    normalized to that sentinel.  For every pair of Quantities whose
    product is computed, [(a * b).unit] is that unit whenever
    [get_unit] resolves it to itself, and likewise [(a / b).unit] and
    the symbolic quotient; in the reference instance, where [get_unit]
    hands every unit object back, this is so for every pair.  In
    particular [Quantity(2, "meter") * Quantity(3, "second")] has the
    values [[6.0]] and the unit [meter*second]. *)
Theorem product_and_quotient_units :
  (forall (N : Numeric) (U : UnitBase) (A : UnitAlgebra) (a b r : Quantity)
          (s : sym),
      resolved s ->
      (normalized_unit (combine_units np_multiply (unit a) (unit b)) = Some s ->
       __mul__ (Ops := spec_operations) a (OtherQuantity b) = Ok r ->
       unit r = Some s) /\
      (normalized_unit (combine_units np_true_divide (unit a) (unit b))
       = Some s ->
       __truediv__ (Ops := spec_operations) a (OtherQuantity b) = Ok r ->
       unit r = Some s)) /\
  (forall a b r : Examples.Qty,
      (__mul__ (Ops := ReferenceUnits.operations) a (OtherQuantity b) = Ok r ->
       unit r
       = normalized_unit
           (combine_units (UnitAlgebra := ReferenceUnits.algebra)
              np_multiply (unit a) (unit b))) /\
      (__truediv__ (Ops := ReferenceUnits.operations) a (OtherQuantity b)
       = Ok r ->
       unit r
       = normalized_unit
           (combine_units (UnitAlgebra := ReferenceUnits.algebra)
              np_true_divide (unit a) (unit b)))) /\
  (Quantity_ (Examples.int 2) (AStr "meter") = Ok Examples.two_meters /\
   Quantity_ (Examples.int 3) (AStr "second") = Ok Examples.three_seconds /\
   __mul__ (Ops := ReferenceUnits.operations)
     Examples.two_meters (OtherQuantity Examples.three_seconds)
   = Ok Examples.six_meter_seconds /\
   value Examples.six_meter_seconds = Some (Examples.vector [6%float]) /\
   unit Examples.six_meter_seconds
   = Some (ReferenceUnits.Product [("meter", 1%Z); ("second", 1%Z)])).
Proof.
  assert (General :
    forall (N : Numeric) (U : UnitBase) (A : UnitAlgebra) (a b r : Quantity)
           (s : sym),
      resolved s ->
      (normalized_unit (combine_units np_multiply (unit a) (unit b)) = Some s ->
       __mul__ (Ops := spec_operations) a (OtherQuantity b) = Ok r ->
       unit r = Some s) /\
      (normalized_unit (combine_units np_true_divide (unit a) (unit b))
       = Some s ->
       __truediv__ (Ops := spec_operations) a (OtherQuantity b) = Ok r ->
       unit r = Some s)).
  { intros N U A a b r s Hres. split; intros Hc Hf.
    - apply (multiplicative_wrapper_unit "__mul__" np_multiply
               (__mul__ (Ops := spec_operations)) a b r s);
        try assumption; try reflexivity.
      simpl. left. reflexivity.
    - apply (multiplicative_wrapper_unit "__truediv__" np_true_divide
               (__truediv__ (Ops := spec_operations)) a b r s);
        try assumption; try reflexivity.
      simpl. right. left. reflexivity. }
  split; [exact General|]. split.
  - intros a b r. split; intro Hf.
    + destruct (reference_normalized_resolved
                  (combine_units (UnitAlgebra := ReferenceUnits.algebra)
                     np_multiply (unit a) (unit b))) as (s & Hs & Hres).
      rewrite Hs.
      exact (proj1 (General Reference.numeric ReferenceUnits.units
                      ReferenceUnits.algebra a b r s Hres) Hs Hf).
    + destruct (reference_normalized_resolved
                  (combine_units (UnitAlgebra := ReferenceUnits.algebra)
                     np_true_divide (unit a) (unit b))) as (s & Hs & Hres).
      rewrite Hs.
      exact (proj2 (General Reference.numeric ReferenceUnits.units
                      ReferenceUnits.algebra a b r s Hres) Hs Hf).
  - repeat split; reflexivity.
Qed.

(** In the reference instance, through the general part of the
    theorem: the product of 2 meters and 3 seconds has the unit
    meter*second; the quotient of 1 meter and 1 meter, whose units
    combine to the number one, has the sentinel [Zero] that
    [Quantity(7)] has. *)
Lemma product_and_quotient_units_witness :
  resolved (U := ReferenceUnits.units)
    (ReferenceUnits.Product [("meter", 1%Z); ("second", 1%Z)]) /\
  normalized_unit
    (combine_units (UnitAlgebra := ReferenceUnits.algebra) np_multiply
       (unit Examples.two_meters) (unit Examples.three_seconds))
  = Some (ReferenceUnits.Product [("meter", 1%Z); ("second", 1%Z)]) /\
  __mul__ (Ops := ReferenceUnits.operations)
    Examples.two_meters (OtherQuantity Examples.three_seconds)
  = Ok Examples.six_meter_seconds /\
  unit Examples.six_meter_seconds
  = Some (ReferenceUnits.Product [("meter", 1%Z); ("second", 1%Z)]) /\
  resolved (U := ReferenceUnits.units) (Zero (UnitBase := ReferenceUnits.units)) /\
  combine_units (UnitAlgebra := ReferenceUnits.algebra) np_true_divide
    (unit Examples.one_meter) (unit Examples.one_meter)
  = Some (One (UnitBase := ReferenceUnits.units)) /\
  normalized_unit
    (combine_units (UnitAlgebra := ReferenceUnits.algebra) np_true_divide
       (unit Examples.one_meter) (unit Examples.one_meter))
  = Some (Zero (UnitBase := ReferenceUnits.units)) /\
  __truediv__ (Ops := ReferenceUnits.operations)
    Examples.one_meter (OtherQuantity Examples.one_meter)
  = Ok Examples.meter_per_meter /\
  unit Examples.meter_per_meter = Some (Zero (UnitBase := ReferenceUnits.units)) /\
  unit Examples.meter_per_meter = unit Examples.plain_seven.
Proof.
  assert (Hres : resolved (U := ReferenceUnits.units)
                   (ReferenceUnits.Product [("meter", 1%Z); ("second", 1%Z)]))
    by (split; reflexivity).
  assert (Hc : normalized_unit
                 (combine_units (UnitAlgebra := ReferenceUnits.algebra)
                    np_multiply (unit Examples.two_meters)
                    (unit Examples.three_seconds))
               = Some (ReferenceUnits.Product
                         [("meter", 1%Z); ("second", 1%Z)]))
    by reflexivity.
  assert (E : __mul__ (Ops := ReferenceUnits.operations)
                Examples.two_meters (OtherQuantity Examples.three_seconds)
              = Ok Examples.six_meter_seconds) by reflexivity.
  assert (Hres0 : resolved (U := ReferenceUnits.units)
                    (Zero (UnitBase := ReferenceUnits.units)))
    by (split; reflexivity).
  assert (Hc0 : normalized_unit
                  (combine_units (UnitAlgebra := ReferenceUnits.algebra)
                     np_true_divide (unit Examples.one_meter)
                     (unit Examples.one_meter))
                = Some (Zero (UnitBase := ReferenceUnits.units)))
    by reflexivity.
  assert (E0 : __truediv__ (Ops := ReferenceUnits.operations)
                 Examples.one_meter (OtherQuantity Examples.one_meter)
               = Ok Examples.meter_per_meter) by reflexivity.
  pose proof (proj1 (proj1 product_and_quotient_units Reference.numeric
                       ReferenceUnits.units ReferenceUnits.algebra
                       Examples.two_meters Examples.three_seconds
                       Examples.six_meter_seconds _ Hres) Hc E) as H.
  pose proof (proj2 (proj1 product_and_quotient_units Reference.numeric
                       ReferenceUnits.units ReferenceUnits.algebra
                       Examples.one_meter Examples.one_meter
                       Examples.meter_per_meter _ Hres0) Hc0 E0) as H0.
  split; [exact Hres|]. split; [exact Hc|]. split; [exact E|].
  split; [exact H|]. split; [exact Hres0|]. split; [reflexivity|].
  split; [exact Hc0|]. split; [exact E0|]. split; [exact H0|].
  rewrite H0. reflexivity.
Defined.

(** C6, at the failing operators.  [__rmod__] and [__rpow__] hand back
    what [compute_bitwise_operation] returns: for no operands is their
    result a Quantity.  In the reference instance [7 % Quantity(3)] is
    the bare array [[1.0]]. *)
Theorem reflected_mod_and_pow_return_no_Quantity :
  (forall (N : Numeric) (U : UnitBase) (Ops : Operations)
          (self : Quantity) (other : other_arg),
      (exists f, reflected "__rmod__" = Some f /\
                 forall q, f self other <> Ok (RQuantity q)) /\
      (exists g, reflected "__rpow__" = Some g /\
                 forall q, g self other <> Ok (RQuantity q))) /\
  (exists f,
      reflected (Ops := ReferenceUnits.operations) "__rmod__" = Some f /\
      f Examples.plain_three (OtherRaw (Examples.int 7))
      = Ok (RRaw (PArr (Examples.vector [1%float])))).
Proof.
  split.
  - intros N U Ops self other. split; eexists; (split; [reflexivity|]);
      intros q; unfold returns_raw.
    + destruct (__rmod__ self other); discriminate.
    + destruct (__rpow__ self other); discriminate.
  - eexists. split; reflexivity.
Qed.

(** C8, at the failing operator.  [7 // Quantity(2)] resolves the unit
    [None] and returns a Quantity whose unit is [None], not the [Zero]
    that [Quantity(2)] and [Quantity(7) // Quantity(2)] have. *)
Theorem reflected_floordiv_is_not_normalized :
  Quantity_ (Examples.int 2) ANone = Ok Examples.plain_two /\
  unit Examples.plain_two = Some (Zero (UnitBase := ReferenceUnits.units)) /\
  __rfloordiv__ (Ops := ReferenceUnits.operations)
    Examples.plain_two (OtherRaw (Examples.int 7))
  = Ok Examples.seven_rfloordiv_two /\
  unit Examples.seven_rfloordiv_two = None /\
  __floordiv__ (Ops := ReferenceUnits.operations)
    Examples.plain_seven (OtherQuantity Examples.plain_two)
  = Ok Examples.seven_floordiv_two /\
  unit Examples.seven_floordiv_two
  = Some (Zero (UnitBase := ReferenceUnits.units)).
Proof.
  repeat split; reflexivity.
Qed.

(* ================================================================== *)
(** * Conversion there and back *)
(* ================================================================== *)

Section RoundTrip.
Context {N : Numeric} {U : UnitBase}.

Lemma tree_induction {A : Type} (P : tree A -> Prop) :
  (forall x, P (Leaf x)) ->
  (forall l, Forall P l -> P (Node l)) ->
  forall t, P t.
Proof.
  intros HL HN. fix IH 1. intros [x|l].
  - apply HL.
  - apply HN. induction l as [|t l IHl]; constructor; [apply IH|exact IHl].
Qed.

Lemma tree_map_map {A B C : Type} (f : A -> B) (g : B -> C) (t : tree A) :
  tree_map g (tree_map f t) = tree_map (fun x => g (f x)) t.
Proof.
  induction t as [x|l IH] using tree_induction; simpl; [reflexivity|].
  f_equal. rewrite map_map. apply map_ext_Forall. exact IH.
Qed.

Lemma shape_tree_map {A B : Type} (f : A -> B) (t : tree A) :
  shape (tree_map f t) = shape t.
Proof.
  induction t as [x|l IH] using tree_induction; simpl; [reflexivity|].
  rewrite length_map. f_equal.
  destruct l as [|t l]; simpl; [reflexivity|].
  now inversion IH.
Qed.

Lemma forallb_map_Forall {A B : Type} (p : B -> bool) (q : A -> bool)
      (g : A -> B) (l : list A) :
  Forall (fun x => p (g x) = q x) l ->
  forallb p (map g l) = forallb q l.
Proof.
  induction 1 as [|x l Hx _ IH]; simpl; [reflexivity|].
  now rewrite Hx, IH.
Qed.

Lemma rectangular_tree_map {A B : Type} (f : A -> B) (t : tree A) :
  rectangular (tree_map f t) = rectangular t.
Proof.
  induction t as [x|l IH] using tree_induction; simpl; [reflexivity|].
  f_equal.
  - apply forallb_map_Forall. exact IH.
  - destruct l as [|t l]; simpl; [reflexivity|].
    apply forallb_map_Forall. apply Forall_forall. intros y _.
    now rewrite !shape_tree_map.
Qed.

(** numpy makes of an array of one dimension or more an array of the
    same shape, every element converted to the dtype asked for. *)
Lemma np_array_of_array (v : ndarray) (dt : np_dtype) (c : option bool)
      (o : option string) (s : option bool) :
  rectangular (nd_tree v) = true ->
  np_array (PArr v) (Some dt) c o s 0
  = Ok (mk_ndarray dt (tree_map (cast dt) (nd_tree v))).
Proof.
  intro H. unfold np_array. simpl. rewrite H. reflexivity.
Qed.

(** The branch of [convert_to] for a target of the Quantity's
    dimension: the values are scaled by the factor of the Quantity's
    unit and divided by the factor of the target. *)
Lemma converted_value_same_dimension (q : Quantity) (v : ndarray)
      (ut : sym) (d : dim) (f g : factor) :
  value q = Some v ->
  dimension q = DimName d ->
  dimension_name ut = Some d ->
  Units (str_dim d) (str_unit (unit q)) = Ok f ->
  Units (str_dim d) (str_unit (Some ut)) = Ok g ->
  converted_value q ut
  = Ok (array_map (fun x => over_factor x g)
          (array_map (fun x => times_factor x f) (astype v (_dtype q)))).
Proof.
  intros Hv Hd Hut Hf Hg.
  unfold converted_value, convert_try, same_dimension, the_value.
  rewrite Hut, Hd. simpl.
  rewrite (proj2 (dim_eqb_eq d d) eq_refl), Hv. simpl.
  rewrite Hf. simpl. rewrite Hg. reflexivity.
Qed.

End RoundTrip.

(** The conversion of a Quantity to a unit of its dimension and back
    is computed element by element.  For a Quantity [a] of dtype [dt]
    in a resolved unit of dimension [d], and a target that resolves to
    a unit of the same dimension, with [fa] and [ft] the scale factors
    of the two units: [a.convert_to(u)] returns a Quantity in the
    target unit, [.convert_to(a.unit)] on it returns a Quantity with
    the unit, the dimension and the name of [a], of the same shape,
    whose elements are [there_and_back dt fa ft] of the elements of
    [a]. *)
Theorem convert_there_and_back :
  forall (N : Numeric) (U : UnitBase) (a : Quantity) (va : ndarray)
         (items : list (tree scalar)) (dt : np_dtype) (ua ut : sym)
         (d : dim) (u : unit_arg sym) (fa ft : factor),
    value a = Some va ->
    nd_tree va = Node items ->
    rectangular (nd_tree va) = true ->
    _dtype a = Some dt ->
    unit a = Some ua -> resolved ua ->
    dimension_name ua = Some d -> dimension a = DimName d ->
    get_unit u = Ok ut -> resolved ut -> dimension_name ut = Some d ->
    Units (str_dim d) (str_unit (Some ua)) = Ok fa ->
    Units (str_dim d) (str_unit (Some ut)) = Ok ft ->
    exists q1 q2 : Quantity,
      convert_to u false a = (a, Ok (Some q1)) /\
      unit q1 = Some ut /\
      convert_to (ASym ua) false q1 = (q1, Ok (Some q2)) /\
      unit q2 = unit a /\ dimension q2 = dimension a /\ name q2 = name a /\
      value q2
      = Some (mk_ndarray dt (tree_map (there_and_back dt fa ft) (nd_tree va))).
Proof.
  intros N U a va items dt ua ut d u fa ft
         Hva Hnode Hrect Hdt Hua Hrua Hdua Hda Hget Hrut Hdut Hfa Hft.
  (* there *)
  pose (t1 := tree_map (fun x => cast dt (over_factor
                 (times_factor (cast dt x) fa) ft)) (nd_tree va)).
  assert (Hv1 : converted_value a ut
                = Ok (array_map (fun x => over_factor x ft)
                        (array_map (fun x => times_factor x fa)
                           (astype va (_dtype a))))).
  { apply (converted_value_same_dimension a va ut d fa ft); try assumption.
    now rewrite Hua. }
  set (v1 := array_map (fun x => over_factor x ft)
               (array_map (fun x => times_factor x fa)
                  (astype va (_dtype a)))) in Hv1.
  assert (Ht1 : tree_map (cast dt) (nd_tree v1) = t1).
  { unfold v1, t1, array_map, astype. simpl. rewrite Hdt. simpl.
    now rewrite !tree_map_map. }
  assert (Hr1 : rectangular (nd_tree v1) = true).
  { unfold v1, array_map, astype. simpl.
    now rewrite !rectangular_tree_map. }
  assert (Hn1 : np_atleast_1d (mk_ndarray dt t1) = mk_ndarray dt t1).
  { unfold np_atleast_1d, t1. simpl. rewrite Hnode. reflexivity. }
  destruct (convert_to_returns_new a u ut v1 (mk_ndarray dt t1))
    as [q1 (Hc1 & Hq1)]; try assumption.
  { rewrite Hdt, <- Ht1. now apply np_array_of_array. }
  destruct Hq1 as (Hu1 & Hval1 & Hdim1 & Hname1 & Hdt1).
  rewrite Hn1 in Hval1.
  (* and back *)
  assert (Hv2 : converted_value q1 ua
                = Ok (array_map (fun x => over_factor x fa)
                        (array_map (fun x => times_factor x ft)
                           (astype (mk_ndarray dt t1) (_dtype q1))))).
  { apply (converted_value_same_dimension q1 (mk_ndarray dt t1) ua d ft fa);
      try assumption.
    - rewrite Hdim1. simpl. now rewrite Hdut.
    - now rewrite Hu1. }
  set (v2 := array_map (fun x => over_factor x fa)
               (array_map (fun x => times_factor x ft)
                  (astype (mk_ndarray dt t1) (_dtype q1)))) in Hv2.
  pose (t2 := tree_map (there_and_back dt fa ft) (nd_tree va)).
  assert (Ht2 : tree_map (cast dt) (nd_tree v2) = t2).
  { unfold v2, t2, t1, array_map, astype, there_and_back. simpl.
    rewrite Hdt1, Hdt. simpl. now rewrite !tree_map_map. }
  assert (Hr2 : rectangular (nd_tree v2) = true).
  { unfold v2, t1, array_map, astype. simpl.
    now rewrite !rectangular_tree_map. }
  assert (Hn2 : np_atleast_1d (mk_ndarray dt t2) = mk_ndarray dt t2).
  { unfold np_atleast_1d, t2. simpl. rewrite Hnode. reflexivity. }
  destruct (convert_to_returns_new q1 (ASym ua) ua v2
              (mk_ndarray dt t2)) as [q2 (Hc2 & Hq2)]; try assumption.
  { apply Hrua. }
  { rewrite Hdt1, Hdt, <- Ht2. now apply np_array_of_array. }
  destruct Hq2 as (Hu2 & Hval2 & Hdim2 & Hname2 & _).
  rewrite Hn2 in Hval2.
  exists q1, q2. split; [exact Hc1|]. split; [exact Hu1|].
  split; [exact Hc2|]. split; [now rewrite Hu2, Hua|].
  split; [rewrite Hdim2, Hda; simpl; now rewrite Hdua|].
  split; [now rewrite Hname2, Hname1|]. exact Hval2.
Qed.

(** [Quantity(10, "kilometer")] to meters and back, in the reference
    instance: 10 is scaled to 10000 and back to 10. *)
Lemma convert_there_and_back_witness :
  value Examples.ten_kilometers = Some (Examples.vector [10%float]) /\
  unit Examples.ten_kilometers = Some Examples.kilometer /\
  dimension Examples.ten_kilometers = Examples.a_length /\
  Units (UnitBase := ReferenceUnits.units) "length" "kilometer"
  = Ok 1000%float /\
  Units (UnitBase := ReferenceUnits.units) "length" "meter" = Ok 1%float /\
  tree_map (there_and_back (U := ReferenceUnits.units) Reference.float64
              1000%float 1%float)
    (nd_tree (Examples.vector [10%float]))
  = nd_tree (Examples.vector [10%float]) /\
  exists q1 q2 : Examples.Qty,
    convert_to (AStr "meter") false Examples.ten_kilometers
    = (Examples.ten_kilometers, Ok (Some q1)) /\
    unit q1 = Some Examples.meter /\
    convert_to (U := ReferenceUnits.units) (ASym Examples.kilometer) false q1
    = (q1, Ok (Some q2)) /\
    unit q2 = unit Examples.ten_kilometers /\
    dimension q2 = dimension Examples.ten_kilometers /\
    name q2 = name Examples.ten_kilometers /\
    value q2
    = Some (@mk_ndarray Reference.numeric Reference.float64
              (tree_map (there_and_back (U := ReferenceUnits.units)
                           Reference.float64 1000%float 1%float)
                 (nd_tree (Examples.vector [10%float])))).
Proof.
  assert (Hk : resolved (U := ReferenceUnits.units) Examples.kilometer)
    by (split; reflexivity).
  assert (Hm : resolved (U := ReferenceUnits.units) Examples.meter)
    by (split; reflexivity).
  do 6 (split; [reflexivity|]).
  exact (convert_there_and_back Reference.numeric ReferenceUnits.units
           Examples.ten_kilometers (Examples.vector [10%float]) _
           Reference.float64 Examples.kilometer Examples.meter "length"
           (AStr "meter") 1000%float 1%float
           eq_refl eq_refl eq_refl eq_refl eq_refl Hk eq_refl eq_refl
           eq_refl Hm eq_refl eq_refl eq_refl).
Defined.

(* ================================================================== *)
(** * The round trip within floating-point tolerance *)
(* ================================================================== *)


Section RoundTripTolerance.
Import QArith Qabs Lqa.
Import Tolerance.
Local Open Scope Q_scope.



(** The value after the four operations: both scale factors cancel,
    the four relative errors stay. *)
Lemma scaled_value (x fa ft r1 r2 r3 r4 d1 d2 d3 d4 : Q) :
  ~ fa == 0 -> ~ ft == 0 ->
  r1 == x * fa * (1 + d1) ->
  r2 == r1 / ft * (1 + d2) ->
  r3 == r2 * ft * (1 + d3) ->
  r4 == r3 / fa * (1 + d4) ->
  r4 - x == x * ((1 + d1) * (1 + d2) * ((1 + d3) * (1 + d4)) - 1).
Proof.
  intros Ha Ht E1 E2 E3 E4. rewrite E4, E3, E2, E1. field. now split.
Qed.









End RoundTripTolerance.

(* ================================================================== *)
(** * What construction and wrapping establish *)
(* ================================================================== *)

Section Invariants.
Context {N : Numeric} {U : UnitBase}.

Lemma atleast_1d_run (x : ndarray) :
  nd_dtype (np_atleast_1d x) = nd_dtype x /\
  (exists items, nd_tree (np_atleast_1d x) = Node items) /\
  rectangular (nd_tree (np_atleast_1d x)) = rectangular (nd_tree x).
Proof.
  unfold np_atleast_1d. destruct (nd_tree x) as [v|l] eqn:E; simpl.
  - split; [reflexivity|]. split; [eexists|]; reflexivity.
  - rewrite E. split; [reflexivity|]. split; [eexists|]; reflexivity.
Qed.

Lemma rectangular_prepend_axes (n : nat) (t : tree scalar) :
  rectangular (prepend_axes n t) = rectangular t.
Proof.
  induction n as [|n IH]; simpl; [reflexivity|].
  now rewrite IH, !andb_true_r.
Qed.

(** The array numpy makes is a proper array, of the dtype asked for
    when one is asked for. *)
Lemma np_array_run (v : pyobj) (dt : option np_dtype) (c : option bool)
      (o : option string) (s : option bool) (n : nat) (x : ndarray) :
  np_array v dt c o s n = Ok x ->
  rectangular (nd_tree x) = true /\
  (forall d, dt = Some d -> nd_dtype x = d).
Proof.
  unfold np_array. destruct (rectangular (to_tree v)) eqn:Hr; [|discriminate].
  intro H. injection H as <-. simpl. split.
  - now rewrite rectangular_prepend_axes, rectangular_tree_map.
  - now intros d ->.
Qed.

(** An array that is ragged is refused. *)
Lemma np_array_refuses (v : pyobj) (dt : option np_dtype) (c : option bool)
      (o : option string) (s : option bool) (n : nat) :
  rectangular (to_tree v) = false -> np_array v dt c o s n = Raise ValueError.
Proof.
  intro H. unfold np_array. now rewrite H.
Qed.

End Invariants.

(** Every Quantity the constructor returns is well formed.  Its
    [value] is the array the instance is a view of; that array has at
    least one axis, is a proper (not ragged) array, and has the dtype
    recorded in [_dtype]; the dtype is never the default integer type
    (an array of that dtype is converted to double; stated for a numpy
    in which double is not the integer type).  [unit], [dimension] and
    [name] are never [None], [quantity] is [True], and [constant],
    [copy], [order], [subok] and [ndmin] are the arguments of the
    call. *)
Theorem constructed_quantity_is_well_formed :
  forall (N : Numeric) (U : UnitBase) (v : pyobj) (u : unit_arg sym)
         (dt : option np_dtype) (c : bool) (o : option string) (s : bool)
         (n : nat) (nm : option string) (k : bool) (q : Quantity),
    __new__ v u dt c o s n nm k = Ok q ->
    (exists a items,
        value q = Some a /\ data q = a /\ nd_tree a = Node items /\
        rectangular (nd_tree a) = true /\
        _dtype q = Some (nd_dtype a) /\
        (dtype_eqb np_double np_int = false ->
         dtype_eqb (nd_dtype a) np_int = false)) /\
    unit q <> None /\ dimension q <> DimNone /\
    name q <> None /\ (nm = None -> name q = Some "") /\
    quantity q = Some true /\ constant q = Some k /\ copy q = Some c /\
    order q = o /\ subok q = Some s /\ ndmin q = Some n.
Proof.
  intros N U v u dt c o s n nm k q. unfold __new__.
  destruct (np_array v dt (Some c) o (Some s) n) as [x0|e] eqn:Hx0;
    [|discriminate].
  apply np_array_run in Hx0 as [Hr0 _].
  destruct (atleast_1d_run x0) as (Hd1 & [items1 Ht1] & Hr1).
  rewrite Hr0 in Hr1.
  set (x1 := np_atleast_1d x0) in *.
  cbn [bind].
  set (x := if dtype_eqb (nd_dtype x1) np_int
            then astype x1 (Some np_double) else x1).
  assert (Hx : exists items, nd_tree x = Node items /\
                             rectangular (nd_tree x) = true /\
                             (dtype_eqb np_double np_int = false ->
                              dtype_eqb (nd_dtype x) np_int = false)).
  { unfold x. destruct (dtype_eqb (nd_dtype x1) np_int) eqn:E.
    - unfold astype. simpl. rewrite Ht1. simpl. eexists.
      split; [reflexivity|]. split; [|trivial].
      change (rectangular (tree_map (cast np_double) (Node items1)) = true).
      now rewrite rectangular_tree_map, <- Ht1.
    - exists items1. split; [exact Ht1|]. split; [exact Hr1|]. now intros _. }
  destruct Hx as (items & Ht & Hr & Hint).
  set (W := fun obj : Quantity =>
    let obj := with_value (Some x) obj in
    let obj := with_dtype (Some (nd_dtype x)) obj in
    let obj := match nm with
               | None => with_name (Some "") obj
               | Some _ => with_name nm obj
               end in
    let obj := with_constant (Some k) obj in
    let obj := with_copy (Some c) obj in
    let obj := with_order o obj in
    let obj := with_subok (Some s) obj in
    let obj := with_ndmin (Some n) obj in
    with_quantity (Some true) obj).
  assert (HW : forall obj : Quantity,
             data obj = x -> unit obj <> None -> dimension obj <> DimNone ->
             let q := W obj in
             (exists a items,
                 value q = Some a /\ data q = a /\ nd_tree a = Node items /\
                 rectangular (nd_tree a) = true /\
                 _dtype q = Some (nd_dtype a) /\
                 (dtype_eqb np_double np_int = false ->
                  dtype_eqb (nd_dtype a) np_int = false)) /\
             unit q <> None /\ dimension q <> DimNone /\
             name q <> None /\ (nm = None -> name q = Some "") /\
             quantity q = Some true /\ constant q = Some k /\
             copy q = Some c /\ order q = o /\ subok q = Some s /\
             ndmin q = Some n).
  { intros obj Hdata Hunit Hdim. unfold W. destruct nm as [nm'|]; simpl;
      (split; [exists x, items; repeat split; assumption|]);
      repeat split; try assumption; try discriminate. }
  destruct u as [|z|str|e].
  - simpl. intro H. injection H as <-.
    apply (HW (with_dimension DimZero (with_unit (Some Zero) (view x))));
      [reflexivity|discriminate|discriminate].
  - destruct (get_unit (AInt z)) as [r|e] eqn:Hget; simpl; [|discriminate].
    intro H. injection H as <-.
    apply (HW (match dimension_name r with
               | Some d => with_dimension (DimName d) (with_unit (Some r) (view x))
               | None => with_dimension DimZero (with_unit (Some r) (view x))
               end)); destruct (dimension_name r); simpl;
      try reflexivity; discriminate.
  - destruct (get_unit (AStr str)) as [r|e] eqn:Hget; simpl; [|discriminate].
    intro H. injection H as <-.
    apply (HW (match dimension_name r with
               | Some d => with_dimension (DimName d) (with_unit (Some r) (view x))
               | None => with_dimension DimZero (with_unit (Some r) (view x))
               end)); destruct (dimension_name r); simpl;
      try reflexivity; discriminate.
  - destruct (get_unit (ASym e)) as [r|e'] eqn:Hget; simpl; [|discriminate].
    intro H. injection H as <-.
    apply (HW (match dimension_name r with
               | Some d => with_dimension (DimName d) (with_unit (Some r) (view x))
               | None => with_dimension DimZero (with_unit (Some r) (view x))
               end)); destruct (dimension_name r); simpl;
      try reflexivity; discriminate.
Qed.

(** [Quantity(2, "meter")] in the reference instance: the integer 2
    is stored as the double 2.0 in an array of one element. *)
Lemma constructed_quantity_is_well_formed_witness :
  Quantity_ (Examples.int 2) (AStr "meter") = Ok Examples.two_meters /\
  value Examples.two_meters = Some (Examples.vector [2%float]) /\
  data Examples.two_meters = Examples.vector [2%float] /\
  _dtype Examples.two_meters = Some Reference.float64 /\
  dtype_eqb (Numeric := Reference.numeric)
    (nd_dtype (Examples.vector [2%float])) np_int = false /\
  unit Examples.two_meters <> None /\
  dimension Examples.two_meters <> DimNone /\
  quantity Examples.two_meters = Some true.
Proof.
  destruct (constructed_quantity_is_well_formed
              Reference.numeric ReferenceUnits.units
              (Examples.int 2) (AStr "meter") None true None false 0 None
              false Examples.two_meters eq_refl)
    as ((a & items & Hv & Hd & _ & _ & Hdt & Hint) & Hu & Hdim & _ & _ & Hq & _).
  change (Some (Examples.vector [2%float]) = Some a) in Hv.
  injection Hv as <-.
  split; [reflexivity|]. split; [reflexivity|]. split; [exact Hd|].
  split; [exact Hdt|]. split; [apply Hint; reflexivity|].
  split; [exact Hu|]. split; [exact Hdim|exact Hq].
Defined.

(** Every instance [__create_new_instance] returns is well formed, and
    inherits from the instance it is made by.  Its [value] is the array
    it is a view of, a proper array of at least one axis whose dtype is
    the one recorded in [_dtype]: the dtype asked for or, without one,
    the [_dtype] of the maker.  [constant], [copy], [order], [subok] and
    [ndmin] are the maker's, [name] is the one given, [quantity] is
    [None].  The unit is [None] or what [get_unit] made of the unit
    given ([None], the integer 1 and an instance of [type(One)] all
    give [None]), and [dimension] is derived from the stored unit alone:
    the name of its dimension or [None], never [Zero]. *)
Theorem wrapped_instance_is_well_formed :
  forall (N : Numeric) (U : UnitBase) (self : Quantity) (v : pyobj)
         (u : unit_arg sym) (n : option string) (dt : option np_dtype)
         (r : Quantity),
    __create_new_instance self v u n dt = Ok r ->
    (exists a items,
        value r = Some a /\ data r = a /\ nd_tree a = Node items /\
        rectangular (nd_tree a) = true /\
        (forall d, _dtype r = Some d -> nd_dtype a = d)) /\
    _dtype r = match dt with None => _dtype self | Some _ => dt end /\
    name r = n /\ constant r = constant self /\ copy r = copy self /\
    order r = order self /\ subok r = subok self /\ ndmin r = ndmin self /\
    quantity r = None /\
    dimension r = derived_dimension (unit r) /\ dimension r <> DimZero /\
    (unit r = None \/
     exists s, unit r = Some s /\ get_unit (wrapped_unit u) = Ok s) /\
    (u = ANone \/ u = AInt 1 \/ (exists s, u = ASym s /\ isinstance_One s = true)
     -> unit r = None).
Proof.
  intros N U self v u n dt r. rewrite create_new_instance_run. cbv zeta.
  set (dt' := match dt with None => _dtype self | Some _ => dt end).
  destruct (np_array v dt' (Some false) (order self) (subok self) 0)
    as [x|e] eqn:Hx; [|discriminate].
  destruct (stored_unit (wrapped_unit u)) as [su|e] eqn:Hsu; [|discriminate].
  intro H. injection H as <-. simpl.
  apply np_array_run in Hx as [Hr Hd].
  destruct (atleast_1d_run x) as (Hd1 & [items Ht1] & Hr1).
  split.
  { exists (np_atleast_1d x), items. split; [reflexivity|].
    split; [reflexivity|]. split; [exact Ht1|].
    split; [now rewrite Hr1|].
    intros d Hdt. rewrite Hd1. now apply Hd. }
  do 8 (split; [reflexivity|]).
  split; [reflexivity|]. split; [apply derived_dimension_not_Zero|].
  split.
  - unfold stored_unit in Hsu.
    destruct (wrapped_unit u) as [|z|str|s] eqn:Hw.
    + left. now injection Hsu.
    + destruct (get_unit (AInt z)) as [g|e]; simpl in Hsu; [|discriminate].
      right. exists g. split; [now injection Hsu|reflexivity].
    + destruct (get_unit (AStr str)) as [g|e]; simpl in Hsu; [|discriminate].
      right. exists g. split; [now injection Hsu|reflexivity].
    + destruct (isinstance_One s); [left; now injection Hsu|].
      destruct (get_unit (ASym s)) as [g|e]; simpl in Hsu; [|discriminate].
      right. exists g. split; [now injection Hsu|reflexivity].
  - intros [->|[->|(s & -> & Hs)]]; simpl in Hsu.
    + now injection Hsu.
    + now injection Hsu.
    + rewrite Hs in Hsu. now injection Hsu.
Qed.

(** In the reference instance: [Quantity(1, "meter")] makes a new
    instance of the value 1.0 with the number one for a unit, and the
    instance made has no unit and no dimension. *)
Lemma wrapped_instance_is_well_formed_witness :
  __create_new_instance Examples.one_meter
    (PArr (Examples.vector [1%float])) (ASym (ReferenceUnits.Number 1))
    (Some "") None
  = Ok MoreExamples.one_without_unit /\
  value MoreExamples.one_without_unit = Some (Examples.vector [1%float]) /\
  data MoreExamples.one_without_unit = Examples.vector [1%float] /\
  unit MoreExamples.one_without_unit = None /\
  dimension MoreExamples.one_without_unit = DimNone /\
  quantity MoreExamples.one_without_unit = None /\
  constant MoreExamples.one_without_unit = constant Examples.one_meter /\
  copy MoreExamples.one_without_unit = copy Examples.one_meter.
Proof.
  destruct (wrapped_instance_is_well_formed
              Reference.numeric ReferenceUnits.units Examples.one_meter
              (PArr (Examples.vector [1%float]))
              (ASym (ReferenceUnits.Number 1)) (Some "") None
              MoreExamples.one_without_unit eq_refl)
    as ((a & items & Hv & Hd & _) & _ & _ & Hk & Hc & _ & _ & _ & Hq & Hdim
        & _ & _ & Hone).
  assert (Hu : unit MoreExamples.one_without_unit = None).
  { apply Hone. right. right. eexists. split; reflexivity. }
  change (Some (Examples.vector [1%float]) = Some a) in Hv.
  injection Hv as <-.
  split; [reflexivity|]. split; [reflexivity|]. split; [exact Hd|].
  split; [exact Hu|]. split; [now rewrite Hdim, Hu|].
  split; [exact Hq|]. split; [exact Hk|exact Hc].
Defined.

(* ================================================================== *)
(** * Conversion in place and the array of the instance *)
(* ================================================================== *)

(** A Quantity is an array, and has an array in [value]; construction
    and wrapping make the two the same array.  The in-place conversion
    assigns the attribute alone: after [convert_to(u, inplace=True)]
    has returned, [value] holds the converted values and the array the
    instance is a view of is the one it was, so the two agree only when
    the conversion changed no value. *)
Theorem in_place_conversion_leaves_the_array :
  forall (N : Numeric) (U : UnitBase) (q q' : Quantity) (u : unit_arg sym),
    convert_to u true q = (q', Ok None) ->
    data q' = data q /\
    exists (r : sym) (v : ndarray),
      get_unit u = Ok r /\ converted_value q r = Ok v /\
      value q' = Some v /\
      (value q' = Some (data q') <-> v = data q).
Proof.
  intros N U q q' u. rewrite convert_to_run.
  destruct (get_unit u) as [r|e] eqn:Hget; [|discriminate].
  destruct (converted_value q r) as [v|e] eqn:Hv; [|discriminate].
  destruct (stored_unit (ASym r)) as [su|e]; [|discriminate].
  intro H. injection H as <-. simpl.
  split; [reflexivity|]. exists r, v.
  split; [reflexivity|]. split; [exact Hv|]. split; [reflexivity|].
  split; intro H; [now injection H|now rewrite H].
Qed.

(** [Quantity(10, "kilometer")] converted to meters in place, in the
    reference instance: [value] holds 10000.0, the array itself still
    holds 10.0. *)
Lemma in_place_conversion_leaves_the_array_witness :
  convert_to (AStr "meter") true Examples.ten_kilometers
  = (Examples.ten_kilometers_in_meters, Ok None) /\
  data Examples.ten_kilometers_in_meters = Examples.vector [10%float] /\
  value Examples.ten_kilometers_in_meters
  = Some (Examples.vector [10000%float]) /\
  value Examples.ten_kilometers_in_meters
  <> Some (data Examples.ten_kilometers_in_meters).
Proof.
  destruct (in_place_conversion_leaves_the_array
              Reference.numeric ReferenceUnits.units Examples.ten_kilometers
              Examples.ten_kilometers_in_meters (AStr "meter") eq_refl)
    as (Hdata & r & v & _ & _ & Hv & Hiff).
  change (Some (Examples.vector [10000%float]) = Some v) in Hv.
  injection Hv as <-.
  split; [reflexivity|]. split; [exact Hdata|]. split; [reflexivity|].
  intro H. apply Hiff in H.
  change (Examples.vector [10000%float] = Examples.vector [10%float]) in H.
  apply (f_equal (fun x : @ndarray Reference.numeric =>
                    match nd_tree x : tree Reference.pynum with
                    | Node (Leaf (Reference.PyFloat f) :: _) =>
                        PrimFloat.eqb f 10%float
                    | _ => true
                    end)) in H.
  vm_compute in H. discriminate H.
Defined.

(* ================================================================== *)
(** * Generators and the state of the Quantity *)
(* ================================================================== *)

Section Laziness.
Context {N : Numeric} {U : UnitBase}.

(** The body of the loop, for any unit and name the generator was
    given: the item is made an array of the dtype the Quantity has
    when the item is wrapped. *)
Lemma wrap_item_any (self : Quantity) (u0 : option sym) (n0 : option string)
      (d : np_dtype) (t : tree scalar) :
  rectangular t = true -> kept_by_wrapping u0 ->
  exists qi x,
    wrap_item self u0 n0 (item_of d t) = Ok qi /\
    np_array (item_of d t) (_dtype self) (Some false) (order self)
             (subok self) 0 = Ok x /\
    value qi = Some (np_atleast_1d x) /\
    unit qi = u0 /\ name qi = n0 /\ dimension qi = derived_dimension u0.
Proof.
  intros Hr Hu. unfold wrap_item. rewrite create_new_instance_run. cbv zeta.
  destruct (np_array_accepts (item_of d t) (_dtype self) (Some false)
              (order self) (subok self) 0) as [x Hx];
    [now rewrite to_tree_item_of|].
  rewrite Hx, (stored_unit_kept _ Hu).
  eexists. exists x. split; [reflexivity|]. split; [reflexivity|].
  simpl. repeat split.
Qed.

(** A generator suspended before the items [items] of an array of
    dtype [d], run to its end on the Quantity [self]. *)
Lemma run_pending (self : Quantity) (u0 : option sym) (n0 : option string)
      (d : np_dtype) (items : list (tree scalar)) :
  rectangular (Node items) = true -> kept_by_wrapping u0 ->
  exists qs,
    mapM (wrap_item self u0 n0) (map (item_of d) items) = Ok qs /\
    take self (S (List.length items)) (Suspended (map (item_of d) items) u0 n0)
    = (Finished, Ok (qs, true)) /\
    List.length qs = List.length items /\
    forall i t,
      nth_error items i = Some t ->
      exists qi x,
        nth_error qs i = Some qi /\
        wrap_item self u0 n0 (item_of d t) = Ok qi /\
        np_array (item_of d t) (_dtype self) (Some false) (order self)
                 (subok self) 0 = Ok x /\
        value qi = Some (np_atleast_1d x) /\
        unit qi = u0 /\ name qi = n0 /\ dimension qi = derived_dimension u0.
Proof.
  intros Hr Hu.
  destruct (mapM_total (wrap_item self u0 n0) (map (item_of d) items))
    as [qs Hqs].
  { intros x Hx. apply in_map_iff in Hx as (t & <- & Hin).
    destruct (wrap_item_any self u0 n0 d t
                (rectangular_items items t Hr Hin) Hu) as (qi & _ & H & _).
    now exists qi. }
  destruct (take_suspended self u0 n0 _ qs Hqs) as [_ Hend].
  destruct (mapM_nth _ _ _ Hqs) as [Hlen Hnth].
  rewrite length_map in Hend, Hlen.
  exists qs. split; [exact Hqs|]. split; [exact Hend|]. split; [exact Hlen|].
  intros i t Hi.
  destruct (Hnth i (item_of d t)) as (y & Hy & Hw);
    [now apply map_nth_error|].
  destruct (wrap_item_any self u0 n0 d t) as (qi & x & Hw' & Hrest);
    [|exact Hu|].
  { apply (rectangular_items items t Hr). eapply nth_error_In. exact Hi. }
  assert (y = qi) as -> by congruence.
  exists qi, x. split; [exact Hy|]. split; [exact Hw'|]. exact Hrest.
Qed.

(** The first [next] on a generator made by any [__iter__] call reads
    the values the Quantity has at that moment. *)
Lemma take_first (self : Quantity) (u0 : option sym) (n0 : option string)
      (a : ndarray) (items : list (tree scalar)) (k : nat) :
  value self = Some a -> nd_tree a = Node items ->
  take self (S k) (Created u0 n0)
  = take self (S k) (Suspended (map (item_of (nd_dtype a)) items) u0 n0).
Proof.
  intros Hv Ht. rewrite !take_step. unfold next at 1, the_value, np_iter.
  rewrite Hv. simpl. rewrite Ht. reflexivity.
Qed.

End Laziness.

(** The generator of [__iter__] is bound to the unit and the name the
    Quantity has when [__iter__] is called, and reads the values at its
    first [next].  So a generator made before an in-place conversion
    and started after it yields the converted values under the unit
    from before the conversion; a generator that was started before the
    conversion goes on with the items of the values from before it.
    Stated for a unit [get_unit] resolves to itself. *)
Theorem generator_reads_the_values_at_its_first_next :
  forall (N : Numeric) (U : UnitBase) (q q' : Quantity) (u : unit_arg sym)
         (v : ndarray) (items : list (tree scalar)),
    convert_to u true q = (q', Ok None) ->
    value q' = Some v ->
    nd_tree v = Node items ->
    rectangular (nd_tree v) = true ->
    kept_by_wrapping (unit q) ->
    (exists qs : list Quantity,
        take q' (S (List.length items)) (__iter__ q)
        = (Finished, Ok (qs, true)) /\
        List.length qs = List.length items /\
        forall i t,
          nth_error items i = Some t ->
          exists qi x,
            nth_error qs i = Some qi /\
            np_array (item_of (nd_dtype v) t) (_dtype q) (Some false)
                     (order q) (subok q) 0 = Ok x /\
            value qi = Some (np_atleast_1d x) /\
            unit qi = unit q /\ name qi = name q) /\
    (forall (a : ndarray) (first : tree scalar) (rest : list (tree scalar)),
        value q = Some a ->
        nd_tree a = Node (first :: rest) ->
        rectangular (nd_tree a) = true ->
        exists (q0 : Quantity) (g : generator) (qs : list Quantity),
          next q (__iter__ q) = (g, Ok (Some q0)) /\
          take q' (S (List.length rest)) g = (Finished, Ok (qs, true)) /\
          List.length qs = List.length rest /\
          forall i t,
            nth_error rest i = Some t ->
            exists qi x,
              nth_error qs i = Some qi /\
              np_array (item_of (nd_dtype a) t) (_dtype q) (Some false)
                       (order q) (subok q) 0 = Ok x /\
              value qi = Some (np_atleast_1d x) /\
              unit qi = unit q /\ name qi = name q).
Proof.
  intros N U q q' u v items Hc Hv Ht Hr Hu.
  assert (Hsame : _dtype q' = _dtype q /\ order q' = order q /\
                  subok q' = subok q).
  { rewrite convert_to_run in Hc.
    destruct (get_unit u) as [r|e]; [|discriminate].
    destruct (converted_value q r) as [w|e]; [|discriminate].
    destruct (stored_unit (ASym r)) as [su|e]; [|discriminate].
    injection Hc as <-. repeat split. }
  destruct Hsame as (Hdt & Ho & Hs).
  split.
  - rewrite Ht in Hr.
    destruct (run_pending q' (unit q) (name q) (nd_dtype v) items Hr Hu)
      as (qs & _ & Hend & Hlen & Hnth).
    exists qs. split; [|split; [exact Hlen|]].
    + unfold __iter__. rewrite (take_first q' _ _ v items _ Hv Ht).
      exact Hend.
    + intros i t Hi. destruct (Hnth i t Hi) as (qi & x & H1 & _ & H2 & H3).
      rewrite Hdt, Ho, Hs in H2.
      exists qi, x. split; [exact H1|]. split; [exact H2|].
      destruct H3 as (H3 & H4 & H5 & _). now repeat split.
  - intros a first rest Hva Hta Hra. rewrite Hta in Hra.
    destruct (wrap_item_any q (unit q) (name q) (nd_dtype a) first)
      as (q0 & _ & Hw0 & _); [|exact Hu|].
    { apply (rectangular_items (first :: rest) first Hra). now left. }
    assert (Hrest : rectangular (Node rest) = true).
    { simpl in Hra. apply andb_true_iff in Hra as [H1 H2].
      apply andb_true_iff in H1 as [_ H1].
      simpl. rewrite H1. simpl. destruct rest as [|t rest']; [reflexivity|].
      simpl in H2. apply andb_true_iff in H2 as [H2 H2'].
      rewrite forallb_forall in H2'. apply forallb_forall. intros y Hy.
      specialize (H2' y Hy). unfold shape_eqb in *.
      destruct (list_eq_dec Nat.eq_dec (shape y) (shape first));
        [|discriminate].
      destruct (list_eq_dec Nat.eq_dec (shape t) (shape first));
        [|discriminate].
      destruct (list_eq_dec Nat.eq_dec (shape y) (shape t));
        [reflexivity|congruence]. }
    destruct (run_pending q' (unit q) (name q) (nd_dtype a) rest Hrest Hu)
      as (qs & _ & Hend & Hlen & Hnth).
    exists q0, (Suspended (map (item_of (nd_dtype a)) rest) (unit q) (name q)),
      qs.
    split; [|split; [exact Hend|split; [exact Hlen|]]].
    + unfold __iter__, next, the_value, np_iter. rewrite Hva. simpl.
      rewrite Hta. simpl. unfold wrap_item in Hw0. now rewrite Hw0.
    + intros i t Hi. destruct (Hnth i t Hi) as (qi & x & H1 & _ & H2 & H3).
      rewrite Hdt, Ho, Hs in H2.
      exists qi, x. split; [exact H1|]. split; [exact H2|].
      destruct H3 as (H3 & H4 & H5 & _). now repeat split.
Qed.

(** [Quantity(10, "kilometer")] in the reference instance: a generator
    is made, the Quantity is converted to meters in place, and the
    generator then yields 10000.0 in kilometers. *)
Lemma generator_reads_the_values_at_its_first_next_witness :
  convert_to (AStr "meter") true Examples.ten_kilometers
  = (Examples.ten_kilometers_in_meters, Ok None) /\
  value Examples.ten_kilometers_in_meters
  = Some (Examples.vector [10000%float]) /\
  kept_by_wrapping (unit Examples.ten_kilometers) /\
  take Examples.ten_kilometers_in_meters 2 (__iter__ Examples.ten_kilometers)
  = (Finished, Ok (MoreExamples.yielded_after_conversion, true)) /\
  map value MoreExamples.yielded_after_conversion
  = [Some (Examples.vector [10000%float])] /\
  map unit MoreExamples.yielded_after_conversion = [Some Examples.kilometer] /\
  unit Examples.ten_kilometers_in_meters = Some Examples.meter.
Proof.
  assert (Hu : kept_by_wrapping (unit Examples.ten_kilometers)).
  { right. exists Examples.kilometer. split; [reflexivity|].
    split; reflexivity. }
  destruct (generator_reads_the_values_at_its_first_next
              Reference.numeric ReferenceUnits.units Examples.ten_kilometers
              Examples.ten_kilometers_in_meters (AStr "meter")
              (Examples.vector [10000%float]) _
              eq_refl eq_refl eq_refl eq_refl Hu) as ((qs & Htake & _) & _).
  assert (E : take Examples.ten_kilometers_in_meters 2
                (__iter__ Examples.ten_kilometers)
              = (Finished, Ok (MoreExamples.yielded_after_conversion, true)))
    by reflexivity.
  assert (Hq : qs = MoreExamples.yielded_after_conversion).
  { pose proof (eq_trans (eq_sym Htake) E) as Hq. now injection Hq. }
  rewrite Hq in Htake.
  split; [reflexivity|]. split; [reflexivity|]. split; [exact Hu|].
  split; [exact Htake|].
  split; [reflexivity|]. split; reflexivity.
Defined.

(* ================================================================== *)
(** * Indexing *)
(* ================================================================== *)

Section IndexingProperties.
Context {N : Numeric} {U : UnitBase}.

Lemma shape_eqb_eq (s1 s2 : list nat) : shape_eqb s1 s2 = true <-> s1 = s2.
Proof.
  unfold shape_eqb. destruct (list_eq_dec Nat.eq_dec s1 s2); split;
    intro H; try reflexivity; try assumption; try discriminate; contradiction.
Qed.

(** The items of a proper array are proper arrays of one shape. *)
Lemma rectangular_Node_iff {A : Type} (l : list (tree A)) :
  rectangular (Node l) = true <->
  Forall (fun t => rectangular t = true) l /\
  exists s, Forall (fun t => shape t = s) l.
Proof.
  simpl. rewrite andb_true_iff, forallb_forall, <- Forall_forall.
  split; intros [H1 H2]; (split; [exact H1|]).
  - destruct l as [|x xs]; [exists []; constructor|].
    exists (shape x). constructor; [reflexivity|].
    rewrite forallb_forall in H2. apply Forall_forall. intros y Hy.
    now apply shape_eqb_eq, H2.
  - destruct H2 as [s Hs]. destruct l as [|x xs]; [reflexivity|].
    inversion Hs as [|? ? Hx Hxs]; subst.
    apply forallb_forall. intros y Hy. apply shape_eqb_eq.
    rewrite Forall_forall in Hxs. now apply Hxs.
Qed.

Lemma Forall_slice {A : Type} (P : A -> Prop) (k j : nat) (l : list A) :
  Forall P l -> Forall P (firstn k (skipn j l)).
Proof.
  intro H.
  assert (Hs : Forall P (skipn j l)).
  { clear k. revert j. induction H as [|x l Hx Hl IH]; intros [|j]; simpl;
      try constructor; auto. }
  clear H. revert k. induction Hs as [|x l' Hx Hl IH]; intros [|k]; simpl;
    constructor; auto.
Qed.

(** A slice of a proper array is a proper array. *)
Lemma rectangular_slice {A : Type} (k j : nat) (l : list (tree A)) :
  rectangular (Node l) = true ->
  rectangular (Node (firstn k (skipn j l))) = true.
Proof.
  rewrite !rectangular_Node_iff. intros [H1 [s H2]].
  split; [now apply Forall_slice|]. exists s. now apply Forall_slice.
Qed.

Lemma slice_bound_range (n : Z) (bound : option Z) (default : Z) :
  (0 <= n -> 0 <= default <= n -> 0 <= slice_bound n bound default <= n)%Z.
Proof.
  intros Hn Hd. unfold slice_bound. destruct bound as [i|]; [|exact Hd].
  destruct (Z.ltb_spec i 0); lia.
Qed.

(** An integer inside the axis selects the item at its position,
    counted from the end when it is negative. *)
Lemma np_getitem_inside (a : ndarray) (items : list (tree scalar)) (i : Z)
      (t : tree scalar) :
  nd_tree a = Node items ->
  (0 <= i)%Z -> nth_error items (Z.to_nat i) = Some t ->
  np_getitem a (AtInt i) = Indexed (item_of (nd_dtype a) t) /\
  np_getitem a (AtInt (i - Z.of_nat (List.length items)))
  = Indexed (item_of (nd_dtype a) t).
Proof.
  intros Ht Hi Hn.
  assert (Hlt : (i < Z.of_nat (List.length items))%Z).
  { assert (Z.to_nat i < List.length items)
      by (apply nth_error_Some; congruence). lia. }
  unfold np_getitem. rewrite Ht. cbv zeta. split.
  - destruct (Z.ltb_spec i 0); [lia|].
    destruct (Z.leb_spec 0 i); [|lia].
    destruct (Z.ltb_spec i (Z.of_nat (List.length items))); [|lia].
    simpl. now rewrite Hn.
  - destruct (Z.ltb_spec (i - Z.of_nat (List.length items)) 0); [|lia].
    replace (i - Z.of_nat (List.length items) + Z.of_nat (List.length items))%Z
      with i by lia.
    destruct (Z.leb_spec 0 i); [|lia].
    destruct (Z.ltb_spec i (Z.of_nat (List.length items))); [|lia].
    simpl. now rewrite Hn.
Qed.

(** An integer outside the axis is an [IndexError]. *)
Lemma np_getitem_outside (a : ndarray) (items : list (tree scalar)) (i : Z) :
  nd_tree a = Node items ->
  (i < - Z.of_nat (List.length items) \/ Z.of_nat (List.length items) <= i)%Z ->
  np_getitem a (AtInt i) = IndexError.
Proof.
  intros Ht Hi. unfold np_getitem. rewrite Ht. cbv zeta.
  destruct (Z.ltb_spec i 0).
  - destruct (Z.leb_spec 0 (i + Z.of_nat (List.length items))); [lia|].
    reflexivity.
  - destruct (Z.leb_spec 0 i); [|reflexivity].
    destruct (Z.ltb_spec i (Z.of_nat (List.length items))); [lia|].
    reflexivity.
Qed.

End IndexingProperties.

(** Indexing agrees with iteration.  For a Quantity with [n] items
    along its first axis, in a unit [get_unit] resolves to itself:
    [q[i]] for [0 <= i < n] is the Quantity iteration yields at position
    [i], and [q[i - n]] is the same Quantity; an integer outside
    [-n, n) raises [IndexError]; a slice [q[start:stop]] never raises
    and returns a Quantity over the items from the adjusted [start] up
    to the adjusted [stop], each element converted to the Quantity's
    dtype, with the Quantity's unit and name. *)
Theorem indexing_agrees_with_iteration :
  forall (N : Numeric) (U : UnitBase) (q : Quantity) (a : ndarray)
         (items : list (tree scalar)),
    value q = Some a ->
    nd_tree a = Node items ->
    rectangular (nd_tree a) = true ->
    kept_by_wrapping (unit q) ->
    exists qs : list Quantity,
      take q (S (List.length items)) (__iter__ q) = (Finished, Ok (qs, true)) /\
      (forall i : Z,
          (0 <= i < Z.of_nat (List.length items))%Z ->
          exists qi,
            nth_error qs (Z.to_nat i) = Some qi /\
            __getitem__ q (AtInt i) = Indexed qi /\
            __getitem__ q (AtInt (i - Z.of_nat (List.length items)))
            = Indexed qi /\
            unit qi = unit q /\ name qi = name q) /\
      (forall i : Z,
          (i < - Z.of_nat (List.length items)
           \/ Z.of_nat (List.length items) <= i)%Z ->
          __getitem__ q (AtInt i) = IndexError) /\
      (forall start stop : option Z,
          let n := Z.of_nat (List.length items) in
          let lo := slice_bound n start 0 in
          let hi := slice_bound n stop n in
          let selected := firstn (Z.to_nat (hi - lo)) (skipn (Z.to_nat lo) items) in
          exists (r : Quantity) (x : ndarray),
            __getitem__ q (AtSlice start stop) = Indexed r /\
            value r = Some x /\
            nd_tree x = Node (map (tree_map (cast (nd_dtype x))) selected) /\
            List.length selected = Z.to_nat (hi - lo) /\
            unit r = unit q /\ name r = name q).
Proof.
  intros N U q a items Hv Ht Hr Hu.
  rewrite Ht in Hr.
  destruct (run_pending q (unit q) (name q) (nd_dtype a) items Hr Hu)
    as (qs & _ & Hend & Hlen & Hnth).
  exists qs. split; [|split; [|split]].
  - unfold __iter__. rewrite (take_first q _ _ a items _ Hv Ht). exact Hend.
  - intros i [Hi0 Hi1].
    destruct (nth_error items (Z.to_nat i)) as [t|] eqn:Hn.
    2:{ apply nth_error_None in Hn. lia. }
    destruct (Hnth _ t Hn) as (qi & x & H1 & Hw & _ & _ & H2 & H3 & _).
    destruct (np_getitem_inside a items i t Ht Hi0 Hn) as [Hg1 Hg2].
    exists qi. split; [exact H1|].
    unfold wrap_item in Hw.
    unfold __getitem__, the_value. rewrite Hv, Hg1, Hg2, Hw.
    now repeat split.
  - intros i Hi. unfold __getitem__, the_value.
    now rewrite Hv, (np_getitem_outside a items i Ht Hi).
  - intros start stop n lo hi selected.
    assert (Hn : (0 <= n)%Z) by (unfold n; lia).
    assert (Hlo : (0 <= lo <= n)%Z)
      by (apply slice_bound_range; lia).
    assert (Hhi : (0 <= hi <= n)%Z)
      by (apply slice_bound_range; lia).
    assert (Hsel : rectangular (Node selected) = true)
      by (now apply rectangular_slice).
    destruct (np_array_accepts
                (PArr (mk_ndarray (nd_dtype a) (Node selected))) (_dtype q)
                (Some false) (order q) (subok q) 0 Hsel) as [x Hx].
    exists (mk_Quantity (np_atleast_1d x) (unit q) (Some (np_atleast_1d x))
              (name q) (constant q) (_dtype q) (copy q) (order q) (subok q)
              (ndmin q) (derived_dimension (unit q)) None),
      (np_atleast_1d x).
    assert (Hx' : nd_tree x
                  = Node (map (tree_map (cast (nd_dtype x))) selected)).
    { unfold np_array in Hx. simpl to_tree in Hx. simpl nd_tree in Hx.
      rewrite Hsel in Hx. injection Hx as <-. reflexivity. }
    assert (Hat : np_atleast_1d x = x).
    { unfold np_atleast_1d. now rewrite Hx'. }
    split; [|split; [reflexivity|split; [|split; [|split; reflexivity]]]].
    + unfold __getitem__, the_value. rewrite Hv.
      unfold np_getitem. rewrite Ht. cbv zeta.
      fold n. fold lo. fold hi. fold selected.
      rewrite create_new_instance_run. cbv zeta.
      rewrite Hx, (stored_unit_kept _ Hu). reflexivity.
    + rewrite Hat. exact Hx'.
    + unfold selected. rewrite length_firstn, length_skipn.
      fold n. lia.
Qed.

(** [Quantity([1, 2, 3], "meter", name="d")] in the reference
    instance: [q[1]] and [q[-2]] are the second Quantity iteration
    yields, [q[3]] raises [IndexError], and [q[1:]] holds 2.0 and
    3.0. *)
Lemma indexing_agrees_with_iteration_witness :
  value Examples.three_lengths
  = Some (Examples.vector [1%float; 2%float; 3%float]) /\
  kept_by_wrapping (unit Examples.three_lengths) /\
  nth_error Examples.three_lengths_items 1 = Some MoreExamples.second_length /\
  __getitem__ Examples.three_lengths (AtInt 1)
  = Indexed MoreExamples.second_length /\
  __getitem__ Examples.three_lengths (AtInt (-2))
  = Indexed MoreExamples.second_length /\
  __getitem__ Examples.three_lengths (AtInt 3) = IndexError /\
  __getitem__ Examples.three_lengths (AtSlice (Some 1%Z) None)
  = Indexed MoreExamples.last_two_lengths /\
  value MoreExamples.last_two_lengths
  = Some (Examples.vector [2%float; 3%float]).
Proof.
  assert (Hu : kept_by_wrapping (unit Examples.three_lengths)).
  { right. exists Examples.meter. split; [reflexivity|]. split; reflexivity. }
  destruct (indexing_agrees_with_iteration
              Reference.numeric ReferenceUnits.units Examples.three_lengths
              (Examples.vector [1%float; 2%float; 3%float]) _
              eq_refl eq_refl eq_refl Hu) as (qs & _ & Hin & Hout & _).
  destruct (Hin 1%Z) as (qi & _ & H1 & H2 & _); [simpl; lia|].
  assert (E : __getitem__ Examples.three_lengths (AtInt 1)
              = Indexed MoreExamples.second_length) by reflexivity.
  assert (Hq : qi = MoreExamples.second_length).
  { pose proof (eq_trans (eq_sym H1) E) as Hq. now injection Hq. }
  rewrite Hq in H2.
  split; [reflexivity|]. split; [exact Hu|]. split; [reflexivity|].
  split; [exact E|]. split; [exact H2|].
  split; [apply Hout; simpl; lia|].
  split; reflexivity.
Defined.

(* ================================================================== *)
(** * The unit as text *)
(* ================================================================== *)

Section Display.
Context {N : Numeric} {U : UnitBase} {Aux : Auxil}.

(** The comparison of the character [c] the goal waits for. *)
Ltac compare_with c :=
  match goal with
  | |- context [Ascii.ascii_dec ?a c] =>
      destruct (Ascii.ascii_dec a c) as [<-|]
  end.

Lemma prefix_two_stars (s : string) :
  String.prefix "**" s = true <-> exists r, s = ("**" ++ r)%string.
Proof.
  split.
  - destruct s as [|c [|c' r]]; cbn [String.prefix]; try discriminate.
    + compare_with c; discriminate.
    + compare_with c; [|discriminate].
      compare_with c'; [|discriminate].
      intros _. now exists r.
  - intros [[|c r] ->]; reflexivity.
Qed.

Lemma replace_two_stars (r : string) :
  replace_from "**" "^" 0 ("**" ++ r)%string
  = ("^" ++ replace_from "**" "^" 0 r)%string.
Proof. destruct r; reflexivity. Qed.

Lemma replace_other (c : Ascii.ascii) (rest : string) :
  String.prefix "**" (String c rest) = false ->
  replace_from "**" "^" 0 (String c rest)
  = String c (replace_from "**" "^" 0 rest).
Proof.
  intro H. cbn [replace_from]. now rewrite H.
Qed.

Lemma occurs_cons (old : string) (c : Ascii.ascii) (rest : string) :
  occurs old (String c rest)
  = String.prefix old (String c rest) || occurs old rest.
Proof. reflexivity. Qed.

(** After the replacement no two stars stand side by side, and the
    result starts with a star only where the input starts with a
    single one. *)
Lemma replace_leaves_no_two_stars (n : nat) (s : string) :
  String.length s <= n ->
  occurs "**" (replace_from "**" "^" 0 s) = false /\
  (forall t, replace_from "**" "^" 0 s = ("*" ++ t)%string ->
             String.prefix "**" s = false /\
             exists r, s = ("*" ++ r)%string).
Proof.
  revert s. induction n as [|n IH]; intros s Hn.
  - destruct s; [|simpl in Hn; lia]. split; [reflexivity|discriminate].
  - destruct s as [|c rest]; [split; [reflexivity|discriminate]|].
    simpl in Hn.
    destruct (String.prefix "**" (String c rest)) eqn:P.
    + apply prefix_two_stars in P as [r E]. rewrite E, replace_two_stars.
      simpl in E. injection E as -> ->. simpl in Hn.
      destruct (IH r) as [H1 _]; [lia|].
      split; [|discriminate].
      simpl append. rewrite occurs_cons, H1. reflexivity.
    + rewrite (replace_other c rest P).
      destruct (IH rest) as [H1 H2]; [lia|].
      split.
      * rewrite occurs_cons, H1, orb_false_r.
        destruct (String.prefix "**"
                    (String c (replace_from "**" "^" 0 rest))) eqn:Q;
          [|reflexivity].
        apply prefix_two_stars in Q as [r E]. simpl in E.
        injection E as -> E.
        destruct (H2 r E) as [_ [r' Hr']]. rewrite Hr' in P.
        rewrite (proj2 (prefix_two_stars _)) in P; [discriminate|].
        exists r'. reflexivity.
      * intros t E. simpl in E. injection E as -> _.
        split; [reflexivity|]. exists rest. reflexivity.
Qed.

Lemma occurs_before_dollar (t : string) :
  occurs "**" (t ++ "$")%string = occurs "**" t.
Proof.
  induction t as [|c t IH]; [reflexivity|].
  change (String c t ++ "$")%string with (String c (t ++ "$")%string).
  rewrite !occurs_cons, IH. f_equal.
  cbn [String.prefix]. compare_with c; [|reflexivity].
  destruct t as [|c' t]; cbn [String.prefix append].
  - reflexivity.
  - compare_with c'; [destruct t|]; reflexivity.
Qed.

(** A text without two stars side by side is left as it is. *)
Lemma replace_without_two_stars (s : string) :
  occurs "**" s = false -> replace_from "**" "^" 0 s = s.
Proof.
  induction s as [|c rest IH]; [reflexivity|].
  rewrite occurs_cons. intro H. apply orb_false_iff in H as [P H].
  rewrite (replace_other c rest P), (IH H). reflexivity.
Qed.

End Display.

(** The unit as math text never holds the power sign of Python.
    [unit_mathstr] is "-" for a unit in [__NONE_UNITS__]; otherwise it
    is [str(unit)] between two dollar signs with every "**" replaced
    by "^", and in no case does "**" occur in it, whatever [str] makes
    of the unit (a run of three stars becomes "^*").  A unit whose text
    has no "**" is shown as it is. *)
Theorem unit_mathstr_has_no_double_star :
  forall (N : Numeric) (U : UnitBase) (Aux : Auxil) (q : Quantity),
    occurs "**" (unit_mathstr q) = false /\
    (in_NONE_UNITS (unit q) = true ->
     unitstr q = "-" /\ unit_mathstr q = "-") /\
    (in_NONE_UNITS (unit q) = false ->
     unitstr q = str_unit (unit q) /\
     unit_mathstr q
     = ("$" ++ str_replace (str_unit (unit q)) "**" "^" ++ "$")%string /\
     (occurs "**" (str_unit (unit q)) = false ->
      unit_mathstr q = ("$" ++ str_unit (unit q) ++ "$")%string)).
Proof.
  intros N U Aux q. unfold unit_mathstr, unitstr.
  destruct (in_NONE_UNITS (unit q)).
  - split; [reflexivity|]. split; [now split|discriminate].
  - split; [|split; [discriminate|]].
    + change ("$" ++ str_replace (str_unit (unit q)) "**" "^" ++ "$")%string
        with (String (Ascii.ascii_of_nat 36)
                (replace_from "**" "^" 0 (str_unit (unit q)) ++ "$")%string).
      rewrite occurs_cons, occurs_before_dollar.
      destruct (replace_leaves_no_two_stars
                  (String.length (str_unit (unit q))) (str_unit (unit q))
                  (le_n _)) as [H _].
      rewrite H. reflexivity.
    + intros _. split; [reflexivity|]. split; [reflexivity|].
      intro H. unfold str_replace. now rewrite (replace_without_two_stars _ H).
Qed.

(** [Quantity(2, "meter") * Quantity(5, "meter")] in the reference
    instance is shown in "meter**2", as math text in "$meter^2$"; a
    Quantity without a unit is shown with "-". *)
Lemma display_of_square_meters :
  unitstr (Aux := ReferenceAuxil.auxil) MoreExamples.ten_square_meters
  = "meter**2" /\
  unit_mathstr (Aux := ReferenceAuxil.auxil) MoreExamples.ten_square_meters
  = "$meter^2$" /\
  unit_mathstr (Aux := ReferenceAuxil.auxil) MoreExamples.one_without_unit
  = "-".
Proof.
  repeat split; reflexivity.
Qed.

(* ================================================================== *)
(** * The unary operators *)
(* ================================================================== *)

Section Unary.
Context {N : Numeric} {U : UnitBase} {Aux : Auxil}.

(** The four unary methods are the same three statements. *)
Lemma unary_methods_run (co_name : string) (f : Quantity -> result Quantity)
      (self : Quantity) :
  In (co_name, f) unary_methods ->
  f self =
  (name' <- UFUNC_NAME_unary co_name ;;
   value' <- call_OPERATOR (OPERATORS_get name') self ;;
   __create_new_instance self (PArr value') (as_arg (unit self)) (name self)
     None)%py.
Proof.
  intro H. simpl in H.
  repeat (destruct H as [H|H]; [injection H as <- <-; reflexivity|]).
  contradiction.
Qed.

End Unary.

(** The unary operators [+q], [-q], [abs(q)] and [~q].  A method whose
    name is missing from [__UFUNC_NAME__] raises [KeyError]; one whose
    operator is missing from [__OPERATORS__] raises [TypeError], since
    the table is read with [get]; an exception of the operator is the
    exception of the method.  Otherwise the result of the operator is
    made an array of the Quantity's dtype and wrapped in a new Quantity
    with the Quantity's name, [constant], [copy], [order], [subok] and
    [ndmin], with its unit when [get_unit] resolves that unit to itself,
    and with the dimension derived from the unit. *)
Theorem unary_operators_keep_unit_and_name :
  forall (N : Numeric) (U : UnitBase) (Aux : Auxil) (co_name : string)
         (f : Quantity -> result Quantity) (self : Quantity),
    In (co_name, f) unary_methods ->
    (forall e, UFUNC_NAME_unary co_name = Raise e -> f self = Raise e) /\
    (forall key,
        UFUNC_NAME_unary co_name = Ok key -> OPERATORS_get key = None ->
        f self = Raise TypeError) /\
    (forall key OPERATOR a,
        UFUNC_NAME_unary co_name = Ok key ->
        OPERATORS_get key = Some OPERATOR ->
        value self = Some a ->
        (forall e, OPERATOR a = Raise e -> f self = Raise e) /\
        (forall out,
            OPERATOR a = Ok out ->
            rectangular (nd_tree out) = true ->
            kept_by_wrapping (unit self) ->
            exists r x,
              f self = Ok r /\
              np_array (PArr out) (_dtype self) (Some false) (order self)
                       (subok self) 0 = Ok x /\
              value r = Some (np_atleast_1d x) /\
              unit r = unit self /\ name r = name self /\
              dimension r = derived_dimension (unit self) /\
              _dtype r = _dtype self /\ constant r = constant self /\
              copy r = copy self /\ order r = order self /\
              subok r = subok self /\ ndmin r = ndmin self)).
Proof.
  intros N U Aux co_name f self Hin.
  rewrite (unary_methods_run co_name f self Hin).
  split; [|split].
  - intros e ->. reflexivity.
  - intros key -> Hk. simpl. now rewrite Hk.
  - intros key OPERATOR a -> Hk Hv. simpl. rewrite Hk.
    unfold call_OPERATOR, the_value. rewrite Hv. simpl. split.
    + intros e ->. reflexivity.
    + intros out -> Hr Hu. simpl.
      rewrite create_new_instance_run. cbv zeta.
      destruct (np_array_accepts (PArr out) (_dtype self) (Some false)
                  (order self) (subok self) 0 Hr) as [x Hx].
      rewrite Hx, (stored_unit_kept _ Hu).
      eexists. exists x. split; [reflexivity|]. split; [reflexivity|].
      simpl. repeat split.
Qed.

(** [-Quantity(2, "meter")] in the reference instance is -2.0 in
    meters. *)
Lemma unary_operators_keep_unit_and_name_witness :
  In ("__neg__", __neg__ (Aux := ReferenceAuxil.auxil))
     (unary_methods (Aux := ReferenceAuxil.auxil)) /\
  __neg__ (Aux := ReferenceAuxil.auxil) Examples.two_meters
  = Ok MoreExamples.minus_two_meters /\
  value MoreExamples.minus_two_meters = Some (Examples.vector [(-2)%float]) /\
  unit MoreExamples.minus_two_meters = unit Examples.two_meters /\
  name MoreExamples.minus_two_meters = name Examples.two_meters.
Proof.
  assert (Hin : In ("__neg__", __neg__ (Aux := ReferenceAuxil.auxil))
                   (unary_methods (Aux := ReferenceAuxil.auxil)))
    by (right; left; reflexivity).
  assert (Hu : kept_by_wrapping (unit Examples.two_meters)).
  { right. exists Examples.meter. split; [reflexivity|]. split; reflexivity. }
  destruct (unary_operators_keep_unit_and_name
              Reference.numeric ReferenceUnits.units ReferenceAuxil.auxil
              "__neg__" __neg__ Examples.two_meters Hin) as (_ & _ & H).
  destruct (H "negative" (ReferenceAuxil.elementwise ReferenceAuxil.negative)
              (Examples.vector [2%float]) eq_refl eq_refl eq_refl)
    as [_ H'].
  destruct (H' (Examples.vector [(-2)%float]) eq_refl eq_refl Hu)
    as (r & x & Hr & _ & _ & Hunit & Hname & _).
  assert (E : __neg__ (Aux := ReferenceAuxil.auxil) Examples.two_meters
              = Ok MoreExamples.minus_two_meters) by reflexivity.
  assert (Hq : r = MoreExamples.minus_two_meters).
  { pose proof (eq_trans (eq_sym Hr) E) as Hq. now injection Hq. }
  rewrite Hq in Hunit, Hname.
  split; [exact Hin|]. split; [exact E|]. split; [reflexivity|].
  split; [exact Hunit|exact Hname].
Defined.

(* ================================================================== *)
(** * What a binary operator hands to its result *)
(* ================================================================== *)

(** The ten unit-wrapping operators, direct and reflected alike.  An
    operand that is no Quantity is made an array of at least one axis;
    one numpy refuses raises [ValueError], and so does the operator.
    An exception of [compute_operation] is the exception of the
    operator.  A Quantity that is returned has the name and the dtype
    [compute_operation] resolved (the dtype of [self] when it resolved
    none), and the [constant], [copy], [order], [subok] and [ndmin] of
    [self], the Quantity the method is called on, which for a reflected
    operator is the right operand; its [value] is the array it is a
    view of, and its [quantity] is [None]. *)
Theorem binary_results_inherit_from_self :
  forall (N : Numeric) (U : UnitBase) (Ops : Operations)
         (method_name : string) (op : ufunc) (rh : bool)
         (f : Quantity -> other_arg -> result Quantity)
         (self : Quantity) (other : other_arg),
    In (method_name, op, rh, f) unit_wrapping_methods ->
    (forall v, other = OtherRaw v -> rectangular (to_tree v) = false ->
               f self other = Raise ValueError) /\
    (forall o e, __check_other self other = Ok o ->
                 compute_operation self o op rh = Raise e ->
                 f self other = Raise e) /\
    (forall r,
        f self other = Ok r ->
        exists o v u dt nm,
          __check_other self other = Ok o /\
          (forall q, other = OtherQuantity q -> o = OpQuantity q) /\
          (forall a, o = OpArray a -> exists items, nd_tree a = Node items) /\
          compute_operation self o op rh = Ok (v, u, dt, nm) /\
          name r = nm /\
          _dtype r = match dt with None => _dtype self | Some _ => dt end /\
          constant r = constant self /\ copy r = copy self /\
          order r = order self /\ subok r = subok self /\
          ndmin r = ndmin self /\
          value r = Some (data r) /\ quantity r = None).
Proof.
  intros N U Ops method_name op rh f self other Hin.
  rewrite (unit_wrapping_methods_run method_name op rh f self other Hin).
  split; [|split].
  - intros v -> Hv. unfold __check_other, np_asarray.
    now rewrite (np_array_refuses v None (Some false) None (Some false) 0 Hv).
  - intros o e -> Hc. simpl. now rewrite Hc.
  - intros r.
    destruct (__check_other self other) as [o|e] eqn:Ho; [|discriminate].
    simpl.
    destruct (compute_operation self o op rh) as [[[[v u] dt] nm]|e] eqn:Hc;
      [|discriminate].
    simpl. rewrite create_new_instance_run. cbv zeta.
    destruct (np_array v _ (Some false) (order self) (subok self) 0)
      as [x|e]; [|discriminate].
    destruct (stored_unit _) as [su|e]; [|discriminate].
    intro H. injection H as <-.
    exists o, v, u, dt, nm. split; [reflexivity|]. split; [|split].
    + intros q ->. simpl in Ho. now injection Ho as <-.
    + intros a ->. unfold __check_other in Ho.
      destruct other as [q|w]; [discriminate|].
      destruct (np_asarray w) as [y|e]; simpl in Ho; [|discriminate].
      injection Ho as <-. apply atleast_1d_run.
    + split; [exact Hc|]. simpl. repeat split.
Qed.

(** [Quantity(2, "meter") + Quantity(5, "meter")] in the reference
    instance. *)
Lemma binary_results_inherit_from_self_witness :
  In ("__add__", np_add, false, __add__ (Ops := ReferenceUnits.operations))
     (unit_wrapping_methods (Ops := ReferenceUnits.operations)) /\
  __add__ (Ops := ReferenceUnits.operations)
    Examples.two_meters (OtherQuantity Examples.five_meters)
  = Ok Examples.seven_meters /\
  constant Examples.seven_meters = constant Examples.two_meters /\
  copy Examples.seven_meters = copy Examples.two_meters /\
  value Examples.seven_meters = Some (data Examples.seven_meters) /\
  quantity Examples.seven_meters = None.
Proof.
  assert (Hin : In ("__add__", np_add, false,
                    __add__ (Ops := ReferenceUnits.operations))
                   (unit_wrapping_methods (Ops := ReferenceUnits.operations)))
    by (do 4 right; left; reflexivity).
  destruct (binary_results_inherit_from_self
              Reference.numeric ReferenceUnits.units ReferenceUnits.operations
              "__add__" np_add false __add__ Examples.two_meters
              (OtherQuantity Examples.five_meters) Hin) as (_ & _ & H).
  destruct (H Examples.seven_meters eq_refl)
    as (o & v & u & dt & nm & _ & _ & _ & _ & _ & _ & Hk & Hc & _ & _ & _
        & Hv & Hq).
  split; [exact Hin|]. split; [reflexivity|].
  split; [exact Hk|]. split; [exact Hc|]. split; [exact Hv|exact Hq].
Defined.
